(** * Multi-agent image analysis: orchestration core

    A shallow embedding of the Python agents
    ([analysis_agent.py], [coordinator_agent.py],
    [model_management_agent.py], [image_processing_agent.py]) and the
    properties of their orchestration logic.

    Python objects live in one [World]; every method is a function in the
    monad [M], which threads the world and propagates exceptions the way
    Python does (mutations made before a [raise] stay visible). *)

From Stdlib Require Import String Ascii List ZArith Bool Lia Arith.
From Stdlib Require Import DecimalString.
From Stdlib Require Import QArith Qpower Lqa.
From Stdlib Require Import Floats.SpecFloat.
Import ListNotations.
Local Open Scope list_scope.
Local Open Scope string_scope.
Local Open Scope Z_scope.

Set Implicit Arguments.

(** ** Python basics *)

(** The result of running a piece of Python: a value, or an exception
    carrying the text [str(e)] that the handlers of the agents print. *)
Inductive outcome (A : Type) : Type :=
| Returns (a : A)
| Raises (msg : string).
Arguments Returns {A} a.
Arguments Raises {A} msg.

Definition returned {A} (o : outcome A) : bool :=
  match o with Returns _ => true | Raises _ => false end.

(** IEEE-754 binary64, the representation of a Python [float]. *)
Definition float := spec_float.
Definition prec : Z := 53.
Definition emax : Z := 1024.

Definition float_of_int (n : Z) : float := binary_normalize prec emax n 0 false.
Definition fmul : float -> float -> float := SFmul prec emax.
Definition fdiv : float -> float -> float := SFdiv prec emax.
Definition fadd : float -> float -> float := SFadd prec emax.
Definition fsub : float -> float -> float := SFsub prec emax.

(** [int(x)] on a float: truncation towards zero; [OverflowError] on an
    infinity and [ValueError] on a NaN. *)
Definition int_of_float (x : float) : outcome Z :=
  match x with
  | S754_zero _ => Returns 0
  | S754_finite s m e =>
      let a := match e with
               | Zneg p => Z.shiftr (Zpos m) (Zpos p)
               | _ => Z.shiftl (Zpos m) e
               end in
      Returns (if s then - a else a)
  | S754_infinity _ => Raises "cannot convert float infinity to integer"
  | S754_nan => Raises "cannot convert float NaN to integer"
  end.

(** [str(n)] for a natural number. *)
Definition str_of_nat (n : nat) : string :=
  NilEmpty.string_of_uint (Nat.to_uint n).

(** [sep.join(parts)]. *)
Fixpoint join (sep : string) (parts : list string) : string :=
  match parts with
  | [] => ""
  | [p] => p
  | p :: rest => p ++ sep ++ join sep rest
  end.

(** [lst[start:]] with Python's treatment of negative and out-of-range
    bounds. *)
Definition slice_from {A} (start : Z) (lst : list A) : list A :=
  let n := Z.of_nat (length lst) in
  let lo := if start <? 0 then Z.max (start + n) 0 else Z.min start n in
  skipn (Z.to_nat lo) lst.

(** A Python [dict] keeps insertion order; assigning to a key that is
    already present replaces the value in place. *)
Section Dict.
Variables K V : Type.
Variable eqb : K -> K -> bool.

Fixpoint dict_get (d : list (K * V)) (k : K) : option V :=
  match d with
  | [] => None
  | (k', v) :: rest => if eqb k k' then Some v else dict_get rest k
  end.

Fixpoint dict_set (d : list (K * V)) (k : K) (v : V) : list (K * V) :=
  match d with
  | [] => [(k, v)]
  | (k', v') :: rest =>
      if eqb k k' then (k', v) :: rest else (k', v') :: dict_set rest k v
  end.

Definition dict_mem (d : list (K * V)) (k : K) : bool :=
  match dict_get d k with Some _ => true | None => false end.

Definition dict_keys (d : list (K * V)) : list K := map fst d.
End Dict.

(** ** Objects of the program *)

(** A PIL image, as far as the agents look at it: its mode and its size
    [(width, height)]. *)
Record Image : Type := mkImage { mode : string; size : Z * Z }.

(** Handles of the two heavy resources built by [from_pretrained]. *)
Definition Processor := nat.
Definition Model := nat.

(** The [metadata] dictionary of a successful analysis. *)
Record Metadata : Type := mkMetadata {
  md_model_id : string;
  md_device : option string;
  md_image_size : Z * Z;
  md_timestamp : string
}.

(** The [workflow_metadata] dictionary attached by the coordinator. *)
Record WorkflowMetadata : Type := mkWorkflowMetadata {
  wf_total_processing_time : float;
  wf_system_operation_count : Z;
  wf_agents_involved : list string;
  wf_timestamp : option string
}.

(** A result dictionary.  A key that the dictionary does not have, or
    whose value is [None], is [None] here; for [metadata] the empty
    dictionary is [None]; for [workflow_metadata] the outer option tells
    whether the key is present and the inner one whether it is [{}]. *)
Record AnalysisResult : Type := mkResult {
  success : bool;
  error : option string;
  caption : option string;
  prompt : option string;
  max_tokens : option Z;
  processing_time : option float;
  metadata : option Metadata;
  workflow_metadata : option (option WorkflowMetadata)
}.

(** [result['workflow_metadata'] = wm]. *)
Definition set_workflow_metadata (r : AnalysisResult) (wm : WorkflowMetadata)
  : AnalysisResult :=
  mkResult (success r) (error r) (caption r) (prompt r) (max_tokens r)
    (processing_time r) (metadata r) (Some (Some wm)).

(** Result dictionaries are shared by reference: the one returned by
    [analyze_image] is the very object stored in the history. *)
Definition ref := nat.

(** What [st.*] calls show to the user.  Spinners are transient and leave
    no trace. *)
Inductive st_event : Type :=
| StInfo (s : string)
| StSuccess (s : string)
| StError (s : string)
| StToast (s : string).

(** State of the [ModelManagementAgent]. *)
Record ModelManagementState : Type := mkModelAgent {
  model_id : string;
  model : option Model;
  processor : option Processor;
  device : option string;
  is_loaded : bool
}.

(** [CoordinatorAgent.system_status]. *)
Record SystemStatus : Type := mkStatus {
  initialized : bool;
  last_activity : option string;
  total_operations : Z
}.

(** Values found in the dictionaries returned by the probed methods
    [get_model_status] and [get_statistics]. *)
Inductive pyval : Type :=
| PyNone
| PyBool (b : bool)
| PyInt (z : Z)
| PyFloat (f : float)
| PyStr (s : string).

Definition truthy (v : pyval) : bool :=
  match v with
  | PyNone => false
  | PyBool b => b
  | PyInt z => negb (z =? 0)
  | PyFloat f => match f with S754_zero _ => false | _ => true end
  | PyStr s => negb (String.eqb s "")
  end.

Definition pydict := list (string * pyval).

(** An object of a class that is not one of the four agents (the tests
    register such mocks).  The coordinator only ever probes it for the
    two optional capabilities, so that is all it is made of: each is
    absent, or returns a dictionary, or raises. *)
Record Foreign : Type := mkForeign {
  f_class : string;
  f_get_model_status : option (outcome pydict);
  f_get_statistics : option (outcome pydict)
}.

(** What can be registered with the coordinator: the agents of the
    application (one object each, as built in [multi_agent_app.main])
    or a foreign object. *)
Inductive agent : Type :=
| ModelManagementRef
| ImageProcessingRef
| AnalysisRef
| UIRef
| ForeignRef (o : Foreign).

Definition class_name (a : agent) : string :=
  match a with
  | ModelManagementRef => "ModelManagementAgent"
  | ImageProcessingRef => "ImageProcessingAgent"
  | AnalysisRef => "AnalysisAgent"
  | UIRef => "UIAgent"
  | ForeignRef o => f_class o
  end.

(** The external collaborators: device query, the two [from_pretrained]
    loaders, the BLIP inference chain (processor call, [generate],
    [decode]), the clock, and PIL's verdict on a conversion
    ([convert_error image m] is the exception that [image.convert(m)]
    raises, if it raises).  Loaders and inference are indexed by the
    number of earlier invocations, so that they may answer differently
    from one call to the next (sampling, transient failures). *)
Record Env : Type := mkEnv {
  cuda_is_available : bool;
  gpu_name : string;
  gpu_memory : string;
  processor_from_pretrained : nat -> string -> outcome Processor;
  model_from_pretrained : nat -> string -> string -> outcome Model;
  blip_caption : nat -> Image -> string -> Z -> outcome string;
  time_time : nat -> float;
  time_strftime : nat -> string;
  convert_error : Image -> string -> option string
}.

(** One invocation of the inference chain. *)
Record InferenceCall : Type := mkCall {
  call_image : Image;
  call_prompt : string;
  call_max_tokens : Z
}.

Record World : Type := mkWorld {
  env : Env;
  (* the objects *)
  model_agent : ModelManagementState;
  analysis_history : list ref;
  heap : list AnalysisResult;
  agents : list (string * agent);
  system_status : SystemStatus;
  (* st.cache_resource: one table per decorated function *)
  processor_cache : list (string * (option Processor * option string));
  model_cache : list ((string * string) * (option Model * option string));
  (* what was observed from outside *)
  st_log : list st_event;
  processor_loads : nat;
  model_loads : nat;
  inference_calls : list InferenceCall;
  clock_reads : nat
}.

(** ** The monad of Python code *)

Definition M (A : Type) : Type := World -> outcome A * World.

Definition ret {A} (a : A) : M A := fun w => (Returns a, w).

Definition bind {A B} (m : M A) (k : A -> M B) : M B :=
  fun w =>
    match m w with
    | (Returns a, w') => k a w'
    | (Raises e, w') => (Raises e, w')
    end.

Definition raise {A} (msg : string) : M A := fun w => (Raises msg, w).

(** [try: m except Exception as e: h (str e)]. *)
Definition try_except {A} (m : M A) (h : string -> M A) : M A :=
  fun w =>
    match m w with
    | (Returns a, w') => (Returns a, w')
    | (Raises e, w') => h e w'
    end.

Definition gets {A} (f : World -> A) : M A := fun w => (Returns (f w), w).
Definition modify (f : World -> World) : M unit := fun w => (Returns tt, f w).

Declare Scope py_scope.
Delimit Scope py_scope with py.
Notation "x <- m ;; k" := (bind m (fun x => k))
  (at level 100, m at next level, right associativity) : py_scope.
Notation "m ;; k" := (bind m (fun _ => k))
  (at level 100, right associativity) : py_scope.
Local Open Scope py_scope.

(** Field updates of the world. *)
Definition set_model_agent (a : ModelManagementState) (w : World) : World :=
  mkWorld (env w) a (analysis_history w) (heap w) (agents w) (system_status w)
    (processor_cache w) (model_cache w) (st_log w) (processor_loads w)
    (model_loads w) (inference_calls w) (clock_reads w).
Definition set_analysis_history (h : list ref) (w : World) : World :=
  mkWorld (env w) (model_agent w) h (heap w) (agents w) (system_status w)
    (processor_cache w) (model_cache w) (st_log w) (processor_loads w)
    (model_loads w) (inference_calls w) (clock_reads w).
Definition set_heap (h : list AnalysisResult) (w : World) : World :=
  mkWorld (env w) (model_agent w) (analysis_history w) h (agents w)
    (system_status w) (processor_cache w) (model_cache w) (st_log w)
    (processor_loads w) (model_loads w) (inference_calls w) (clock_reads w).
Definition set_agents (a : list (string * agent)) (w : World) : World :=
  mkWorld (env w) (model_agent w) (analysis_history w) (heap w) a
    (system_status w) (processor_cache w) (model_cache w) (st_log w)
    (processor_loads w) (model_loads w) (inference_calls w) (clock_reads w).
Definition set_system_status (s : SystemStatus) (w : World) : World :=
  mkWorld (env w) (model_agent w) (analysis_history w) (heap w) (agents w) s
    (processor_cache w) (model_cache w) (st_log w) (processor_loads w)
    (model_loads w) (inference_calls w) (clock_reads w).
Definition set_processor_cache c (w : World) : World :=
  mkWorld (env w) (model_agent w) (analysis_history w) (heap w) (agents w)
    (system_status w) c (model_cache w) (st_log w) (processor_loads w)
    (model_loads w) (inference_calls w) (clock_reads w).
Definition set_model_cache c (w : World) : World :=
  mkWorld (env w) (model_agent w) (analysis_history w) (heap w) (agents w)
    (system_status w) (processor_cache w) c (st_log w) (processor_loads w)
    (model_loads w) (inference_calls w) (clock_reads w).
Definition set_st_log (l : list st_event) (w : World) : World :=
  mkWorld (env w) (model_agent w) (analysis_history w) (heap w) (agents w)
    (system_status w) (processor_cache w) (model_cache w) l
    (processor_loads w) (model_loads w) (inference_calls w) (clock_reads w).
Definition set_processor_loads (n : nat) (w : World) : World :=
  mkWorld (env w) (model_agent w) (analysis_history w) (heap w) (agents w)
    (system_status w) (processor_cache w) (model_cache w) (st_log w) n
    (model_loads w) (inference_calls w) (clock_reads w).
Definition set_model_loads (n : nat) (w : World) : World :=
  mkWorld (env w) (model_agent w) (analysis_history w) (heap w) (agents w)
    (system_status w) (processor_cache w) (model_cache w) (st_log w)
    (processor_loads w) n (inference_calls w) (clock_reads w).
Definition set_inference_calls (c : list InferenceCall) (w : World) : World :=
  mkWorld (env w) (model_agent w) (analysis_history w) (heap w) (agents w)
    (system_status w) (processor_cache w) (model_cache w) (st_log w)
    (processor_loads w) (model_loads w) c (clock_reads w).
Definition set_clock_reads (n : nat) (w : World) : World :=
  mkWorld (env w) (model_agent w) (analysis_history w) (heap w) (agents w)
    (system_status w) (processor_cache w) (model_cache w) (st_log w)
    (processor_loads w) (model_loads w) (inference_calls w) n.

(** Streamlit output. *)
Definition st (e : st_event) : M unit :=
  modify (fun w => set_st_log (st_log w ++ [e]) w).

(** [time.time()] and [time.strftime('%Y-%m-%d %H:%M:%S')]. *)
Definition time_now : M float :=
  fun w => (Returns (time_time (env w) (clock_reads w)),
            set_clock_reads (S (clock_reads w)) w).
Definition strftime_now : M string :=
  fun w => (Returns (time_strftime (env w) (clock_reads w)),
            set_clock_reads (S (clock_reads w)) w).

(** Allocation of, access to and update of result dictionaries. *)
Definition new_dict (r : AnalysisResult) : M ref :=
  fun w => (Returns (length (heap w)), set_heap (heap w ++ [r]) w).

Definition empty_result : AnalysisResult :=
  mkResult false None None None None None None None.

Definition deref (w : World) (p : ref) : AnalysisResult :=
  nth p (heap w) empty_result.

Definition read_dict (p : ref) : M AnalysisResult := gets (fun w => deref w p).

Fixpoint list_update {A} (l : list A) (i : nat) (x : A) : list A :=
  match l, i with
  | [], _ => []
  | _ :: t, O => x :: t
  | h :: t, S j => h :: list_update t j x
  end.

Definition write_dict (p : ref) (r : AnalysisResult) : M unit :=
  modify (fun w => set_heap (list_update (heap w) p r) w).

(** [str(z)] for an integer. *)
Definition str_of_int (z : Z) : string :=
  match z with
  | Z0 => "0"
  | Zpos p => str_of_nat (Pos.to_nat p)
  | Zneg p => "-" ++ str_of_nat (Pos.to_nat p)
  end.

(** Arithmetic on the numbers of a statistics dictionary: [int] and
    [float] operands, with Python's promotion of [int] to [float]. *)
Definition to_float (v : pyval) : float :=
  match v with
  | PyInt z => float_of_int z
  | PyFloat f => f
  | _ => S754_nan
  end.

Definition py_add (a b : pyval) : pyval :=
  match a, b with
  | PyInt x, PyInt y => PyInt (x + y)
  | _, _ => PyFloat (fadd (to_float a) (to_float b))
  end.

Definition py_truediv (a b : pyval) : pyval :=
  PyFloat (fdiv (to_float a) (to_float b)).

Definition py_mul (a b : pyval) : pyval :=
  match a, b with
  | PyInt x, PyInt y => PyInt (x * y)
  | _, _ => PyFloat (fmul (to_float a) (to_float b))
  end.

(** ** image_processing_agent.py *)

Module ImageProcessingAgent.

Definition max_dimension : Z := 1024.

(** The image that [image.convert(m)] returns: same size, new mode. *)
Definition convert (image : Image) (m : string) : Image :=
  mkImage m (size image).

(** The call [image.convert(m)]: PIL raises when it has no conversion
    for the image. *)
Definition image_convert (image : Image) (m : string) : M Image :=
  fun w =>
    match convert_error (env w) image m with
    | Some e => (Raises e, w)
    | None => (Returns (convert image m), w)
    end.

(** [image.resize(new_size, LANCZOS)]: PIL refuses a size with a
    dimension below one. *)
Definition resize (image : Image) (new_size : Z * Z) : M Image :=
  if (fst new_size <? 1) || (snd new_size <? 1)
  then raise "height and width must be > 0"
  else ret (mkImage (mode image) new_size).

(** [max_dimension / max(image.size)].  Image sizes fit a C [int], so
    both operands convert exactly and the quotient of two integers is
    the IEEE quotient of the two floats. *)
Definition scale_ratio (image : Image) : float :=
  fdiv (float_of_int max_dimension)
       (float_of_int (Z.max (fst (size image)) (snd (size image)))).

(** [int(dim * ratio)]. *)
Definition scale_dim (ratio : float) (dim : Z) : M Z :=
  fun w => (int_of_float (fmul (float_of_int dim) ratio), w).

Definition resized_message (new_size : Z * Z) : string :=
  "Image resized to (" ++ str_of_int (fst new_size) ++ ", "
    ++ str_of_int (snd new_size) ++ ") for optimal processing".

(** The rest of the [try] block, after the conversion to RGB. *)
Definition resize_if_too_large (image : Image) : M Image :=
  if Z.max (fst (size image)) (snd (size image)) >? max_dimension then
    let ratio := scale_ratio image in
    w' <- scale_dim ratio (fst (size image)) ;;
    h' <- scale_dim ratio (snd (size image)) ;;
    image' <- resize image (w', h') ;;
    st (StInfo (resized_message (w', h'))) ;;
    ret image'
  else ret image.

(** [if image.mode != 'RGB': image = image.convert('RGB')], the first
    statement of the [try] block. *)
Definition to_rgb (image : Image) : M Image :=
  if negb (String.eqb (mode image) "RGB") then image_convert image "RGB"
  else ret image.

(** The statements of the [try] block, in sequence. *)
Definition preprocess_body (image : Image) : M Image :=
  image <- to_rgb image ;;
  resize_if_too_large image.

(** The [except] block, for the value that the local [image] has when
    the exception is raised. *)
Definition preprocess_handler (image : Image) (e : string) : M Image :=
  st (StError ("Error preprocessing image: " ++ e)) ;;
  ret image.

(** [preprocess_image(image)].  An exception raised by the conversion
    finds the local [image] still bound to the argument; one raised
    later finds it bound to the converted image. *)
Definition preprocess_image (image : Image) : M Image :=
  try_except
    (converted <- to_rgb image ;;
     try_except (resize_if_too_large converted)
       (preprocess_handler converted))
    (preprocess_handler image).

End ImageProcessingAgent.

(** ** analysis_agent.py *)

Module AnalysisAgent.

(** The failure dictionary of [analyze_image] and of the multi-prompt
    fallback: [success], [error], [caption: None], [metadata: {}]. *)
Definition failure (msg : string) : AnalysisResult :=
  mkResult false (Some msg) None None None None None None.

(** The inference chain on the agent's processor and model.  Calling a
    missing processor or model raises before the collaborator is
    reached. *)
Definition run_blip (image : Image) (prompt : string) (max_tokens : Z)
  : M string :=
  fun w =>
    match processor (model_agent w), model (model_agent w) with
    | None, _ => (Raises "'NoneType' object is not callable", w)
    | Some _, None =>
        (Raises "'NoneType' object has no attribute 'generate'", w)
    | Some _, Some _ =>
        (blip_caption (env w) (List.length (inference_calls w))
           image prompt max_tokens,
         set_inference_calls
           (inference_calls w ++ [mkCall image prompt max_tokens]) w)
    end.

Definition append_history (r : ref) : M unit :=
  modify (fun w => set_analysis_history (analysis_history w ++ [r]) w).

Definition analyze_image_body (image : Image) (prompt : string)
    (max_tokens : Z) : M ref :=
  loaded <- gets (fun w => is_loaded (model_agent w)) ;;
  if negb loaded then
    new_dict (failure "Model not loaded. Please initialize the model first.")
  else
    start_time <- time_now ;;
    caption <- run_blip image prompt max_tokens ;;
    end_time <- time_now ;;
    let processing_time := fsub end_time start_time in
    ma <- gets model_agent ;;
    timestamp <- strftime_now ;;
    result <- new_dict
      (mkResult true None (Some caption) (Some prompt) (Some max_tokens)
         (Some processing_time)
         (Some (mkMetadata (model_id ma) (device ma) (size image) timestamp))
         None) ;;
    append_history result ;;
    ret result.

Definition analyze_image (image : Image) (prompt : string)
    (max_tokens : Z) : M ref :=
  try_except (analyze_image_body image prompt max_tokens)
    (fun e => new_dict (failure ("Analysis failed: " ++ e))).

(** The first loop of [analyze_with_multiple_prompts]: [i] is the
    index given by [enumerate], [n] is [len(prompts)]. *)
Fixpoint try_prompts (image : Image) (prompts : list string) (i n : nat)
    (max_tokens : Z) (results : list ref) : M (list ref) :=
  match prompts with
  | [] => ret results
  | prompt :: rest =>
      st (StInfo ("Trying prompt " ++ str_of_nat (S i) ++ "/"
                    ++ str_of_nat n ++ ": '" ++ prompt ++ "'")) ;;
      result <- analyze_image image prompt max_tokens ;;
      let results := (results ++ [result])%list in
      r <- read_dict result ;;
      (if success r
       then st (StSuccess ("✅ Generated: " ++ match caption r with
                                           | Some c => c
                                           | None => "None"
                                           end))
       else st (StError ("❌ Failed: " ++ match error r with
                                      | Some e => e
                                      | None => "None"
                                      end))) ;;
      try_prompts image rest (S i) n max_tokens results
  end.

(** The second loop: the first result whose [success] is true. *)
Fixpoint first_successful (results : list ref) : M (option ref) :=
  match results with
  | [] => ret None
  | result :: rest =>
      r <- read_dict result ;;
      if success r then ret (Some result) else first_successful rest
  end.

Definition analyze_with_multiple_prompts (image : Image)
    (prompts : list string) (max_tokens : Z) : M ref :=
  results <- try_prompts image prompts 0 (List.length prompts) max_tokens [] ;;
  found <- first_successful results ;;
  match found with
  | Some result => ret result
  | None =>
      match results with
      | [] => new_dict (failure "All analysis attempts failed")
      | _ => ret (last results 0%nat)
      end
  end.

(** [get_analysis_history(limit)]. *)
Definition get_analysis_history (limit : Z) : M (list ref) :=
  history <- gets analysis_history ;;
  match history with
  | [] => ret []
  | _ => ret (slice_from (- limit) history)
  end.

Definition clear_history : M unit :=
  modify (set_analysis_history []) ;;
  st (StToast "✅ Analysis history cleared!").

(** [sum(r.get('processing_time', 0) for r in rs)], as successive
    additions from the left. *)
Definition sum_processing_time (rs : list AnalysisResult) : pyval :=
  fold_left (fun acc r =>
               py_add acc match processing_time r with
                          | Some t => PyFloat t
                          | None => PyInt 0
                          end)
            rs (PyInt 0).

Definition get_statistics : M pydict :=
  history <- gets (fun w => map (deref w) (analysis_history w)) ;;
  match history with
  | [] => ret [("message", PyStr "No analysis history available")]
  | _ =>
      let successful_analyses := filter success history in
      let failed_analyses := filter (fun r => negb (success r)) history in
      let total_time := sum_processing_time successful_analyses in
      let n_ok := PyInt (Z.of_nat (List.length successful_analyses)) in
      let avg_time :=
        match successful_analyses with
        | [] => PyInt 0
        | _ => py_truediv total_time n_ok
        end in
      ret [("total_analyses", PyInt (Z.of_nat (List.length history)));
           ("successful_analyses", n_ok);
           ("failed_analyses", PyInt (Z.of_nat (List.length failed_analyses)));
           ("success_rate",
            py_mul (py_truediv n_ok (PyInt (Z.of_nat (List.length history))))
                   (PyInt 100));
           ("average_processing_time", avg_time);
           ("total_processing_time", total_time)]
  end.

End AnalysisAgent.


(** ** model_management_agent.py *)

(** [@st.cache_resource]: the decorated function is run on the first call
    with a given argument tuple and whatever it _returns_ is stored under
    that tuple; later calls with the same arguments get the stored value
    and the body is not run.  An exception leaves the table as it was. *)
Definition cache_resource {K V : Type} (eqb : K -> K -> bool)
    (table : World -> list (K * V))
    (set_table : list (K * V) -> World -> World)
    (body : K -> M V) (key : K) : M V :=
  cached <- gets (fun w => dict_get eqb (table w) key) ;;
  match cached with
  | Some v => ret v
  | None =>
      v <- body key ;;
      modify (fun w => set_table (dict_set eqb (table w) key v) w) ;;
      ret v
  end.

Definition key2_eqb (a b : string * string) : bool :=
  String.eqb (fst a) (fst b) && String.eqb (snd a) (snd b).

Module ModelManagementAgent.

Definition init : ModelManagementState :=
  mkModelAgent "Salesforce/blip-image-captioning-large" None None None false.

Definition update (f : ModelManagementState -> ModelManagementState)
  : M unit :=
  modify (fun w => set_model_agent (f (model_agent w)) w).

Definition get_device_info : M string :=
  e <- gets env ;;
  if cuda_is_available e then
    st (StInfo ("🚀 Using GPU: " ++ gpu_name e ++ " (" ++ gpu_memory e
                  ++ "GB)")) ;;
    ret "cuda"
  else
    st (StInfo "💻 Using CPU for inference") ;;
    ret "cpu".

(** [BlipProcessor.from_pretrained(model_id)]. *)
Definition processor_from_pretrained_call (mid : string) : M Processor :=
  fun w => (processor_from_pretrained (env w) (processor_loads w) mid,
            set_processor_loads (S (processor_loads w)) w).

(** [BlipForConditionalGeneration.from_pretrained(model_id).to(device)]. *)
Definition model_from_pretrained_call (key : string * string) : M Model :=
  fun w => (model_from_pretrained (env w) (model_loads w) (fst key) (snd key),
            set_model_loads (S (model_loads w)) w).

(** The undecorated body of [_load_processor_cached]. *)
Definition load_processor_body (mid : string)
  : M (option Processor * option string) :=
  try_except
    (p <- processor_from_pretrained_call mid ;; ret (Some p, None))
    (fun e => ret (None, Some e)).

(** The undecorated body of [_load_model_cached]. *)
Definition load_model_body (key : string * string)
  : M (option Model * option string) :=
  try_except
    (m <- model_from_pretrained_call key ;; ret (Some m, None))
    (fun e => ret (None, Some e)).

Definition _load_processor_cached (mid : string)
  : M (option Processor * option string) :=
  cache_resource String.eqb processor_cache set_processor_cache
    load_processor_body mid.

Definition _load_model_cached (mid dev : string)
  : M (option Model * option string) :=
  cache_resource key2_eqb model_cache set_model_cache
    load_model_body (mid, dev).

Definition show_error (error : option string) : string :=
  match error with Some e => e | None => "None" end.

Definition load_processor : M (option Processor) :=
  mid <- gets (fun w => model_id (model_agent w)) ;;
  r <- _load_processor_cached mid ;;
  (match fst r with
   | Some _ => st (StSuccess "✅ Processor loaded successfully!")
   | None => st (StError ("❌ Error loading processor: "
                            ++ show_error (snd r)))
   end) ;;
  ret (fst r).

Definition load_model (dev : string) : M (option Model) :=
  mid <- gets (fun w => model_id (model_agent w)) ;;
  r <- _load_model_cached mid dev ;;
  (match fst r with
   | Some _ => st (StSuccess "✅ Model loaded successfully!")
   | None => st (StError ("❌ Error loading model: " ++ show_error (snd r)))
   end) ;;
  ret (fst r).

Definition initialize_model : M (bool * option string) :=
  try_except
    (dev <- get_device_info ;;
     update (fun a => mkModelAgent (model_id a) (model a) (processor a)
                        (Some dev) (is_loaded a)) ;;
     p <- load_processor ;;
     update (fun a => mkModelAgent (model_id a) (model a) p
                        (device a) (is_loaded a)) ;;
     match p with
     | None => ret (false, Some "Failed to load processor")
     | Some _ =>
         m <- load_model dev ;;
         update (fun a => mkModelAgent (model_id a) m (processor a)
                            (device a) (is_loaded a)) ;;
         match m with
         | None => ret (false, Some "Failed to load model")
         | Some _ =>
             update (fun a => mkModelAgent (model_id a) (model a)
                                (processor a) (device a) true) ;;
             ret (true, None)
         end
     end)
    (fun e => ret (false, Some ("Error initializing model: " ++ e))).

Definition is_some {A} (o : option A) : bool :=
  match o with Some _ => true | None => false end.

Definition get_model_status : M pydict :=
  a <- gets model_agent ;;
  ret [("is_loaded", PyBool (is_loaded a));
       ("device", match device a with Some d => PyStr d | None => PyNone end);
       ("model_id", PyStr (model_id a));
       ("has_model", PyBool (is_some (model a)));
       ("has_processor", PyBool (is_some (processor a)))].

(** [cleanup_resources()].  [gc.collect()] and
    [torch.cuda.empty_cache()] release memory and change nothing that
    the program can read back. *)
Definition cleanup_resources : M unit :=
  try_except
    (update (fun a => mkModelAgent (model_id a) None (processor a)
                        (device a) (is_loaded a)) ;;
     update (fun a => mkModelAgent (model_id a) (model a) None
                        (device a) (is_loaded a)) ;;
     modify (fun w => set_model_cache [] (set_processor_cache [] w)) ;;
     update (fun a => mkModelAgent (model_id a) (model a) (processor a)
                        (device a) false) ;;
     st (StSuccess "✅ Resources cleaned up successfully!"))
    (fun e => st (StError ("❌ Error cleaning up resources: " ++ e))).

End ModelManagementAgent.

(** ** coordinator_agent.py *)

(** Health of one agent and the report of [run_health_check]. *)
Record AgentHealth : Type := mkHealth {
  ah_status : string;
  ah_issues : list pyval
}.

Record HealthReport : Type := mkReport {
  overall_health : string;
  issues : list string;
  warnings : list string;
  agent_health : list (string * AgentHealth)
}.

Module CoordinatorAgent.

Definition init_status : SystemStatus := mkStatus false None 0.

Definition update_status (f : SystemStatus -> SystemStatus) : M unit :=
  modify (fun w => set_system_status (f (system_status w)) w).

Definition register_agent (agent_name : string) (agent_instance : agent)
  : M unit :=
  modify (fun w =>
            set_agents (dict_set String.eqb (agents w) agent_name
                          agent_instance) w) ;;
  st (StSuccess ("✅ " ++ agent_name ++ " registered successfully!")).

Definition get_agent (agent_name : string) : M (option agent) :=
  gets (fun w => dict_get String.eqb (agents w) agent_name).

(** [self.agents[name]]: a [KeyError] when the key is absent. *)
Definition agents_item (name : string) : M agent :=
  found <- get_agent name ;;
  match found with
  | Some a => ret a
  | None => raise ("'" ++ name ++ "'")
  end.

Definition attribute_error {A} (a : agent) (attr : string) : M A :=
  raise ("'" ++ class_name a ++ "' object has no attribute '" ++ attr
           ++ "'").

(** Method calls on a registered object, resolved by its class. *)
Definition call_initialize_model (a : agent) : M (bool * option string) :=
  match a with
  | ModelManagementRef => ModelManagementAgent.initialize_model
  | _ => attribute_error a "initialize_model"
  end.

Definition call_preprocess_image (a : agent) (image : Image) : M Image :=
  match a with
  | ImageProcessingRef => ImageProcessingAgent.preprocess_image image
  | _ => attribute_error a "preprocess_image"
  end.

Definition call_analyze_image (a : agent) (image : Image) (prompt : string)
    (max_tokens : Z) : M ref :=
  match a with
  | AnalysisRef => AnalysisAgent.analyze_image image prompt max_tokens
  | _ => attribute_error a "analyze_image"
  end.

Definition call_cleanup_resources (a : agent) : M unit :=
  match a with
  | ModelManagementRef => ModelManagementAgent.cleanup_resources
  | _ => attribute_error a "cleanup_resources"
  end.

Definition call_clear_history (a : agent) : M unit :=
  match a with
  | AnalysisRef => AnalysisAgent.clear_history
  | _ => attribute_error a "clear_history"
  end.

(** [hasattr(agent, 'get_model_status')] together with the bound
    method, and the same for [get_statistics]. *)
Definition lift_outcome {A} (o : outcome A) : M A := fun w => (o, w).

Definition attr_get_model_status (a : agent) : option (M pydict) :=
  match a with
  | ModelManagementRef => Some ModelManagementAgent.get_model_status
  | ForeignRef o => option_map lift_outcome (f_get_model_status o)
  | _ => None
  end.

Definition attr_get_statistics (a : agent) : option (M pydict) :=
  match a with
  | AnalysisRef => Some AnalysisAgent.get_statistics
  | ForeignRef o => option_map lift_outcome (f_get_statistics o)
  | _ => None
  end.

Definition required_agents : list string :=
  ["model_management"; "image_processing"; "analysis"; "ui"].

(** [[agent for agent in required_agents if agent not in self.agents]]. *)
Definition missing_agents (registered : list (string * agent))
  : list string :=
  filter (fun name => negb (dict_mem String.eqb registered name))
         required_agents.

Definition initialize_system : M bool :=
  try_except
    (st (StInfo "🚀 Initializing Multi-Agent System...") ;;
     missing <- gets (fun w => missing_agents (agents w)) ;;
     match missing with
     | _ :: _ =>
         st (StError ("❌ Missing agents: " ++ join ", " missing)) ;;
         ret false
     | [] =>
         model_agent <- agents_item "model_management" ;;
         r <- call_initialize_model model_agent ;;
         if negb (fst r) then
           st (StError ("❌ Model initialization failed: "
                          ++ ModelManagementAgent.show_error (snd r))) ;;
           ret false
         else
           update_status (fun s => mkStatus true (last_activity s)
                                     (total_operations s)) ;;
           now <- strftime_now ;;
           update_status (fun s => mkStatus (initialized s) (Some now)
                                     (total_operations s)) ;;
           st (StSuccess "✅ Multi-Agent System initialized successfully!") ;;
           ret true
     end)
    (fun e =>
       st (StError ("❌ System initialization failed: " ++ e)) ;;
       ret false).

(** The dictionaries that report a workflow which did not get as far
    as the analysis: [success], [error], [workflow_metadata: {}]. *)
Definition workflow_failure (msg : string) : AnalysisResult :=
  mkResult false (Some msg) None None None None None (Some None).

(** [self.system_status['total_operations'] += 1]. *)
Definition count_operation : M unit :=
  update_status (fun s => mkStatus (initialized s) (last_activity s)
                            (total_operations s + 1)).

(** What follows the increment inside the [try] block. *)
Definition workflow_steps (image : Image) (prompt : string)
    (max_tokens : Z) : M ref :=
  start_time <- time_now ;;
  (* Step 1: validate system status *)
  ready <- gets (fun w => initialized (system_status w)) ;;
  if negb ready then new_dict (workflow_failure "System not initialized")
  else
    (* Step 2: preprocess *)
    image_agent <- agents_item "image_processing" ;;
    processed_image <- call_preprocess_image image_agent image ;;
    (* Step 3: analyse *)
    analysis_agent <- agents_item "analysis" ;;
    analysis_result <-
      call_analyze_image analysis_agent processed_image prompt max_tokens ;;
    (* Step 4: update system status *)
    now <- strftime_now ;;
    update_status (fun s => mkStatus (initialized s) (Some now)
                              (total_operations s)) ;;
    (* Step 5: workflow metadata, set on the analysis dictionary itself *)
    end_time <- time_now ;;
    s <- gets system_status ;;
    names <- gets (fun w => dict_keys (agents w)) ;;
    let workflow_metadata :=
      mkWorkflowMetadata (fsub end_time start_time) (total_operations s)
        names (last_activity s) in
    r <- read_dict analysis_result ;;
    write_dict analysis_result
      (set_workflow_metadata r workflow_metadata) ;;
    ret analysis_result.

Definition process_image_analysis (image : Image) (prompt : string)
    (max_tokens : Z) : M ref :=
  try_except
    (count_operation ;; workflow_steps image prompt max_tokens)
    (fun e =>
       new_dict (workflow_failure ("Workflow coordination failed: " ++ e))).

(** [status.get('is_loaded', True)]. *)
Definition get_is_loaded (status : pydict) : pyval :=
  match dict_get String.eqb status "is_loaded" with
  | Some v => v
  | None => PyBool true
  end.

(** The [try] block of the health check for one agent, starting from
    [{'status': 'unknown', 'issues': []}]. *)
Definition probe (a : agent) (h : AgentHealth) : M AgentHealth :=
  match attr_get_model_status a with
  | Some get_model_status =>
      status <- get_model_status ;;
      if negb (truthy (get_is_loaded status))
      then ret (mkHealth "warning"
                  (ah_issues h ++ [PyStr "Model not loaded"]))
      else ret (mkHealth "healthy" (ah_issues h))
  | None =>
      match attr_get_statistics a with
      | Some get_statistics =>
          stats <- get_statistics ;;
          match dict_get String.eqb stats "message" with
          | Some message =>
              ret (mkHealth "info" (ah_issues h ++ [message]))
          | None => ret (mkHealth "healthy" (ah_issues h))
          end
      | None => ret (mkHealth "healthy" (ah_issues h))
      end
  end.

(** Nothing is written to [agent_health] before the last call that can
    raise, so the handler starts from the initial dictionary. *)
Definition check_agent (a : agent) : M AgentHealth :=
  let h := mkHealth "unknown" [] in
  try_except (probe a h)
    (fun e => ret (mkHealth "error"
                     (ah_issues h ++ [PyStr ("Exception: " ++ e)]))).

(** [', '.join(issues)]: a [TypeError] on an item that is not a
    string. *)
Fixpoint strings_of (items : list pyval) : outcome (list string) :=
  match items with
  | [] => Returns []
  | PyStr s :: rest =>
      match strings_of rest with
      | Returns l => Returns (s :: l)
      | Raises e => Raises e
      end
  | _ :: _ => Raises "sequence item: expected str instance"
  end.

Definition join_issues (items : list pyval) : M string :=
  l <- lift_outcome (strings_of items) ;;
  ret (join ", " l).

(** One turn of the loop over [self.agents.items()]. *)
Definition check_step (report : HealthReport) (entry : string * agent)
  : M HealthReport :=
  let (agent_name, a) := entry in
  h <- check_agent a ;;
  let report :=
    mkReport (overall_health report) (issues report) (warnings report)
      (dict_set String.eqb (agent_health report) agent_name h) in
  if String.eqb (ah_status h) "error" then
    line <- join_issues (ah_issues h) ;;
    ret (mkReport "unhealthy"
           (issues report ++ [agent_name ++ ": " ++ line])
           (warnings report) (agent_health report))
  else if String.eqb (ah_status h) "warning" then
    line <- join_issues (ah_issues h) ;;
    ret (mkReport (overall_health report) (issues report)
           (warnings report ++ [agent_name ++ ": " ++ line])
           (agent_health report))
  else ret report.

Fixpoint check_all (entries : list (string * agent)) (report : HealthReport)
  : M HealthReport :=
  match entries with
  | [] => ret report
  | entry :: rest =>
      report' <- check_step report entry ;;
      check_all rest report'
  end.

Definition run_health_check : M HealthReport :=
  entries <- gets agents ;;
  check_all entries (mkReport "healthy" [] [] []).

Definition cleanup_system : M unit :=
  try_except
    (st (StInfo "🧹 Cleaning up system resources...") ;;
     has_model <- gets (fun w =>
                          dict_mem String.eqb (agents w) "model_management") ;;
     (if has_model : bool then
        a <- agents_item "model_management" ;; call_cleanup_resources a
      else ret tt) ;;
     has_analysis <- gets (fun w =>
                             dict_mem String.eqb (agents w) "analysis") ;;
     (if has_analysis : bool then
        a <- agents_item "analysis" ;; call_clear_history a
      else ret tt) ;;
     update_status (fun s => mkStatus false (last_activity s)
                               (total_operations s)) ;;
     update_status (fun s => mkStatus (initialized s) (last_activity s) 0) ;;
     st (StSuccess "✅ System cleanup completed!"))
    (fun e => st (StError ("❌ Cleanup failed: " ++ e))).

End CoordinatorAgent.

(** ** Runs of the application *)

(** The world at process start: nothing registered, nothing loaded. *)
Definition fresh_world (e : Env) : World :=
  mkWorld e ModelManagementAgent.init [] [] [] CoordinatorAgent.init_status
    [] [] [] 0 0 [] 0.

(** The start of [multi_agent_app.main]: the four agents are registered
    and the system is initialised. *)
Definition start_app : M bool :=
  CoordinatorAgent.register_agent "image_processing" ImageProcessingRef ;;
  CoordinatorAgent.register_agent "model_management" ModelManagementRef ;;
  CoordinatorAgent.register_agent "analysis" AnalysisRef ;;
  CoordinatorAgent.register_agent "ui" UIRef ;;
  CoordinatorAgent.initialize_system.

(** A sequence of workflow requests, one after the other. *)
Fixpoint run_workflows (requests : list (Image * string * Z)) (w : World)
  : World :=
  match requests with
  | [] => w
  | (image, prompt, max_tokens) :: rest =>
      run_workflows rest
        (snd (CoordinatorAgent.process_image_analysis image prompt
                max_tokens w))
  end.

(** The agent can reach the inference chain: it is loaded and holds both
    resources. *)
Definition can_infer (w : World) : bool :=
  is_loaded (model_agent w)
  && ModelManagementAgent.is_some (processor (model_agent w))
  && ModelManagementAgent.is_some (model (model_agent w)).

(** Environments used in the examples: a CPU host with a ticking clock,
    loaders and inference given per invocation, and a PIL that refuses
    to convert an image of mode [La]. *)
Definition host (load : nat -> outcome nat) (infer : nat -> outcome string)
  : Env :=
  mkEnv false "" ""
    (fun n _ => load n) (fun n _ _ => load n) (fun n _ _ _ => infer n)
    (fun n => float_of_int (Z.of_nat n))
    (fun n => "2024-01-01 00:00:0" ++ str_of_nat n)
    (fun image m =>
       if String.eqb (mode image) "La"
       then Some ("conversion from La to " ++ m ++ " not supported")
       else None).

(** Inference fails on its first invocation only. *)
Definition first_inference_fails (n : nat) : outcome string :=
  match n with
  | O => Raises "CUDA out of memory"
  | S _ => Returns "a photography of a cat"
  end.

(** The loader fails on its first invocation only. *)
Definition first_load_fails (n : nat) : outcome nat :=
  match n with
  | O => Raises "Connection reset by peer"
  | S _ => Returns n
  end.

Definition always_loads (n : nat) : outcome nat := Returns n.

Definition photo : Image := mkImage "RGB" (640, 480).

(** The running application on a host whose first inference fails. *)
Definition ready_world : World :=
  snd (start_app (fresh_world (host always_loads first_inference_fails))).

(** ** Vocabulary of the statements *)

(** The relation [R] between the world before and the world after holds
    across [m], whether [m] returns or raises. *)
Definition keeps (R : World -> World -> Prop) {A} (m : M A) : Prop :=
  forall w, R w (snd (m w)).

(** [m] always returns: no exception escapes it. *)
Definition total {A} (m : M A) : Prop :=
  forall w, exists a, fst (m w) = Returns a.

(** The [error] entries that [analyze_image] can produce: none on a
    success, else one of its two failure texts. *)
Definition run_error (d : AnalysisResult) : Prop :=
  error d = None
  \/ error d = Some "Model not loaded. Please initialize the model first."
  \/ exists e, error d = Some ("Analysis failed: " ++ e).

(** What one call of [analyze_image] does to the world, whatever its
    outcome: exactly one dictionary is allocated and returned; the
    model agent is untouched; the inference chain is invoked once if it
    can be reached and not at all otherwise; the history receives the
    result exactly when it is a success. *)
Definition run_effect (image : Image) (p : string) (mt : Z)
    (w w' : World) (d : AnalysisResult) : Prop :=
  heap w' = (heap w ++ [d])%list
  /\ model_agent w' = model_agent w
  /\ env w' = env w
  /\ agents w' = agents w
  /\ system_status w' = system_status w
  /\ inference_calls w'
     = (inference_calls w
          ++ (if can_infer w then [mkCall image p mt] else []))%list
  /\ analysis_history w'
     = (analysis_history w
          ++ (if success d then [List.length (heap w)] else []))%list
  /\ (success d = true -> prompt d = Some p)
  /\ workflow_metadata d = None
  /\ run_error d.


(** A host whose loaders fail on their first invocation and work from
    then on. *)
Definition flaky_host : Env :=
  host first_load_fails (fun _ => Returns "a photography of a cat").

(** Only the model manager has been registered. *)
Definition only_model_manager : World :=
  snd (CoordinatorAgent.register_agent "model_management" ModelManagementRef
         (fresh_world (host always_loads first_inference_fails))).

(** The operation counter is the same before and after. *)
Definition counter_kept (w w' : World) : Prop :=
  total_operations (system_status w') = total_operations (system_status w).

(** What probing an agent for [get_model_status] (resp.
    [get_statistics]) yields in a given world: [None] when the agent has
    no such method, else the dictionary returned or the exception
    raised. *)
Definition model_status_of (a : agent) (w : World) : option (outcome pydict) :=
  option_map (fun m : M pydict => fst (m w))
             (CoordinatorAgent.attr_get_model_status a).

Definition statistics_of (a : agent) (w : World) : option (outcome pydict) :=
  option_map (fun m : M pydict => fst (m w))
             (CoordinatorAgent.attr_get_statistics a).

(** Probing the agent raises [e]: the method that the health check calls
    on it ([get_model_status] if present, else [get_statistics]) raises. *)
Definition probe_raises (a : agent) (w : World) (e : string) : Prop :=
  model_status_of a w = Some (Raises e)
  \/ (model_status_of a w = None /\ statistics_of a w = Some (Raises e)).

(** The entry computed for one agent by the health check. *)
Definition health_of (a : agent) (w : World) : AgentHealth :=
  match fst (CoordinatorAgent.check_agent a w) with
  | Returns h => h
  | Raises _ => mkHealth "unknown" []
  end.

(** The [agent_health] table after the loop has gone through
    [entries]. *)
Definition health_table (w : World) (entries : list (string * agent))
    (table : list (string * AgentHealth)) : list (string * AgentHealth) :=
  fold_left (fun t (entry : string * agent) =>
               dict_set String.eqb t (fst entry) (health_of (snd entry) w))
            entries table.

(** A mock with a [get_model_status] that reports an unloaded model, as
    in [test_multi_agent.py], and an object whose [get_model_status]
    raises. *)
Definition mock_model_agent : agent :=
  ForeignRef (mkForeign "MockModelAgent"
                (Some (Returns [("is_loaded", PyBool false)])) None).

Definition broken_agent : agent :=
  ForeignRef (mkForeign "Broken" (Some (Raises "boom")) None).

Definition world_with_mock : World :=
  snd (CoordinatorAgent.register_agent "mock" mock_model_agent
         (fresh_world (host always_loads first_inference_fails))).

(** The state of the program, leaving out what has been shown to the
    user. *)
Definition observable (w : World) : World := set_st_log [] w.

(** The keys that [cleanup_system] looks up are bound, if at all, to
    the agents they are named after. *)
Definition cleanup_targets_ok (w : World) : Prop :=
  (forall a, dict_get String.eqb (agents w) "model_management" = Some a ->
             a = ModelManagementRef)
  /\ (forall a, dict_get String.eqb (agents w) "analysis" = Some a ->
                a = AnalysisRef).

(** The world once the model agent has released its resources. *)
Definition unloaded (w : World) : World :=
  set_model_agent
    (mkModelAgent (model_id (model_agent w)) None None
       (device (model_agent w)) false)
    (set_model_cache [] (set_processor_cache [] w)).

(** The world once the status has been reset. *)
Definition status_reset (w : World) : World :=
  set_system_status
    (mkStatus false (last_activity (system_status w)) 0) w.

(** The state in which [cleanup_system] leaves the program, by what is
    registered under ['model_management'] ([m]) and ['analysis'] ([a]):
    an object without the method called on it stops the cleanup there. *)
Definition cleanup_state_with (m a : option agent) (w : World) : World :=
  match m with
  | Some ModelManagementRef | None =>
      let w1 := match m with Some _ => unloaded w | None => w end in
      match a with
      | None => status_reset w1
      | Some AnalysisRef => status_reset (set_analysis_history [] w1)
      | Some _ => w1
      end
  | Some _ => w
  end.

(** The value of a positive finite float with mantissa [m] and exponent
    [e], and the unit roundoff of round-to-nearest on 53 digits taken
    with a margin of one unit in the last place. *)
Definition fvalue (m : positive) (e : Z) : Q :=
  (inject_Z (Zpos m) * 2 ^ e)%Q.

Definition unit_roundoff : Q := (1 # (2 ^ 52))%Q.

(** ** coordinator_agent.py: the system status *)

(** The dictionary returned by [get_system_status]. *)
Record SystemStatusReport : Type := mkSystemStatusReport {
  system_initialized : bool;
  reported_operations : Z;
  reported_activity : option string;
  registered_agents : list string;
  agent_count : nat;
  agent_statuses : list (string * pydict)
}.

Module CoordinatorStatus.
Import CoordinatorAgent.

(** The body of the loop over [self.agents.items()]: the dictionary
    stored for one agent.  No [try] surrounds the calls. *)
Definition agent_status (a : agent) : M pydict :=
  match attr_get_model_status a with
  | Some get_model_status => get_model_status
  | None =>
      match attr_get_statistics a with
      | Some get_statistics => get_statistics
      | None => ret [("status", PyStr "active")]
      end
  end.

Fixpoint collect_statuses (entries : list (string * agent))
    (agent_statuses : list (string * pydict)) : M (list (string * pydict)) :=
  match entries with
  | [] => ret agent_statuses
  | (agent_name, a) :: rest =>
      status <- agent_status a ;;
      collect_statuses rest
        (dict_set String.eqb agent_statuses agent_name status)
  end.

Definition get_system_status : M SystemStatusReport :=
  s <- gets system_status ;;
  registered <- gets agents ;;
  agent_statuses <- collect_statuses registered [] ;;
  ret (mkSystemStatusReport (initialized s) (total_operations s)
         (last_activity s) (dict_keys registered) (List.length registered)
         agent_statuses).

End CoordinatorStatus.

(** ** Sequences of calls *)

(** The calls that change the state of the agents: those of the
    coordinator, and those that the user interface makes on the agents
    directly. *)
Inductive operation : Type :=
| RegisterAgent (agent_name : string) (agent_instance : agent)
| InitializeSystem
| ProcessImageAnalysis (image : Image) (prompt : string) (max_tokens : Z)
| CleanupSystem
| InitializeModel
| CleanupResources
| AnalyzeImage (image : Image) (prompt : string) (max_tokens : Z)
| AnalyzeWithMultiplePrompts (image : Image) (prompts : list string)
    (max_tokens : Z)
| ClearHistory
| PreprocessImage (image : Image).

Definition run_operation (op : operation) (w : World) : World :=
  match op with
  | RegisterAgent agent_name agent_instance =>
      snd (CoordinatorAgent.register_agent agent_name agent_instance w)
  | InitializeSystem => snd (CoordinatorAgent.initialize_system w)
  | ProcessImageAnalysis image prompt max_tokens =>
      snd (CoordinatorAgent.process_image_analysis image prompt max_tokens w)
  | CleanupSystem => snd (CoordinatorAgent.cleanup_system w)
  | InitializeModel => snd (ModelManagementAgent.initialize_model w)
  | CleanupResources => snd (ModelManagementAgent.cleanup_resources w)
  | AnalyzeImage image prompt max_tokens =>
      snd (AnalysisAgent.analyze_image image prompt max_tokens w)
  | AnalyzeWithMultiplePrompts image prompts max_tokens =>
      snd (AnalysisAgent.analyze_with_multiple_prompts image prompts
             max_tokens w)
  | ClearHistory => snd (AnalysisAgent.clear_history w)
  | PreprocessImage image =>
      snd (ImageProcessingAgent.preprocess_image image w)
  end.

Definition run_operations (ops : list operation) (w : World) : World :=
  fold_left (fun w op => run_operation op w) ops w.

(** [P] survives the step from the world before to the world after. *)
Definition preserves (P : World -> Prop) (w w' : World) : Prop := P w -> P w'.

(** Every record of the history is an allocated dictionary whose
    [success] is true. *)
Definition ledger_ok (w : World) : Prop :=
  forall r, In r (analysis_history w) ->
            (r < List.length (heap w))%nat /\ success (deref w r) = true.

(** A step under which the heap only grows, no dictionary changes its
    [success], and whatever is new in the history is an allocated
    success. *)
Definition ledger_step (w w' : World) : Prop :=
  (List.length (heap w) <= List.length (heap w'))%nat
  /\ (forall r, (r < List.length (heap w))%nat ->
                success (deref w' r) = success (deref w r))
  /\ (forall r, In r (analysis_history w') ->
                In r (analysis_history w)
                \/ ((r < List.length (heap w'))%nat
                    /\ success (deref w' r) = true)).

(** The device chosen by [get_device_info]. *)
Definition device_of (e : Env) : string :=
  if cuda_is_available e then "cuda" else "cpu".

(** A loaded agent holds both resources, and they are the ones that the
    two memo tables keep for its model and device. *)
Definition resources_ok (w : World) : Prop :=
  is_loaded (model_agent w) = true ->
  exists p m,
    processor (model_agent w) = Some p
    /\ model (model_agent w) = Some m
    /\ option_map fst
         (dict_get String.eqb (processor_cache w) (model_id (model_agent w)))
       = Some (Some p)
    /\ option_map fst
         (dict_get key2_eqb (model_cache w)
            (model_id (model_agent w), device_of (env w)))
       = Some (Some m).

(** The four agents of the application are registered under their
    names, as [multi_agent_app.main] does. *)
Definition app_registered (w : World) : Prop :=
  dict_get String.eqb (agents w) "model_management" = Some ModelManagementRef
  /\ dict_get String.eqb (agents w) "image_processing"
     = Some ImageProcessingRef
  /\ dict_get String.eqb (agents w) "analysis" = Some AnalysisRef
  /\ dict_get String.eqb (agents w) "ui" = Some UIRef.

(** Only objects of the four agent classes are registered. *)
Definition own_agent (a : agent) : bool :=
  match a with ForeignRef _ => false | _ => true end.

(** A host on which loading and inference always work. *)
Definition good_host : Env :=
  host always_loads (fun _ => Returns "a photography of a cat").

Definition running_app : World := snd (start_app (fresh_world good_host)).

(** The registry is the same before and after. *)
Definition registry_kept (w w' : World) : Prop := agents w' = agents w.

(** What [_load_processor_cached] and [_load_model_cached] answer in a
    world: the stored value if there is one, else what the body returns
    on this run. *)
Definition processor_answer (w : World) : option Processor * option string :=
  let mid := model_id (model_agent w) in
  match dict_get String.eqb (processor_cache w) mid with
  | Some v => v
  | None =>
      match processor_from_pretrained (env w) (processor_loads w) mid with
      | Returns p => (Some p, None)
      | Raises e => (None, Some e)
      end
  end.

Definition model_answer (w : World) : option Model * option string :=
  let mid := model_id (model_agent w) in
  let dev := device_of (env w) in
  match dict_get key2_eqb (model_cache w) (mid, dev) with
  | Some v => v
  | None =>
      match model_from_pretrained (env w) (model_loads w) mid dev with
      | Returns m => (Some m, None)
      | Raises e => (None, Some e)
      end
  end.

(** A step that touches nothing but the model agent, the two memo
    tables, the counts of loader invocations and the display. *)
Definition resources_only (w w' : World) : Prop :=
  env w' = env w
  /\ analysis_history w' = analysis_history w
  /\ heap w' = heap w
  /\ agents w' = agents w
  /\ system_status w' = system_status w
  /\ inference_calls w' = inference_calls w
  /\ clock_reads w' = clock_reads w.

Definition is_registration (op : operation) : bool :=
  match op with RegisterAgent _ _ => true | _ => false end.

(** An entry of the registry that binds a name to the model manager
    while the model is not loaded. *)
Definition unloaded_manager (w : World) (entry : string * agent) : bool :=
  match snd entry with
  | ModelManagementRef => negb (is_loaded (model_agent w))
  | _ => false
  end.

(** A very wide and flat picture: the scaled height falls below one
    pixel. *)
Definition thin_image : Image := mkImage "L" (5000, 1).

(** ** image_processing_agent.py: validation and loading *)

(** File names, URLs and content types are taken with characters below
    U+0100, one per [ascii].  On these, [str.lower] moves the capital
    letters A-Z and U+00C0-U+00DE (but the multiplication sign U+00D7)
    by 32, and the white space removed by [str.strip] is U+0009-U+000D,
    U+001C-U+0020, U+0085 and U+00A0. *)
Definition lower_char (c : ascii) : ascii :=
  let n := nat_of_ascii c in
  if ((65 <=? n) && (n <=? 90)
      || (192 <=? n) && (n <=? 222) && negb (n =? 215))%nat
  then ascii_of_nat (n + 32) else c.

Fixpoint lower (s : string) : string :=
  match s with
  | EmptyString => EmptyString
  | String c rest => String (lower_char c) (lower rest)
  end.

Definition is_space (c : ascii) : bool :=
  let n := nat_of_ascii c in
  ((9 <=? n) && (n <=? 13) || (28 <=? n) && (n <=? 32)
   || (n =? 133) || (n =? 160))%nat.

Fixpoint lstrip (s : string) : string :=
  match s with
  | EmptyString => EmptyString
  | String c rest => if is_space c then lstrip rest else s
  end.

(** [s.rstrip()]: [None] stands for a string that is all white
    space. *)
Fixpoint rstrip_aux (s : string) : option string :=
  match s with
  | EmptyString => None
  | String c rest =>
      match rstrip_aux rest with
      | Some kept => Some (String c kept)
      | None => if is_space c then None else Some (String c EmptyString)
      end
  end.

Definition rstrip (s : string) : string :=
  match rstrip_aux s with Some kept => kept | None => EmptyString end.

Definition strip (s : string) : string := rstrip (lstrip s).

(** [s.split(sep)] for a separator of one character: never empty. *)
Fixpoint split (sep : ascii) (s : string) : list string :=
  match s with
  | EmptyString => [EmptyString]
  | String c rest =>
      if Ascii.eqb c sep then EmptyString :: split sep rest
      else match split sep rest with
           | [] => [String c EmptyString]
           | first :: others => String c first :: others
           end
  end.

(** [needle in hay] on strings. *)
Fixpoint contains (needle hay : string) : bool :=
  String.prefix needle hay
  || match hay with
     | EmptyString => false
     | String _ rest => contains needle rest
     end.

(** An uploaded file, as Streamlit hands it over: a name and an
    in-memory stream with its current position. *)
Record UploadedFile : Type := mkUploadedFile {
  uf_name : string;
  uf_data : string;
  uf_position : nat
}.

(** What [requests.get] hands back: whether [raise_for_status] raises
    (and with what text), the [content-type] header and the body. *)
Record Response : Type := mkResponse {
  status_error : option string;
  content_type : option string;
  content : string
}.

(** How a call of [requests.get] ends: with a response, with a
    [RequestException], or with an exception of another class (the URL
    parser underneath raises its own). *)
Inductive fetched : Type :=
| Fetched (response : Response)
| RequestException (e : string)
| OtherException (e : string).

Module ImageLoading.

Definition supported_formats : list string :=
  ["png"; "jpg"; "jpeg"; "gif"; "bmp"].

Definition max_image_size : Z := 10 * 1024 * 1024.

Definition validate_image_format (filename : string) : bool :=
  if String.eqb filename "" then false
  else
    let file_extension := last (split "." (lower filename)) "" in
    existsb (String.eqb file_extension) supported_formats.

Definition validate_image_size (file_size : Z) : bool :=
  file_size <=? max_image_size.

Section Loaders.
(** [PIL.Image.open] on the bytes of a file: the decoded image, or the
    exception it raises. *)
Variable image_open : string -> outcome Image.
(** [requests.get(url, timeout=30)]. *)
Variable requests_get : string -> fetched.

(** [uploaded_file.read()] from the current position to the end. *)
Definition read (f : UploadedFile) : string * UploadedFile :=
  (substring (uf_position f) (String.length (uf_data f) - uf_position f)
     (uf_data f),
   mkUploadedFile (uf_name f) (uf_data f)
     (Nat.max (uf_position f) (String.length (uf_data f)))).

Definition seek (f : UploadedFile) (position : nat) : UploadedFile :=
  mkUploadedFile (uf_name f) (uf_data f) position.

(** [load_image_from_file(uploaded_file)].  The result is the pair
    returned, together with the uploaded file object as the call leaves
    it. *)
Definition load_image_from_file (uploaded_file : option UploadedFile)
  : M ((option Image * option string) * option UploadedFile) :=
  match uploaded_file with
  | None => ret ((None, Some "No file uploaded"), None)
  | Some f =>
      if negb (validate_image_format (uf_name f)) then
        ret ((None,
              Some ("Unsupported file format. Supported formats: "
                      ++ join ", " supported_formats)),
             Some f)
      else
        (* seek(0, 2); tell(); seek(0) *)
        let f := seek f (String.length (uf_data f)) in
        let file_size := Z.of_nat (uf_position f) in
        let f := seek f 0 in
        if negb (validate_image_size file_size) then
          ret ((None,
                Some ("File too large. Maximum size: "
                        ++ str_of_int (max_image_size / (1024 * 1024))
                        ++ "MB")),
               Some f)
        else
          let (image_data, f) := read f in
          try_except
            (opened <- CoordinatorAgent.lift_outcome (image_open image_data) ;;
             let image := ImageProcessingAgent.convert opened "RGB" in
             st (StSuccess "✅ Image loaded successfully!") ;;
             ret ((Some image, None), Some f))
            (fun e => ret ((None, Some ("Error loading image: " ++ e)),
                           Some f))
  end.

Definition image_type_markers : list string :=
  ["image/"; "jpeg"; "png"; "gif"; "bmp"].

(** [load_image_from_url(url)].  A [RequestException], from
    [requests.get] or from [raise_for_status], goes to the first
    handler; any other exception, from [requests.get] or from
    [Image.open], goes to the second. *)
Definition load_image_from_url (url : string)
  : M (option Image * option string) :=
  if String.eqb url "" || String.eqb (strip url) "" then
    ret (None, Some "No URL provided")
  else if negb (String.prefix "http://" url || String.prefix "https://" url)
  then
    ret (None,
         Some "Invalid URL format. Must start with http:// or https://")
  else
    match requests_get url with
    | RequestException e =>
        ret (None, Some ("Error downloading image: " ++ e))
    | OtherException e =>
        ret (None, Some ("Error processing image from URL: " ++ e))
    | Fetched response =>
        match status_error response with
        | Some e => ret (None, Some ("Error downloading image: " ++ e))
        | None =>
            let content_type :=
              lower match content_type response with
                    | Some t => t
                    | None => ""
                    end in
            if negb (existsb (fun format_type =>
                                contains format_type content_type)
                       image_type_markers)
            then ret (None, Some "URL does not point to a valid image file")
            else
              try_except
                (opened <- CoordinatorAgent.lift_outcome
                             (image_open (content response)) ;;
                 let image := ImageProcessingAgent.convert opened "RGB" in
                 st (StSuccess "✅ Image loaded from URL successfully!") ;;
                 ret (Some image, None))
                (fun e =>
                   ret (None,
                        Some ("Error processing image from URL: " ++ e)))
        end
    end.

End Loaders.
End ImageLoading.

(** Decoders and networks of the examples. *)
Definition decodes_everything (data : string) : outcome Image :=
  Returns (mkImage "L" (640, 480)).

Definition offline (url : string) : fetched :=
  RequestException "Connection refused".

(** [c in s] for a character. *)
Fixpoint has_char (c : ascii) (s : string) : bool :=
  match s with
  | EmptyString => false
  | String c' rest => Ascii.eqb c' c || has_char c rest
  end.

Definition holiday_upload : UploadedFile :=
  mkUploadedFile "Holiday.Final.JPG" "not really a picture" 7.
(** * Properties *)

Unset Implicit Arguments.
Local Open Scope list_scope.

(** ** Generic facts about lists *)

Lemma nth_app_old {A} (l l' : list A) (i : nat) (d : A) :
  (i < List.length l)%nat -> nth i (l ++ l') d = nth i l d.
Proof. intros H. now rewrite app_nth1. Qed.

Lemma nth_app_new {A} (l l' : list A) (i : nat) (d : A) :
  nth (List.length l + i) (l ++ l') d = nth i l' d.
Proof.
  rewrite app_nth2 by lia. f_equal. lia.
Qed.

Lemma find_seq_some (f : nat -> bool) (n b r : nat) :
  find f (seq b n) = Some r ->
  (b <= r < b + n)%nat /\ f r = true /\
  (forall j, (b <= j < r)%nat -> f j = false).
Proof.
  revert b. induction n as [|n IH]; intros b; simpl; [discriminate|].
  destruct (f b) eqn:Fb.
  - intros [= <-]. repeat split; try lia; auto.
  - intros H. destruct (IH _ H) as (Hr & Hs & Hbefore).
    repeat split; try lia; auto.
    intros j Hj. destruct (Nat.eq_dec j b) as [->|Hne]; [exact Fb|].
    apply Hbefore. lia.
Qed.

Lemma find_seq_none (f : nat -> bool) (n b : nat) :
  find f (seq b n) = None ->
  forall j, (b <= j < b + n)%nat -> f j = false.
Proof.
  intros H j Hj. apply (find_none f _ H). apply in_seq. lia.
Qed.

Lemma last_seq (b n : nat) (d : nat) :
  (0 < n)%nat -> last (seq b n) d = (b + n - 1)%nat.
Proof.
  intros Hn. destruct n as [|n]; [lia|].
  rewrite seq_S, last_last. lia.
Qed.

(** ** History ledger: retrieval *)

Section Slices.
Context {A : Type}.

(** [lst[-k:]] for a positive [k] is the [k] last elements, or the
    whole list when it has fewer. *)
Lemma slice_from_neg (k : Z) (l : list A) :
  0 < k ->
  slice_from (- k) l = skipn (List.length l - Z.to_nat k) l.
Proof.
  intros Hk. unfold slice_from.
  destruct (Z.ltb_spec (- k) 0) as [_|]; [|lia].
  f_equal. lia.
Qed.

(** [lst[-0:]] is [lst[0:]]: the whole list. *)
Lemma slice_from_zero (l : list A) : slice_from (- 0) l = l.
Proof.
  unfold slice_from. simpl. rewrite Z.min_l by lia. reflexivity.
Qed.
End Slices.

(** ** Reasoning about monadic code *)

(** A relation between the world before and the world after that holds
    across a computation whether it returns or raises. *)
Section Framing.
Variable R : World -> World -> Prop.
Hypothesis R_refl : forall w, R w w.
Hypothesis R_trans : forall w1 w2 w3, R w1 w2 -> R w2 w3 -> R w1 w3.

Lemma keeps_ret {A} (a : A) : keeps R (ret a).
Proof. intros w. apply R_refl. Qed.

Lemma keeps_raise {A} (e : string) : keeps R (@raise A e).
Proof. intros w. apply R_refl. Qed.

Lemma keeps_gets {A} (f : World -> A) : keeps R (gets f).
Proof. intros w. apply R_refl. Qed.

Lemma keeps_lift {A} (o : outcome A) : keeps R (CoordinatorAgent.lift_outcome o).
Proof. intros w. apply R_refl. Qed.

Lemma keeps_bind {A B} (m : M A) (k : A -> M B) :
  keeps R m -> (forall a, keeps R (k a)) -> keeps R (bind m k).
Proof.
  intros Hm Hk w. unfold bind. specialize (Hm w).
  destruct (m w) as [[a|e] w1]; simpl in *; [|exact Hm].
  eapply R_trans; [exact Hm|apply Hk].
Qed.

Lemma keeps_try_except {A} (m : M A) (h : string -> M A) :
  keeps R m -> (forall e, keeps R (h e)) -> keeps R (try_except m h).
Proof.
  intros Hm Hh w. unfold try_except. specialize (Hm w).
  destruct (m w) as [[a|e] w1]; simpl in *; [exact Hm|].
  eapply R_trans; [exact Hm|apply Hh].
Qed.

Lemma keeps_modify (f : World -> World) :
  (forall w, R w (f w)) -> keeps R (modify f).
Proof. intros H w. apply H. Qed.

Lemma keeps_if {A} (b : bool) (m1 m2 : M A) :
  keeps R m1 -> keeps R m2 -> keeps R (if b then m1 else m2).
Proof. destruct b; auto. Qed.
End Framing.

Lemma total_try_except {A} (m : M A) (h : string -> M A) :
  (forall e, total (h e)) -> total (try_except m h).
Proof.
  intros Hh w. unfold try_except.
  destruct (m w) as [[a|e] w1]; simpl; [eauto|apply Hh].
Qed.

Lemma total_bind {A B} (m : M A) (k : A -> M B) :
  total m -> (forall a, total (k a)) -> total (bind m k).
Proof.
  intros Hm Hk w. unfold bind. destruct (Hm w) as [a Ha].
  destruct (m w) as [[a'|e] w1]; simpl in *; [apply Hk|discriminate].
Qed.

Lemma total_ret {A} (a : A) : total (ret a).
Proof. intros w. simpl. eauto. Qed.

Lemma total_st (e : st_event) : total (st e).
Proof. intros w. simpl. eauto. Qed.

Lemma total_new_dict (r : AnalysisResult) : total (new_dict r).
Proof. intros w. simpl. eauto. Qed.

(** ** analysis_agent.py *)

Section Analysis.
Import AnalysisAgent.

(** C5 (as the code has it).  [get_analysis_history(0)] evaluates
    [history[-0:]], which is the whole history: with a limit of zero
    the caller gets every stored record, not an empty list. *)
Theorem get_analysis_history_zero_returns_everything :
  forall w : World,
    get_analysis_history 0 w = (Returns (analysis_history w), w).
Proof.
  intros w. unfold get_analysis_history, bind, gets, ret.
  destruct (analysis_history w) as [|r rest] eqn:E; [reflexivity|].
  now rewrite slice_from_zero.
Qed.

(** For a positive limit the retrieval is as intended: the [limit] most
    recent records in insertion order, or all of them when there are
    fewer. *)
Lemma get_analysis_history_positive (limit : Z) (w : World) :
  0 < limit ->
  get_analysis_history limit w =
    (Returns (skipn (List.length (analysis_history w) - Z.to_nat limit)
                (analysis_history w)), w).
Proof.
  intros Hl. unfold get_analysis_history, bind, gets, ret.
  destruct (analysis_history w) as [|r rest] eqn:E.
  - now rewrite skipn_nil.
  - now rewrite slice_from_neg.
Qed.

Lemma get_analysis_history_beyond_length (limit : Z) (w : World) :
  Z.of_nat (List.length (analysis_history w)) < limit ->
  get_analysis_history limit w = (Returns (analysis_history w), w).
Proof.
  intros Hl. rewrite get_analysis_history_positive by lia.
  replace (_ - _)%nat with 0%nat by lia. reflexivity.
Qed.

(** C7.  With no prompt at all, [analyze_with_multiple_prompts]
    returns a fresh failure dictionary of its own
    ([success = False], [error = 'All analysis attempts failed']) and
    does nothing else: apart from that one allocation the world is the
    one it started from, so [analyze_image] was not run (which would
    have allocated a result of its own), no inference was made,
    nothing was stored in the history and nothing was shown. *)
Theorem analyze_with_multiple_prompts_no_prompts :
  forall (w : World) (image : Image) (max_tokens : Z),
    analyze_with_multiple_prompts image [] max_tokens w =
      (Returns (List.length (heap w)),
       set_heap (heap w ++ [failure "All analysis attempts failed"]) w)
    /\ success (failure "All analysis attempts failed") = false
    /\ error (failure "All analysis attempts failed")
       = Some "All analysis attempts failed".
Proof. intros. repeat split. Qed.

(** *** One run of [analyze_image] *)

Lemma analyze_image_effect (image : Image) (p : string) (mt : Z) (w : World) :
  exists w' d,
    analyze_image image p mt w = (Returns (List.length (heap w)), w')
    /\ run_effect image p mt w w' d.
Proof.
  unfold run_effect, run_error, can_infer, analyze_image, try_except,
    analyze_image_body, bind, gets, run_blip, time_now, strftime_now,
    new_dict, append_history, modify, ret.
  simpl.
  destruct (is_loaded (model_agent w)) eqn:L; simpl.
  - destruct (processor (model_agent w)) eqn:P; simpl;
      [destruct (model (model_agent w)) eqn:Mo; simpl|].
    + destruct (blip_caption _ _ _ _ _) as [c|e]; simpl;
        eexists; eexists; (split; [reflexivity|]);
        (split; [simpl; reflexivity|]); unfold failure; simpl;
        rewrite ?app_nil_r; repeat split; try discriminate;
        solve [now left | right; now left | right; right; now eexists].
    + eexists; eexists; (split; [reflexivity|]);
        (split; [simpl; reflexivity|]); unfold failure; simpl;
        rewrite ?app_nil_r; repeat split; try discriminate;
        solve [now left | right; now left | right; right; now eexists].
    + eexists; eexists; (split; [reflexivity|]);
        (split; [simpl; reflexivity|]); unfold failure; simpl;
        rewrite ?app_nil_r; repeat split; try discriminate;
        solve [now left | right; now left | right; right; now eexists].
  - eexists; eexists; (split; [reflexivity|]);
        (split; [simpl; reflexivity|]); unfold failure; simpl;
      rewrite ?app_nil_r; repeat split; try discriminate;
        solve [now left | right; now left | right; right; now eexists].
Qed.

Lemma bind_returns {A B} (m : M A) (k : A -> M B) (w w' : World) (a : A) :
  m w = (Returns a, w') -> bind m k w = k a w'.
Proof. intros H. unfold bind. now rewrite H. Qed.

Lemma can_infer_same_agent (w w' : World) :
  model_agent w' = model_agent w -> can_infer w' = can_infer w.
Proof. intros H. unfold can_infer. now rewrite H. Qed.

(** *** The first loop: one run per prompt, in order *)

Lemma try_prompts_effect (image : Image) (mt : Z) :
  forall (ps : list string) (i n : nat) (results : list ref) (w : World),
  exists w' ds,
    try_prompts image ps i n mt results w
      = (Returns (results ++ seq (List.length (heap w)) (List.length ps)), w')
    /\ heap w' = heap w ++ ds
    /\ List.length ds = List.length ps
    /\ model_agent w' = model_agent w
    /\ inference_calls w'
       = inference_calls w
           ++ (if can_infer w
               then map (fun p => mkCall image p mt) ps else [])
    /\ (forall k p d,
           nth_error ps k = Some p -> nth_error ds k = Some d ->
           success d = true -> prompt d = Some p)
    /\ Forall run_error ds.
Proof.
  induction ps as [|p ps IH]; intros i n results w.
  - exists w, []. simpl. rewrite !app_nil_r.
    repeat split; try reflexivity.
    + destruct (can_infer w); simpl; now rewrite app_nil_r.
    + intros k p d Hp. now destruct k.
    + constructor.
  - set (w0 := set_st_log
                 (st_log w ++
                  [StInfo ("Trying prompt " ++ str_of_nat (S i) ++ "/"
                             ++ str_of_nat n ++ ": '" ++ p ++ "'")%string])
                 w).
    destruct (analyze_image_effect image p mt w0)
      as (w1 & d & Hrun & Hheap & Hagent & _ & _ & _ & Hcalls & _ & Hprompt
          & _ & Herr).
    change (heap w0) with (heap w) in *.
    change (model_agent w0) with (model_agent w) in *.
    change (inference_calls w0) with (inference_calls w) in *.
    change (can_infer w0) with (can_infer w) in *.
    assert (Hd : deref w1 (List.length (heap w)) = d).
    { unfold deref. rewrite Hheap.
      rewrite (app_nth2 (heap w) [d]) by lia.
      now rewrite Nat.sub_diag. }
    set (shown :=
           if success d
           then StSuccess ("✅ Generated: " ++ match caption d with
                                               | Some c => c
                                               | None => "None"
                                               end)%string
           else StError ("❌ Failed: " ++ match error d with
                                          | Some e => e
                                          | None => "None"
                                          end)%string).
    set (w2 := set_st_log (st_log w1 ++ [shown]) w1).
    destruct (IH (S i) n (results ++ [List.length (heap w)]) w2)
      as (w' & ds & Hrest & Hheap' & Hlen & Hagent' & Hcalls' & Hprompts
          & Hall).
    change (heap w2) with (heap w1) in *.
    change (model_agent w2) with (model_agent w1) in *.
    change (inference_calls w2) with (inference_calls w1) in *.
    exists w', (d :: ds).
    assert (Hcan : can_infer w2 = can_infer w)
      by (apply can_infer_same_agent; exact Hagent).
    repeat split.
    + cbn [try_prompts].
      unfold st at 1. unfold modify at 1.
      unfold bind at 1. fold w0.
      rewrite (bind_returns _ _ _ _ _ Hrun).
      unfold read_dict, gets. unfold bind at 1. rewrite Hd.
      assert (Hshow :
                (if success d
                 then st (StSuccess ("✅ Generated: "
                                       ++ match caption d with
                                          | Some c => c
                                          | None => "None"
                                          end)%string)
                 else st (StError ("❌ Failed: "
                                     ++ match error d with
                                        | Some e => e
                                        | None => "None"
                                        end)%string)) w1
                = (Returns tt, w2)).
      { unfold w2, shown. now destruct (success d). }
      rewrite (bind_returns _ _ _ _ _ Hshow).
      refine (eq_trans Hrest _). rewrite Hheap. rewrite length_app. simpl.
      rewrite <- app_assoc. simpl.
      now rewrite Nat.add_1_r.
    + rewrite Hheap', Hheap. now rewrite <- app_assoc.
    + simpl. now rewrite Hlen.
    + now rewrite Hagent'.
    + rewrite Hcalls', Hcalls, Hcan.
      destruct (can_infer w); simpl; now rewrite <- ?app_assoc.
    + intros k q d' Hq Hd'. destruct k as [|k]; simpl in *.
      * injection Hq as <-. injection Hd' as <-. exact Hprompt.
      * eapply Hprompts; eassumption.
    + constructor; assumption.
Qed.

(** *** The second loop: the first success *)

Lemma first_successful_is_find (results : list ref) (w : World) :
  first_successful results w
    = (Returns (find (fun r => success (deref w r)) results), w).
Proof.
  induction results as [|r rest IH]; [reflexivity|].
  cbn [first_successful find]. unfold bind, read_dict, gets.
  destruct (success (deref w r)); [reflexivity|exact IH].
Qed.

(** C1 (as the code has it).  For a non-empty prompt list,
    [analyze_with_multiple_prompts] runs [analyze_image] once for
    _every_ prompt, in order, whether or not an earlier prompt already
    succeeded: one result dictionary per prompt is allocated, in prompt
    order, and (when the model can be reached) one inference call per
    prompt is made, in prompt order.  It then returns the first of
    these results whose [success] is true, and the last one when none
    succeeded. *)
Theorem analyze_with_multiple_prompts_runs_all_returns_first_success :
  forall (w : World) (image : Image) (prompts : list string)
         (max_tokens : Z),
    prompts <> [] ->
    exists r w',
      analyze_with_multiple_prompts image prompts max_tokens w
        = (Returns r, w')
      /\ (exists ds,
             heap w' = heap w ++ ds
             /\ List.length ds = List.length prompts
             /\ forall k p d,
                 nth_error prompts k = Some p -> nth_error ds k = Some d ->
                 success d = true -> prompt d = Some p)
      /\ inference_calls w'
         = inference_calls w
             ++ (if can_infer w
                 then map (fun p => mkCall image p max_tokens) prompts
                 else [])
      /\ (List.length (heap w) <= r
          < List.length (heap w) + List.length prompts)%nat
      /\ (forall j, (List.length (heap w) <= j < r)%nat ->
                    success (deref w' j) = false)
      /\ (success (deref w' r) = true
          \/ r = (List.length (heap w) + List.length prompts - 1)%nat).
Proof.
  intros w image prompts mt Hne.
  destruct (try_prompts_effect image mt prompts 0 (List.length prompts) [] w)
    as (w' & ds & Hloop & Hheap & Hlen & _ & Hcalls & Hprompts & _).
  simpl in Hloop.
  set (base := List.length (heap w)) in *.
  set (n := List.length prompts) in *.
  assert (Hn : (0 < n)%nat).
  { unfold n. destruct prompts; [congruence|simpl; lia]. }
  unfold analyze_with_multiple_prompts.
  rewrite (bind_returns _ _ _ _ _ Hloop).
  rewrite (bind_returns _ _ _ _ _ (first_successful_is_find _ w')).
  destruct (find (fun r => success (deref w' r)) (seq base n)) as [r|] eqn:F.
  - destruct (find_seq_some _ _ _ _ F) as (Hr & Hs & Hbefore).
    exists r, w'. repeat split; try lia; auto.
    exists ds. auto.
  - exists (base + n - 1)%nat, w'.
    assert (Hlast : (match seq base n with
                     | [] => new_dict (failure "All analysis attempts failed")
                     | _ :: _ => ret (last (seq base n) 0%nat)
                     end) w' = (Returns (base + n - 1)%nat, w')).
    { rewrite <- (last_seq base n 0%nat Hn).
      destruct n; [lia|reflexivity]. }
    repeat split; try lia; auto.
    + exists ds. auto.
    + intros j Hj. apply (find_seq_none _ _ _ F). lia.
Qed.

(** The theorem at work on the running application, whose first
    inference fails: three prompts, of which the first fails and the
    second and the third succeed.  Three dictionaries are allocated and
    three inference calls are made, in the order of the prompts, and
    the dictionary returned is one of the three, a success, with
    nothing but failures before it. *)
Lemma analyze_with_multiple_prompts_three_prompts :
  exists r w',
    analyze_with_multiple_prompts photo ["p1"; "p2"; "p3"]%string 50
      ready_world = (Returns r, w')
    /\ (exists ds,
           heap w' = heap ready_world ++ ds
           /\ List.length ds = List.length ["p1"; "p2"; "p3"]%string
           /\ forall k p d,
               nth_error ["p1"; "p2"; "p3"]%string k = Some p ->
               nth_error ds k = Some d ->
               success d = true -> prompt d = Some p)
    /\ inference_calls w'
       = inference_calls ready_world
           ++ (if can_infer ready_world
               then map (fun p => mkCall photo p 50)
                      ["p1"; "p2"; "p3"]%string
               else [])
    /\ (List.length (heap ready_world) <= r
        < List.length (heap ready_world)
          + List.length ["p1"; "p2"; "p3"]%string)%nat
    /\ (forall j, (List.length (heap ready_world) <= j < r)%nat ->
                  success (deref w' j) = false)
    /\ (success (deref w' r) = true
        \/ r = (List.length (heap ready_world)
                + List.length ["p1"; "p2"; "p3"]%string - 1)%nat).
Proof.
  apply (analyze_with_multiple_prompts_runs_all_returns_first_success
           ready_world photo ["p1"; "p2"; "p3"]%string 50).
  discriminate.
Defined.

(** C1 as stated does not hold: with three prompts of which the first
    fails and the second succeeds, the result of the second is
    returned, and yet the third prompt has been run as well. *)
Lemma third_prompt_runs_after_second_succeeded :
  let '(o, w') :=
    analyze_with_multiple_prompts photo ["p1"; "p2"; "p3"]%string 50
      ready_world in
  o = Returns 1%nat
  /\ success (deref w' 0%nat) = false
  /\ success (deref w' 1%nat) = true
  /\ prompt (deref w' 1%nat) = Some "p2"%string
  /\ inference_calls w'
     = [mkCall photo "p1" 50; mkCall photo "p2" 50; mkCall photo "p3" 50]
  /\ In (mkCall photo "p3" 50) (inference_calls w').
Proof. vm_compute. repeat split. right. right. left. reflexivity. Qed.

(** The text ['All analysis attempts failed'] marks the call without
    prompts and nothing else: when prompts are given, the record
    returned comes from [analyze_image], whose failures read
    ['Model not loaded...'] or ['Analysis failed: ...']. *)
Lemma synthetic_failure_only_without_prompts
    (w : World) (image : Image) (prompts : list string) (max_tokens : Z)
    (r : ref) (w' : World) :
  prompts <> [] ->
  analyze_with_multiple_prompts image prompts max_tokens w = (Returns r, w') ->
  error (deref w' r) <> Some "All analysis attempts failed"%string.
Proof.
  intros Hne Hcall.
  destruct (try_prompts_effect image max_tokens prompts 0
              (List.length prompts) [] w)
    as (w1 & ds & Hloop & Hheap & Hlen & _ & _ & _ & Hall).
  simpl in Hloop.
  set (base := List.length (heap w)) in *.
  set (n := List.length prompts) in *.
  assert (Hn : (0 < n)%nat).
  { unfold n. destruct prompts; [congruence|simpl; lia]. }
  unfold analyze_with_multiple_prompts in Hcall.
  rewrite (bind_returns _ _ _ _ _ Hloop) in Hcall.
  rewrite (bind_returns _ _ _ _ _ (first_successful_is_find _ w1)) in Hcall.
  assert (Hr : w' = w1 /\ (base <= r < base + n)%nat).
  { destruct (find (fun r => success (deref w1 r)) (seq base n)) as [r0|] eqn:F.
    - injection Hcall as <- <-.
      destruct (find_seq_some _ _ _ _ F) as (Hr & _). split; [reflexivity|exact Hr].
    - assert (Hlast : (match seq base n with
                       | [] => new_dict (failure "All analysis attempts failed")
                       | _ :: _ => ret (last (seq base n) 0%nat)
                       end) w1 = (Returns (base + n - 1)%nat, w1)).
      { rewrite <- (last_seq base n 0%nat Hn).
        destruct n; [lia|reflexivity]. }
      assert (Hc2 : (Returns (base + n - 1)%nat, w1) = (Returns r, w'))
        by (rewrite <- Hlast; exact Hcall).
      injection Hc2 as <- <-.
      split; [reflexivity|lia]. }
  destruct Hr as [-> Hr].
  assert (Hd : In (deref w1 r) ds).
  { unfold deref. rewrite Hheap.
    replace r with (base + (r - base))%nat by lia.
    unfold base. rewrite nth_app_new. apply nth_In. lia. }
  rewrite Forall_forall in Hall.
  destruct (Hall _ Hd) as [E|[E|[e E]]]; rewrite E; simpl; discriminate.
Qed.

(** The ledger after the three-prompt run above holds two records, and a
    request for the last zero of them returns both. *)
Lemma get_analysis_history_zero_on_two_records :
  let w :=
    snd (analyze_with_multiple_prompts photo ["p1"; "p2"; "p3"]%string 50
           ready_world) in
  analysis_history w = [1%nat; 2%nat]
  /\ fst (get_analysis_history 0 w) = Returns [1%nat; 2%nat]
  /\ fst (get_analysis_history 1 w) = Returns [2%nat].
Proof. vm_compute. repeat split. Qed.
End Analysis.

(** ** Dictionaries *)

Section DictFacts.
Context {K V : Type}.
Variable eqb : K -> K -> bool.
Hypothesis eqb_refl : forall k, eqb k k = true.

Lemma dict_get_set_same (d : list (K * V)) (k : K) (v : V) :
  dict_get eqb (dict_set eqb d k v) k = Some v.
Proof.
  induction d as [|[k' v'] d IH]; simpl.
  - now rewrite eqb_refl.
  - destruct (eqb k k') eqn:E; simpl; now rewrite E.
Qed.
End DictFacts.

Lemma key2_eqb_refl (k : string * string) : key2_eqb k k = true.
Proof. unfold key2_eqb. now rewrite !String.eqb_refl. Qed.

(** ** model_management_agent.py: the resource cache *)

Section ResourceCache.
Import ModelManagementAgent.

(** C3 (as the code has it).  [_load_model_cached] catches the
    loader's exception itself and _returns_ the pair [(None, message)],
    and [st.cache_resource] stores whatever is returned.  So a failed
    construction is memoized like a successful one: the next call
    with the same key gets the stored failure back and the loader is
    not invoked (the world, with its count of loader invocations, is
    unchanged).  The loader is tried again only after
    [cleanup_resources] has cleared the cache. *)
Theorem failed_model_load_is_memoized :
  forall (w : World) (mid dev e : string),
    dict_get key2_eqb (model_cache w) (mid, dev) = None ->
    model_from_pretrained (env w) (model_loads w) mid dev = Raises e ->
    exists w1,
      _load_model_cached mid dev w = (Returns (None, Some e), w1)
      /\ model_loads w1 = S (model_loads w)
      /\ _load_model_cached mid dev w1 = (Returns (None, Some e), w1)
      /\ model_loads
           (snd (_load_model_cached mid dev (snd (cleanup_resources w1))))
         = S (model_loads w1).
Proof.
  intros w mid dev e Hmiss Hfail.
  unfold _load_model_cached, cache_resource, load_model_body,
    model_from_pretrained_call, try_except, bind, gets, modify, ret.
  simpl. rewrite Hmiss, Hfail. simpl.
  eexists. split; [reflexivity|]. simpl.
  rewrite (dict_get_set_same key2_eqb key2_eqb_refl).
  repeat split.
  destruct (model_from_pretrained (env w) (S (model_loads w)) mid dev);
    reflexivity.
Qed.

(** The processor cache behaves in the same way. *)
Lemma failed_processor_load_is_memoized :
  forall (w : World) (mid e : string),
    dict_get String.eqb (processor_cache w) mid = None ->
    processor_from_pretrained (env w) (processor_loads w) mid = Raises e ->
    exists w1,
      _load_processor_cached mid w = (Returns (None, Some e), w1)
      /\ processor_loads w1 = S (processor_loads w)
      /\ _load_processor_cached mid w1 = (Returns (None, Some e), w1)
      /\ processor_loads
           (snd (_load_processor_cached mid (snd (cleanup_resources w1))))
         = S (processor_loads w1).
Proof.
  intros w mid e Hmiss Hfail.
  unfold _load_processor_cached, cache_resource, load_processor_body,
    processor_from_pretrained_call, try_except, bind, gets, modify, ret.
  simpl. rewrite Hmiss, Hfail. simpl.
  eexists. split; [reflexivity|]. simpl.
  rewrite (dict_get_set_same String.eqb String.eqb_refl).
  repeat split.
  destruct (processor_from_pretrained (env w) (S (processor_loads w)) mid);
    reflexivity.
Qed.

(** The theorem at work: a host whose loader fails once. *)
Lemma failed_model_load_is_memoized_on_flaky_host :
  exists w1,
    _load_model_cached "blip" "cpu" (fresh_world flaky_host)
      = (Returns (None, Some "Connection reset by peer"%string), w1)
    /\ model_loads w1 = S (model_loads (fresh_world flaky_host))
    /\ _load_model_cached "blip" "cpu" w1
       = (Returns (None, Some "Connection reset by peer"%string), w1)
    /\ model_loads
         (snd (_load_model_cached "blip" "cpu"
                 (snd (cleanup_resources w1))))
       = S (model_loads w1).
Proof.
  apply (failed_model_load_is_memoized (fresh_world flaky_host)
           "blip" "cpu" "Connection reset by peer");
    reflexivity.
Defined.

(** C3 as stated does not hold: the loader fails on its first
    invocation and would succeed on the second, but the second call of
    [_load_model_cached] with the same key does not invoke it: it
    returns the stored failure, and the loader has still been invoked
    once only. *)
Lemma second_call_does_not_retry_failed_load :
  let '(r1, w1) := _load_model_cached "blip" "cpu" (fresh_world flaky_host) in
  let '(r2, w2) := _load_model_cached "blip" "cpu" w1 in
  r1 = Returns (None, Some "Connection reset by peer"%string)
  /\ model_loads w1 = 1%nat
  /\ model_from_pretrained (env w1) (model_loads w1) "blip" "cpu"
     = Returns 1%nat
  /\ r2 = Returns (None, Some "Connection reset by peer"%string)
  /\ model_loads w2 = 1%nat.
Proof. vm_compute. repeat split. Qed.
End ResourceCache.

(** ** coordinator_agent.py: start-up *)

Section Startup.
Import CoordinatorAgent.

Lemma missing_agents_exact (registered : list (string * agent)) (name : string) :
  In name (missing_agents registered)
  <-> In name required_agents
      /\ dict_mem String.eqb registered name = false.
Proof.
  unfold missing_agents. rewrite filter_In.
  now rewrite negb_true_iff.
Qed.

(** C6 (as the code has it).  The required keys are the four of
    [required_agents]: [model_management], [image_processing],
    [analysis] and [ui].  When some of them are not registered,
    [initialize_system] returns [False] after showing one error that
    lists exactly the required keys that are absent, in the order of
    [required_agents]; nothing but the display changes, so the model
    agent's [initialize_model] is not invoked.  With the model manager
    alone registered, the keys reported are the three others. *)
Theorem initialize_system_reports_missing_agents :
  forall w : World,
    missing_agents (agents w) <> [] ->
    initialize_system w
      = (Returns false,
         set_st_log
           ((st_log w ++ [StInfo "🚀 Initializing Multi-Agent System..."])
              ++ [StError ("❌ Missing agents: "
                             ++ join ", " (missing_agents (agents w)))%string])
           w)
    /\ (forall name,
           In name (missing_agents (agents w))
           <-> In name required_agents
               /\ dict_mem String.eqb (agents w) name = false)
    /\ (dict_keys (agents w) = ["model_management"%string] ->
        missing_agents (agents w)
          = ["image_processing"; "analysis"; "ui"]%string).
Proof.
  intros w Hmiss. split; [|split].
  - unfold initialize_system, try_except, bind, st, modify, gets, ret.
    simpl.
    destruct (missing_agents (agents w)) as [|k ks] eqn:E; [congruence|].
    reflexivity.
  - intros name. apply missing_agents_exact.
  - unfold dict_keys. intros Hk.
    destruct (agents w) as [|[k a] [|? ?]]; try discriminate.
    simpl in Hk. injection Hk as ->. reflexivity.
Qed.

(** The theorem at work: only the model manager has been registered. *)
Lemma initialize_system_with_model_manager_only :
  initialize_system only_model_manager
    = (Returns false,
       set_st_log
         ((st_log only_model_manager
             ++ [StInfo "🚀 Initializing Multi-Agent System..."])
            ++ [StError ("❌ Missing agents: "
                           ++ join ", "
                                (missing_agents (agents only_model_manager)))
                  %string])
         only_model_manager)
  /\ (forall name,
         In name (missing_agents (agents only_model_manager))
         <-> In name required_agents
             /\ dict_mem String.eqb (agents only_model_manager) name = false)
  /\ (dict_keys (agents only_model_manager) = ["model_management"%string] ->
      missing_agents (agents only_model_manager)
        = ["image_processing"; "analysis"; "ui"]%string).
Proof.
  apply (initialize_system_reports_missing_agents only_model_manager).
  discriminate.
Defined.

(** C6 as stated does not hold: with the model manager alone
    registered, [initialize_system] returns [False] and names three
    missing keys, not two. *)
Lemma three_agents_reported_missing :
  let '(o, w') := initialize_system only_model_manager in
  o = Returns false
  /\ last (st_log w') (StInfo "")
     = StError "❌ Missing agents: image_processing, analysis, ui"
  /\ missing_agents (agents only_model_manager)
     = ["image_processing"; "analysis"; "ui"]%string
  /\ List.length (missing_agents (agents only_model_manager)) <> 2%nat.
Proof. vm_compute. repeat split. discriminate. Qed.
End Startup.

(** ** coordinator_agent.py: the workflow *)

Section Workflow.
Import CoordinatorAgent.

(** *** The operation counter *)

Lemma counter_kept_refl (w : World) : counter_kept w w.
Proof. reflexivity. Qed.

Lemma counter_kept_trans (w1 w2 w3 : World) :
  counter_kept w1 w2 -> counter_kept w2 w3 -> counter_kept w1 w3.
Proof. unfold counter_kept. congruence. Qed.

(** Splits a goal [keeps counter_kept m] along the structure of [m]. *)
Ltac frame_step :=
  lazymatch goal with
  | |- keeps _ (ret _) => apply keeps_ret
  | |- keeps _ (raise _) => apply keeps_raise
  | |- keeps _ (gets _) => apply keeps_gets
  | |- keeps _ (lift_outcome _) => apply keeps_lift
  | |- keeps _ (bind _ _) => apply keeps_bind
  | |- keeps _ (try_except _ _) => apply keeps_try_except
  | |- keeps _ (modify _) => apply keeps_modify
  | |- keeps _ (if _ then _ else _) => apply keeps_if
  | |- keeps _ (match ?x with _ => _ end) => destruct x
  end.

Ltac frame :=
  repeat (intros; frame_step;
          try exact counter_kept_refl; try exact counter_kept_trans).

Lemma st_keeps_counter (e : st_event) : keeps counter_kept (st e).
Proof. unfold st. frame. Qed.

Lemma time_now_keeps_counter : keeps counter_kept time_now.
Proof. intros w. reflexivity. Qed.

Lemma strftime_now_keeps_counter : keeps counter_kept strftime_now.
Proof. intros w. reflexivity. Qed.

Lemma new_dict_keeps_counter (r : AnalysisResult) :
  keeps counter_kept (new_dict r).
Proof. intros w. reflexivity. Qed.

Lemma write_dict_keeps_counter (p : ref) (r : AnalysisResult) :
  keeps counter_kept (write_dict p r).
Proof. intros w. reflexivity. Qed.

Lemma agents_item_keeps_counter (name : string) :
  keeps counter_kept (agents_item name).
Proof.
  unfold agents_item, get_agent. frame.
Qed.

Lemma image_convert_keeps_counter (image : Image) (m : string) :
  keeps counter_kept (ImageProcessingAgent.image_convert image m).
Proof.
  intros w. unfold ImageProcessingAgent.image_convert.
  destruct (convert_error (env w) image m); reflexivity.
Qed.

Lemma preprocess_image_keeps_counter (image : Image) :
  keeps counter_kept (ImageProcessingAgent.preprocess_image image).
Proof.
  unfold ImageProcessingAgent.preprocess_image,
    ImageProcessingAgent.preprocess_handler, ImageProcessingAgent.to_rgb,
    ImageProcessingAgent.resize_if_too_large, ImageProcessingAgent.resize.
  frame; try apply st_keeps_counter; apply image_convert_keeps_counter.
Qed.

Lemma analyze_image_keeps_counter (image : Image) (p : string) (mt : Z) :
  keeps counter_kept (AnalysisAgent.analyze_image image p mt).
Proof.
  intros w.
  destruct (analyze_image_effect image p mt w)
    as (w' & d & Hrun & _ & _ & _ & _ & Hstatus & _).
  rewrite Hrun. unfold counter_kept. simpl. now rewrite Hstatus.
Qed.

Lemma workflow_steps_keeps_counter (image : Image) (p : string) (mt : Z) :
  keeps counter_kept (workflow_steps image p mt).
Proof.
  unfold workflow_steps, read_dict, update_status.
  frame;
    try apply time_now_keeps_counter; try apply strftime_now_keeps_counter;
    try apply new_dict_keeps_counter; try apply write_dict_keeps_counter;
    try apply agents_item_keeps_counter; try reflexivity.
  - unfold call_preprocess_image, attribute_error.
    frame. apply preprocess_image_keeps_counter.
  - unfold call_analyze_image, attribute_error.
    frame. apply analyze_image_keeps_counter.
Qed.

Lemma process_image_analysis_total (image : Image) (p : string) (mt : Z) :
  total (process_image_analysis image p mt).
Proof.
  unfold process_image_analysis. apply total_try_except.
  intros e. apply total_new_dict.
Qed.

(** C4.  Every call of [process_image_analysis] adds exactly one to
    [total_operations], and does so before anything else: the rest of
    the call (the whole [try] body after the increment, and the
    [except] handler) runs from the world in which the counter has
    already been incremented, and leaves the counter alone whether it
    returns or raises.  The call itself never raises.  This holds for
    every world, initialised or not.  Hence after any sequence of calls
    the counter has grown by the number of calls. *)
Theorem process_image_analysis_counts_every_call :
  (forall (image : Image) (prompt : string) (max_tokens : Z) (w : World),
      let counted :=
        set_system_status
          (mkStatus (initialized (system_status w))
             (last_activity (system_status w))
             (total_operations (system_status w) + 1)) w in
      process_image_analysis image prompt max_tokens w
        = try_except (workflow_steps image prompt max_tokens)
            (fun e => new_dict (workflow_failure
                                  ("Workflow coordination failed: " ++ e)))
            counted
      /\ keeps counter_kept (workflow_steps image prompt max_tokens)
      /\ (exists r,
             fst (process_image_analysis image prompt max_tokens w)
               = Returns r)
      /\ total_operations
           (system_status
              (snd (process_image_analysis image prompt max_tokens w)))
         = total_operations (system_status w) + 1)
  /\ (forall (requests : list (Image * string * Z)) (w : World),
         total_operations (system_status (run_workflows requests w))
         = total_operations (system_status w)
           + Z.of_nat (List.length requests)
         /\ total_operations (system_status w)
            <= total_operations (system_status (run_workflows requests w))).
Proof.
  assert (Hone :
            forall image prompt max_tokens w,
              total_operations
                (system_status
                   (snd (process_image_analysis image prompt max_tokens w)))
              = total_operations (system_status w) + 1).
  { intros image prompt max_tokens w.
    change (process_image_analysis image prompt max_tokens w)
      with (try_except (workflow_steps image prompt max_tokens)
              (fun e => new_dict (workflow_failure
                                    ("Workflow coordination failed: " ++ e)))
              (set_system_status
                 (mkStatus (initialized (system_status w))
                    (last_activity (system_status w))
                    (total_operations (system_status w) + 1)) w)).
    match goal with
    | |- context [snd (?m ?w1)] =>
        assert (H : keeps counter_kept m)
    end.
    { apply keeps_try_except.
      - exact counter_kept_trans.
      - apply workflow_steps_keeps_counter.
      - intros e. apply new_dict_keeps_counter. }
    rewrite (H _). reflexivity. }
  split.
  - intros image prompt max_tokens w counted. repeat split.
    + apply workflow_steps_keeps_counter.
    + apply process_image_analysis_total.
    + apply Hone.
  - induction requests as [|[[image prompt] max_tokens] rest IH]; intros w.
    + simpl. lia.
    + cbn [run_workflows List.length].
      destruct (IH (snd (process_image_analysis image prompt max_tokens w)))
        as [IHeq IHle].
      rewrite Hone in IHeq, IHle. lia.
Qed.

(** When the system is not initialised the call is counted all the same,
    and reports it. *)
Lemma process_image_analysis_not_initialized
    (image : Image) (prompt : string) (max_tokens : Z) (w : World) :
  initialized (system_status w) = false ->
  exists w',
    process_image_analysis image prompt max_tokens w
      = (Returns (List.length (heap w)), w')
    /\ deref w' (List.length (heap w))
       = workflow_failure "System not initialized"
    /\ total_operations (system_status w')
       = total_operations (system_status w) + 1
    /\ analysis_history w' = analysis_history w.
Proof.
  intros Hinit.
  unfold process_image_analysis, try_except, bind, count_operation,
    update_status, modify, workflow_steps, bind, time_now, gets.
  simpl. rewrite Hinit. simpl.
  eexists. split; [reflexivity|]. simpl. repeat split.
  unfold deref. simpl. rewrite app_nth2 by lia.
  now rewrite Nat.sub_diag.
Qed.

(** *** The history ledger across a workflow *)

Lemma nth_list_update_same {A} (l : list A) (i : nat) (x d : A) :
  (i < List.length l)%nat -> nth i (list_update l i x) d = x.
Proof.
  revert i. induction l as [|h t IH]; intros i Hi; simpl in *; [lia|].
  destruct i as [|i]; [reflexivity|]. apply IH. lia.
Qed.

Lemma resize_if_too_large_effect (image : Image) (w : World) :
  (exists image',
      ImageProcessingAgent.resize_if_too_large image w = (Returns image', w)
      \/ exists message,
           ImageProcessingAgent.resize_if_too_large image w
           = (Returns image', set_st_log (st_log w ++ [StInfo message]) w))
  \/ exists e,
       ImageProcessingAgent.resize_if_too_large image w = (Raises e, w).
Proof.
  unfold ImageProcessingAgent.resize_if_too_large,
    ImageProcessingAgent.resize, ImageProcessingAgent.scale_dim, bind, st,
    modify, ret, raise.
  destruct (Z.max _ _ >? ImageProcessingAgent.max_dimension).
  - destruct (int_of_float _) as [w'|e]; [|right; eexists; reflexivity].
    destruct (int_of_float _) as [h'|e]; [|right; eexists; reflexivity].
    destruct ((fst (w', h') <? 1) || (snd (w', h') <? 1)).
    + right. eexists. reflexivity.
    + left. eexists. right. eexists. reflexivity.
  - left. eexists. left. reflexivity.
Qed.

Lemma to_rgb_effect (image : Image) (w : World) :
  (exists image', ImageProcessingAgent.to_rgb image w = (Returns image', w))
  \/ exists e, ImageProcessingAgent.to_rgb image w = (Raises e, w).
Proof.
  unfold ImageProcessingAgent.to_rgb, ImageProcessingAgent.image_convert, ret.
  destruct (negb _); [|left; eexists; reflexivity].
  destruct (convert_error (env w) image "RGB");
    [right|left]; eexists; reflexivity.
Qed.

Lemma preprocess_image_effect (image : Image) (w : World) :
  exists image' shown,
    ImageProcessingAgent.preprocess_image image w
      = (Returns image', set_st_log (st_log w ++ shown) w).
Proof.
  assert (Hsame : set_st_log (st_log w ++ []) w = w).
  { rewrite app_nil_r. now destruct w. }
  unfold ImageProcessingAgent.preprocess_image, try_except.
  unfold bind at 1.
  destruct (to_rgb_effect image w) as [[converted Hc]|[e Hc]]; rewrite Hc.
  - destruct (resize_if_too_large_effect converted w)
      as [[image' [Hr|[message Hr]]]|[e Hr]]; rewrite Hr.
    + exists image', []. now rewrite Hsame.
    + exists image', [StInfo message]. reflexivity.
    + eexists. eexists [StError _]. reflexivity.
  - eexists. eexists [StError _]. reflexivity.
Qed.

(** The history after the steps of a workflow: when they return a
    dictionary, it has been appended exactly if its [success] is true;
    when they raise, the history is as before. *)
Lemma workflow_steps_history (image : Image) (p : string) (mt : Z) (w : World) :
  match workflow_steps image p mt w with
  | (Returns r, w') =>
      analysis_history w'
      = analysis_history w ++ (if success (deref w' r) then [r] else [])
      /\ (success (deref w' r) = true ->
          initialized (system_status w) = true
          /\ dict_get String.eqb (agents w) "image_processing"
             = Some ImageProcessingRef
          /\ dict_get String.eqb (agents w) "analysis" = Some AnalysisRef)
  | (Raises _, w') => analysis_history w' = analysis_history w
  end.
Proof.
  unfold workflow_steps.
  unfold bind at 1. unfold time_now at 1.
  set (w1 := set_clock_reads (S (clock_reads w)) w).
  unfold bind at 1. unfold gets at 1.
  change (initialized (system_status w1)) with (initialized (system_status w)).
  destruct (initialized (system_status w)) eqn:Hinit; cbn [negb].
  2:{ unfold new_dict, deref, w1. simpl.
      rewrite app_nth2 by lia. rewrite Nat.sub_diag. simpl.
      rewrite app_nil_r. split; [reflexivity|discriminate]. }
  unfold bind at 1. unfold agents_item at 1, get_agent, bind, gets.
  change (agents w1) with (agents w).
  destruct (dict_get String.eqb (agents w) "image_processing") as [a|] eqn:Hi;
    [|reflexivity].
  destruct a; try reflexivity.
  change (ret ImageProcessingRef w1) with (Returns ImageProcessingRef, w1).
  cbv beta iota. cbn [call_preprocess_image].
  destruct (preprocess_image_effect image w1) as (image' & shown & Hpre).
  rewrite Hpre.
  set (w2 := set_st_log (st_log w1 ++ shown) w1).
  unfold agents_item at 1, get_agent, bind, gets.
  change (agents w2) with (agents w).
  destruct (dict_get String.eqb (agents w) "analysis") as [a|] eqn:Ha;
    [|reflexivity].
  destruct a; try reflexivity.
  change (ret AnalysisRef w2) with (Returns AnalysisRef, w2).
  cbv beta iota. cbn [call_analyze_image].
  destruct (analyze_image_effect image' p mt w2)
    as (w3 & d & Hrun & Hheap & _ & _ & _ & _ & _ & Hhist & _).
  rewrite Hrun.
  change (heap w2) with (heap w) in *.
  change (analysis_history w2) with (analysis_history w) in *.
  unfold strftime_now, update_status, modify, time_now, read_dict,
    write_dict, gets, ret.
  unfold deref. simpl.
  rewrite Hheap.
  rewrite nth_list_update_same by (rewrite length_app; simpl; lia).
  unfold set_workflow_metadata. cbn [success].
  rewrite app_nth2 by lia. rewrite Nat.sub_diag. cbn [nth].
  split; [exact Hhist|]. intros _. repeat split.
Qed.

(** Across a whole call of [process_image_analysis]: the record handed
    back to the caller is in the history afterwards exactly if its
    [success] is true.  A record reporting a failure, of whatever stage,
    is never appended; and a success is only reported by a workflow
    that was initialised and went through the image processing agent
    and the analysis agent. *)
Lemma process_image_analysis_history
    (image : Image) (p : string) (mt : Z) (w : World) :
  exists r w',
    process_image_analysis image p mt w = (Returns r, w')
    /\ analysis_history w'
       = analysis_history w ++ (if success (deref w' r) then [r] else [])
    /\ (success (deref w' r) = true ->
        initialized (system_status w) = true
        /\ dict_get String.eqb (agents w) "image_processing"
           = Some ImageProcessingRef
        /\ dict_get String.eqb (agents w) "analysis" = Some AnalysisRef).
Proof.
  unfold process_image_analysis, try_except.
  unfold bind at 1. unfold count_operation, update_status, modify.
  match goal with
  | |- context [workflow_steps image p mt ?w1] =>
      pose proof (workflow_steps_history image p mt w1) as H;
      change (analysis_history w1) with (analysis_history w) in H;
      change (agents w1) with (agents w) in H;
      change (initialized (system_status w1))
        with (initialized (system_status w)) in H;
      destruct (workflow_steps image p mt w1) as [[r|e] w']
  end.
  - exists r, w'. split; [reflexivity|exact H].
  - eexists. eexists. split; [reflexivity|].
    unfold new_dict, deref. simpl.
    rewrite app_nth2 by lia. rewrite Nat.sub_diag. simpl.
    rewrite app_nil_r. split; [exact H|discriminate].
Qed.

(** C2 (as the code has it).  The running application, on a host whose
    first inference fails, is asked for one analysis.  The workflow gets
    through preprocessing and analysis (the coordinator attaches its
    workflow metadata to the result), the record returned reports the
    inference failure, and the history is still empty: the record of a
    completed-preprocessing workflow with [success = False] has not
    been appended. *)
Theorem failed_inference_is_not_appended :
  let '(o, w') :=
    process_image_analysis photo "a photography of" 50 ready_world in
  o = Returns 0%nat
  /\ success (deref w' 0%nat) = false
  /\ error (deref w' 0%nat)
     = Some "Analysis failed: CUDA out of memory"%string
  /\ (exists wm, workflow_metadata (deref w' 0%nat) = Some (Some wm))
  /\ inference_calls w' = [mkCall photo "a photography of" 50]
  /\ analysis_history ready_world = []
  /\ analysis_history w' = [].
Proof.
  vm_compute. repeat split. eexists. reflexivity.
Qed.
End Workflow.

(** ** coordinator_agent.py: the health check *)

Section Health.
Import CoordinatorAgent.

Lemma dict_get_set (V : Type) (d : list (string * V)) (k k' : string) (v : V) :
  dict_get String.eqb (dict_set String.eqb d k v) k'
  = if String.eqb k' k then Some v else dict_get String.eqb d k'.
Proof.
  induction d as [|[k0 v0] d IH]; simpl.
  - reflexivity.
  - destruct (String.eqb_spec k k0) as [->|Hne]; simpl.
    + destruct (String.eqb k' k0); reflexivity.
    + rewrite IH.
      destruct (String.eqb_spec k' k0) as [->|Hne'].
      * destruct (String.eqb_spec k0 k); [congruence|reflexivity].
      * reflexivity.
Qed.

Lemma dict_get_absent (V : Type) (d : list (string * V)) (k : string) :
  ~ In k (dict_keys d) -> dict_get String.eqb d k = None.
Proof.
  induction d as [|[k0 v0] d IH]; simpl; [reflexivity|].
  intros Hk. destruct (String.eqb_spec k k0) as [->|Hne]; [tauto|].
  apply IH. tauto.
Qed.

(** *** One agent *)

(** The five ways in which the probe of one agent ends, by what the
    agent answers. *)
Lemma check_agent_cases (a : agent) (w : World) :
  check_agent a w = (Returns (health_of a w), w)
  /\ ((exists status,
          model_status_of a w = Some (Returns status)
          /\ truthy (get_is_loaded status) = false
          /\ health_of a w = mkHealth "warning" [PyStr "Model not loaded"])
      \/ (exists status,
             model_status_of a w = Some (Returns status)
             /\ truthy (get_is_loaded status) = true
             /\ health_of a w = mkHealth "healthy" [])
      \/ (exists stats message,
             model_status_of a w = None
             /\ statistics_of a w = Some (Returns stats)
             /\ dict_get String.eqb stats "message" = Some message
             /\ health_of a w = mkHealth "info" [message])
      \/ (model_status_of a w = None
          /\ ~ (exists e, statistics_of a w = Some (Raises e))
          /\ health_of a w = mkHealth "healthy" [])
      \/ (exists e,
             probe_raises a w e
             /\ health_of a w
                = mkHealth "error" [PyStr ("Exception: " ++ e)])).
Proof.
  unfold health_of, probe_raises, model_status_of, statistics_of.
  destruct a as [| | | |[cls gms gst]].
  - (* the model manager *)
    unfold check_agent, try_except, probe. simpl.
    unfold bind, ModelManagementAgent.get_model_status, gets, ret. simpl.
    destruct (is_loaded (model_agent w)) eqn:L; simpl; (split; [reflexivity|]).
    + right. left. eexists. repeat split; simpl; now rewrite ?L.
    + left. eexists. repeat split; simpl; now rewrite ?L.
  - split; [reflexivity|]. do 3 right. left.
    repeat split. intros [e He]. discriminate.
  - (* the analysis agent *)
    unfold check_agent, try_except, probe. simpl.
    unfold AnalysisAgent.get_statistics, bind, gets, ret.
    destruct (map (deref w) (analysis_history w)) as [|r rs]; simpl;
      (split; [reflexivity|]).
    + do 2 right. left. do 2 eexists. repeat split.
    + do 3 right. left. repeat split. intros [e He]. discriminate.
  - split; [reflexivity|]. do 3 right. left.
    repeat split. intros [e He]. discriminate.
  - (* a foreign object *)
    unfold check_agent, try_except, probe, bind, lift_outcome, ret. simpl.
    destruct gms as [[status|e]|]; simpl.
    + destruct (truthy (get_is_loaded status)) eqn:T; simpl;
        (split; [reflexivity|]).
      * right. left. eexists. repeat split; try exact T.
      * left. eexists. repeat split; try exact T.
    + split; [reflexivity|]. do 4 right. exists e. split; [now left|reflexivity].
    + destruct gst as [[stats|e]|]; simpl.
      * destruct (dict_get String.eqb stats "message") as [m|] eqn:D; simpl;
          (split; [reflexivity|]).
        -- do 2 right. left. exists stats, m. repeat split; try exact D.
        -- do 3 right. left. repeat split. intros [e He]. discriminate.
      * split; [reflexivity|]. do 4 right. exists e.
        split; [right; split; reflexivity|reflexivity].
      * split; [reflexivity|]. do 3 right. left.
        repeat split. intros [e He]. discriminate.
Qed.

Lemma probe_raises_unique (a : agent) (w : World) (e e' : string) :
  probe_raises a w e -> probe_raises a w e' -> e = e'.
Proof.
  unfold probe_raises. intros [H|[H1 H2]] [H'|[H1' H2']]; congruence.
Qed.

(** What the entry of one agent says, in terms of what the agent
    answered. *)
Lemma health_of_meaning (a : agent) (w : World) :
  (forall status,
      model_status_of a w = Some (Returns status) ->
      truthy (get_is_loaded status) = false ->
      health_of a w = mkHealth "warning" [PyStr "Model not loaded"])
  /\ (ah_status (health_of a w) = "error"%string
      <-> exists e, probe_raises a w e)
  /\ (forall e, probe_raises a w e ->
                ah_issues (health_of a w) = [PyStr ("Exception: " ++ e)]).
Proof.
  destruct (check_agent_cases a w)
    as [_ [(st & Hs & Ht & Hh)|[(st & Hs & Ht & Hh)|[(stats & m & Hs & Hst & Hm & Hh)
        |[(Hs & Hst & Hh)|(e & He & Hh)]]]]];
    rewrite Hh; simpl.
  - repeat split; try discriminate; try reflexivity.
    + intros [e [He|[He _]]]; congruence.
    + intros e [He|[He _]]; congruence.
  - repeat split; try discriminate.
    + intros st' Hs' Ht'. congruence.
    + intros [e [He|[He _]]]; congruence.
    + intros e [He|[He _]]; congruence.
  - repeat split; try discriminate.
    + intros st' Hs' Ht'. congruence.
    + intros [e [He|[_ He]]]; congruence.
    + intros e [He|[_ He]]; congruence.
  - repeat split; try discriminate.
    + intros st' Hs' Ht'. congruence.
    + intros [e [He|[_ He]]]; [congruence|]. exfalso. apply Hst. eauto.
    + intros e [He|[_ He]]; [congruence|]. exfalso. apply Hst. eauto.
  - repeat split; eauto.
    + intros st' Hs' Ht'. destruct He as [He|[He _]]; congruence.
    + intros e' He'. now rewrite (probe_raises_unique a w e e' He He').
Qed.

(** *** The loop *)

Lemma check_step_effect (report : HealthReport) (name : string) (a : agent)
    (w : World) :
  exists report',
    check_step report (name, a) w = (Returns report', w)
    /\ agent_health report'
       = dict_set String.eqb (agent_health report) name (health_of a w)
    /\ overall_health report'
       = (if String.eqb (ah_status (health_of a w)) "error"
          then "unhealthy"%string else overall_health report)
    /\ warnings report'
       = warnings report
           ++ (if String.eqb (ah_status (health_of a w)) "warning"
               then [(name ++ ": Model not loaded")%string] else []).
Proof.
  destruct (check_agent_cases a w) as [Hrun Hcases].
  unfold check_step. rewrite (bind_returns _ _ _ _ _ Hrun).
  destruct Hcases
    as [(st & _ & _ & Hh)|[(st & _ & _ & Hh)|[(stats & m & _ & _ & _ & Hh)
        |[(_ & _ & Hh)|(e & _ & Hh)]]]];
    rewrite Hh; simpl;
    eexists; (split; [reflexivity|]); simpl; rewrite ?app_nil_r;
    repeat split.
Qed.

Lemma check_all_effect (w : World) :
  forall (entries : list (string * agent)) (report : HealthReport),
  exists report',
    check_all entries report w = (Returns report', w)
    /\ agent_health report' = health_table w entries (agent_health report)
    /\ (overall_health report' = "unhealthy"%string
        <-> overall_health report = "unhealthy"%string
            \/ exists name a,
                In (name, a) entries
                /\ ah_status (health_of a w) = "error"%string)
    /\ (overall_health report' = overall_health report
        \/ overall_health report' = "unhealthy"%string).
Proof.
  induction entries as [|[name a] rest IH]; intros report.
  - exists report. simpl. repeat split; auto.
    intros [H|(n & a & [] & _)]. exact H.
  - destruct (check_step_effect report name a w)
      as (r1 & Hstep & Htable & Hoverall & _).
    destruct (IH r1) as (r2 & Hrest & Htable2 & Hiff & Hmono).
    exists r2. cbn [check_all].
    rewrite (bind_returns _ _ _ _ _ Hstep).
    split; [exact Hrest|]. split; [|split].
    + rewrite Htable2, Htable. reflexivity.
    + rewrite Hiff, Hoverall.
      destruct (String.eqb_spec (ah_status (health_of a w)) "error")
        as [Herr|Hok].
      * split; [|tauto]. intros _. right. exists name, a. simpl. auto.
      * split.
        -- intros [H|(n & a' & Hin & Hs)]; [now left|].
           right. exists n, a'. simpl. auto.
        -- intros [H|(n & a' & [Heq|Hin] & Hs)]; [now left| |].
           ++ injection Heq as <- <-. contradiction.
           ++ right. exists n, a'. auto.
    + rewrite Hoverall in Hmono.
      destruct (String.eqb (ah_status (health_of a w)) "error"); tauto.
Qed.

(** The table built by the loop from a dictionary of agents. *)
Lemma health_table_get (w : World) :
  forall (entries : list (string * agent)) (table : list (string * AgentHealth))
         (name : string),
    NoDup (dict_keys entries) ->
    dict_get String.eqb (health_table w entries table) name
    = match dict_get String.eqb entries name with
      | Some a => Some (health_of a w)
      | None => dict_get String.eqb table name
      end.
Proof.
  induction entries as [|[k a] rest IH]; intros table name Hnd.
  - reflexivity.
  - simpl in Hnd. inversion Hnd as [|? ? Hnotin Hnd']; subst.
    cbn [health_table fold_left fst snd dict_get].
    change (fold_left _ rest ?t) with (health_table w rest t).
    rewrite (IH _ _ Hnd'). rewrite dict_get_set.
    destruct (String.eqb_spec name k) as [->|Hne].
    + now rewrite (dict_get_absent _ rest k Hnotin).
    + reflexivity.
Qed.

Lemma dict_get_In (V : Type) (d : list (string * V)) (k : string) (v : V) :
  dict_get String.eqb d k = Some v -> In (k, v) d.
Proof.
  induction d as [|[k0 v0] d IH]; simpl; [discriminate|].
  destruct (String.eqb_spec k k0) as [->|Hne].
  - intros [= ->]. now left.
  - intros H. right. auto.
Qed.

Lemma In_dict_get (V : Type) (d : list (string * V)) (k : string) (v : V) :
  NoDup (dict_keys d) -> In (k, v) d -> dict_get String.eqb d k = Some v.
Proof.
  induction d as [|[k0 v0] d IH]; simpl; [tauto|].
  intros Hnd Hin. inversion Hnd as [|? ? Hnotin Hnd']; subst.
  destruct Hin as [[= -> ->]|Hin].
  - now rewrite String.eqb_refl.
  - destruct (String.eqb_spec k k0) as [->|Hne]; [|auto].
    exfalso. apply Hnotin. unfold dict_keys.
    change k0 with (fst (k0, v)). now apply in_map.
Qed.

(** What the agent's status dictionary says under ['is_loaded'], and
    what the health check reads from it: a missing key counts as
    loaded. *)
Lemma get_is_loaded_false (status : pydict) :
  truthy (get_is_loaded status) = false
  <-> exists v,
        dict_get String.eqb status "is_loaded" = Some v /\ truthy v = false.
Proof.
  unfold get_is_loaded.
  destruct (dict_get String.eqb status "is_loaded") as [v|]; split.
  - intros H. exists v. auto.
  - intros (v' & [= <-] & H). exact H.
  - discriminate.
  - intros (v & H & _). discriminate H.
Qed.

(** An entry is a warning exactly when the agent's status dictionary
    holds a false value under ['is_loaded']. *)
Lemma health_of_warning (a : agent) (w : World) :
  ah_status (health_of a w) = "warning"%string
  <-> exists status v,
        model_status_of a w = Some (Returns status)
        /\ dict_get String.eqb status "is_loaded" = Some v
        /\ truthy v = false.
Proof.
  destruct (check_agent_cases a w)
    as [_ [(st & Hs & Ht & Hh)|[(st & Hs & Ht & Hh)|[(stats & m & Hs & Hst & Hm & Hh)
        |[(Hs & Hst & Hh)|(e & He & Hh)]]]]];
    rewrite Hh; cbn [ah_status]; split;
    try discriminate.
  - intros _. apply get_is_loaded_false in Ht. destruct Ht as (v & Hv & Hf).
    exists st, v. auto.
  - reflexivity.
  - intros (st' & v & Hs' & Hv & Hf).
    assert (Hfalse : truthy (get_is_loaded st') = false).
    { apply get_is_loaded_false. exists v. auto. }
    congruence.
  - intros (st' & v & Hs' & _). congruence.
  - intros (st' & v & Hs' & _). congruence.
  - intros (st' & v & Hs' & _). destruct He as [He|[He _]]; congruence.
Qed.

(** C8.  [run_health_check] returns (it never raises, and changes
    nothing) a report with one entry per registered agent, such that:
    an agent whose [get_model_status] returns a dictionary with a false
    value under ['is_loaded'] gets the entry [warning] with the single
    issue ['Model not loaded'], and no other agent gets a warning; an
    entry is [error] exactly when probing the agent raised, and its
    issue is then the captured message; and the overall health is
    [unhealthy] exactly when some entry is [error] - otherwise it is
    [healthy], whatever the warnings. *)
Theorem run_health_check_report :
  forall w : World,
    NoDup (dict_keys (agents w)) ->
    exists report,
      run_health_check w = (Returns report, w)
      /\ (forall name a,
             dict_get String.eqb (agents w) name = Some a ->
             exists h,
               dict_get String.eqb (agent_health report) name = Some h
               /\ (forall status v,
                      model_status_of a w = Some (Returns status) ->
                      dict_get String.eqb status "is_loaded" = Some v ->
                      truthy v = false ->
                      h = mkHealth "warning" [PyStr "Model not loaded"])
               /\ (ah_status h = "warning"%string
                   <-> exists status v,
                         model_status_of a w = Some (Returns status)
                         /\ dict_get String.eqb status "is_loaded" = Some v
                         /\ truthy v = false)
               /\ (ah_status h = "error"%string
                   <-> exists e, probe_raises a w e)
               /\ (forall e, probe_raises a w e ->
                             ah_issues h = [PyStr ("Exception: " ++ e)]))
      /\ (forall name,
             dict_get String.eqb (agent_health report) name <> None
             <-> dict_get String.eqb (agents w) name <> None)
      /\ (overall_health report = "unhealthy"%string
          <-> exists name h,
                dict_get String.eqb (agent_health report) name = Some h
                /\ ah_status h = "error"%string)
      /\ (overall_health report = "unhealthy"%string
          \/ overall_health report = "healthy"%string).
Proof.
  intros w Hnd.
  destruct (check_all_effect w (agents w) (mkReport "healthy" [] [] []))
    as (report & Hrun & Htable & Hiff & Hmono).
  simpl in Htable, Hiff, Hmono.
  assert (Hget : forall name,
             dict_get String.eqb (agent_health report) name
             = match dict_get String.eqb (agents w) name with
               | Some a => Some (health_of a w)
               | None => None
               end).
  { intros name. rewrite Htable. now rewrite health_table_get. }
  exists report. split; [exact Hrun|]. split; [|split; [|split]].
  - intros name a Ha. exists (health_of a w). split.
    + now rewrite Hget, Ha.
    + destruct (health_of_meaning a w) as (Hwarn & Herr & Hmsg).
      split; [|split; [apply health_of_warning|split; assumption]].
      intros status v Hs Hv Hf. apply (Hwarn status Hs).
      apply get_is_loaded_false. exists v. auto.
  - intros name. rewrite Hget.
    destruct (dict_get String.eqb (agents w) name); split; congruence.
  - rewrite Hiff. split.
    + intros [H|(name & a & Hin & Hs)]; [discriminate|].
      exists name, (health_of a w). split; [|exact Hs].
      rewrite Hget. now rewrite (In_dict_get _ _ _ _ Hnd Hin).
    + intros (name & h & Hh & Hs). right.
      rewrite Hget in Hh.
      destruct (dict_get String.eqb (agents w) name) as [a|] eqn:Ha;
        [|discriminate].
      injection Hh as <-. exists name, a. split; [|exact Hs].
      now apply dict_get_In.
  - destruct Hmono as [H|H]; auto.
Qed.

(** The theorem at work: the only registered component answers
    [{'is_loaded': False}].  Its entry is the warning, no entry is an
    error, and the overall health is [healthy]. *)
Lemma run_health_check_warns_about_unloaded_mock :
  exists report,
    run_health_check world_with_mock = (Returns report, world_with_mock)
    /\ dict_get String.eqb (agent_health report) "mock"
       = Some (mkHealth "warning" [PyStr "Model not loaded"])
    /\ (forall name h,
           dict_get String.eqb (agent_health report) name = Some h ->
           name = "mock"%string)
    /\ overall_health report = "healthy"%string.
Proof.
  assert (Hnd : NoDup (dict_keys (agents world_with_mock))).
  { repeat constructor. simpl. tauto. }
  destruct (run_health_check_report world_with_mock Hnd)
    as (report & Hrun & Hentries & Hkeys & Hiff & Hcases).
  exists report. split; [exact Hrun|].
  destruct (Hentries "mock"%string mock_model_agent eq_refl)
    as (h & Hh & Hwarn & _).
  rewrite (Hwarn [("is_loaded"%string, PyBool false)] (PyBool false)
             eq_refl eq_refl eq_refl) in Hh.
  assert (Honly : forall name h',
             dict_get String.eqb (agent_health report) name = Some h' ->
             name = "mock"%string).
  { intros name h' Hn.
    assert (Hreg : dict_get String.eqb (agents world_with_mock) name <> None).
    { apply Hkeys. congruence. }
    change (agents world_with_mock) with [("mock"%string, mock_model_agent)]
      in Hreg.
    cbn [dict_get] in Hreg.
    destruct (String.eqb_spec name "mock") as [E|E]; [exact E|].
    now contradiction Hreg. }
  split; [exact Hh|]. split; [exact Honly|].
  destruct Hcases as [Hbad|Hgood]; [|exact Hgood].
  exfalso. apply Hiff in Hbad. destruct Hbad as (name & h' & Hn & Hs).
  rewrite (Honly name h' Hn) in Hn. rewrite Hh in Hn.
  injection Hn as <-. discriminate Hs.
Defined.

(** The scenario of the specification, computed: one component that is
    not loaded gives one warning and a healthy system; a component whose
    probe raises makes it unhealthy. *)
Lemma health_check_of_unloaded_mock :
  fst (run_health_check world_with_mock)
  = Returns (mkReport "healthy" [] ["mock: Model not loaded"%string]
               [("mock"%string,
                 mkHealth "warning" [PyStr "Model not loaded"])]).
Proof. reflexivity. Qed.

Lemma health_check_of_broken_agent :
  fst (run_health_check
         (snd (register_agent "broken" broken_agent world_with_mock)))
  = Returns (mkReport "unhealthy" ["broken: Exception: boom"%string]
               ["mock: Model not loaded"%string]
               [("mock"%string,
                 mkHealth "warning" [PyStr "Model not loaded"]);
                ("broken"%string,
                 mkHealth "error" [PyStr "Exception: boom"])]).
Proof. reflexivity. Qed.
End Health.


(** ** coordinator_agent.py: cleanup *)

Section Cleanup.
Import CoordinatorAgent.

Ltac run_cleanup :=
  unfold cleanup_system, try_except, bind, st, modify, gets, ret,
    agents_item, get_agent, dict_mem, update_status,
    call_cleanup_resources, call_clear_history, attribute_error, raise,
    ModelManagementAgent.cleanup_resources, ModelManagementAgent.update,
    AnalysisAgent.clear_history, try_except, bind, st, modify, gets, ret.

Lemma cleanup_system_effect (w : World) :
  exists w',
    cleanup_system w = (Returns tt, w')
    /\ observable w'
       = observable
           (cleanup_state_with
              (dict_get String.eqb (agents w) "model_management")
              (dict_get String.eqb (agents w) "analysis") w).
Proof.
  run_cleanup.
  destruct (dict_get String.eqb (agents w) "model_management")
    as [[| | | |o]|] eqn:Hm;
  destruct (dict_get String.eqb (agents w) "analysis")
    as [[| | | |o']|] eqn:Ha;
  repeat (progress (cbn -[String.append app dict_get]; rewrite ?Hm, ?Ha));
  (eexists; split; reflexivity).
Qed.

Lemma cleanup_state_observable (m a : option agent) (w : World) :
  observable (cleanup_state_with m a w)
  = cleanup_state_with m a (observable w).
Proof. destruct m as [[]|], a as [[]|]; reflexivity. Qed.

Lemma cleanup_state_twice (m a : option agent) (w : World) :
  cleanup_state_with m a (cleanup_state_with m a w)
  = cleanup_state_with m a w.
Proof. destruct m as [[]|], a as [[]|]; reflexivity. Qed.

Lemma cleanup_state_agents (m a : option agent) (w : World) :
  agents (cleanup_state_with m a w) = agents w.
Proof. destruct m as [[]|], a as [[]|]; reflexivity. Qed.

Lemma cleanup_state_last_activity (m a : option agent) (w : World) :
  last_activity (system_status (cleanup_state_with m a w))
  = last_activity (system_status w).
Proof. destruct m as [[]|], a as [[]|]; reflexivity. Qed.

Lemma observable_agents (w w' : World) :
  observable w = observable w' -> agents w = agents w'.
Proof. intros H. exact (f_equal agents H). Qed.

Lemma observable_status (w w' : World) :
  observable w = observable w' -> system_status w = system_status w'.
Proof. intros H. exact (f_equal system_status H). Qed.

(** [cleanup_system] never raises, leaves [last_activity] alone, and
    running it a second time changes nothing but the display, whatever is
    registered. *)
Lemma cleanup_system_idempotent (w : World) :
  fst (cleanup_system w) = Returns tt
  /\ last_activity (system_status (snd (cleanup_system w)))
     = last_activity (system_status w)
  /\ observable (snd (cleanup_system (snd (cleanup_system w))))
     = observable (snd (cleanup_system w)).
Proof.
  destruct (cleanup_system_effect w) as (w1 & Hrun & Hobs).
  destruct (cleanup_system_effect w1) as (w2 & Hrun1 & Hobs1).
  rewrite Hrun. cbn [fst snd]. rewrite Hrun1. cbn [snd].
  set (m := dict_get String.eqb (agents w) "model_management") in *.
  set (a := dict_get String.eqb (agents w) "analysis") in *.
  assert (Hagents : agents w1 = agents w).
  { rewrite (observable_agents _ _ Hobs). apply cleanup_state_agents. }
  repeat split.
  - rewrite (observable_status _ _ Hobs). apply cleanup_state_last_activity.
  - rewrite Hobs1, Hagents. fold m a.
    rewrite cleanup_state_observable, Hobs, cleanup_state_observable.
    rewrite cleanup_state_twice.
    now rewrite <- cleanup_state_observable.
Qed.

(** C9 (as the code has it).  Provided that the keys
    ['model_management'] and ['analysis'] are bound, if at all, to the
    model manager and to the analysis agent, [cleanup_system] sets
    [initialized] to false and [total_operations] to 0 and leaves
    [last_activity] as it was.  It never raises, a second call in a row
    does not raise either, and after the second call the state of the
    program (what has been displayed apart) is the one left by the
    first. *)
Theorem cleanup_system_resets_and_is_idempotent :
  forall w : World,
    cleanup_targets_ok w ->
    let w1 := snd (cleanup_system w) in
    let w2 := snd (cleanup_system w1) in
    initialized (system_status w1) = false
    /\ total_operations (system_status w1) = 0
    /\ last_activity (system_status w1) = last_activity (system_status w)
    /\ fst (cleanup_system w) = Returns tt
    /\ fst (cleanup_system w1) = Returns tt
    /\ observable w2 = observable w1.
Proof.
  intros w [Hmodel Hanalysis] w1 w2.
  destruct (cleanup_system_idempotent w) as (Hret & Hlast & Hidem).
  destruct (cleanup_system_idempotent w1) as (Hret1 & _ & _).
  assert (Hreset : initialized (system_status w1) = false
                   /\ total_operations (system_status w1) = 0).
  { destruct (cleanup_system_effect w) as (w' & Hrun & Hobs).
    unfold w1. rewrite Hrun. cbn [snd].
    rewrite (observable_status _ _ Hobs).
    destruct (dict_get String.eqb (agents w) "model_management") as [m|];
      [rewrite (Hmodel m eq_refl)|];
      (destruct (dict_get String.eqb (agents w) "analysis") as [a|];
       [rewrite (Hanalysis a eq_refl)|]);
      split; reflexivity. }
  destruct Hreset as [Hinit Htotal].
  repeat split; assumption.
Qed.

(** The theorem at work on the running application. *)
Lemma cleanup_of_running_application :
  let w1 := snd (cleanup_system ready_world) in
  let w2 := snd (cleanup_system w1) in
  initialized (system_status w1) = false
  /\ total_operations (system_status w1) = 0
  /\ last_activity (system_status w1)
     = last_activity (system_status ready_world)
  /\ fst (cleanup_system ready_world) = Returns tt
  /\ fst (cleanup_system w1) = Returns tt
  /\ observable w2 = observable w1.
Proof.
  apply (cleanup_system_resets_and_is_idempotent ready_world).
  split; intros a; vm_compute; intros [= <-]; reflexivity.
Defined.

(** C9 as stated does not hold for every registry: the reset is the
    last step of the [try] block, and an object without
    [clear_history] under the key ['analysis'] makes the block stop
    before it.  The running application stays marked as initialised
    after the cleanup, and the failure is displayed. *)
Lemma cleanup_with_wrong_object_keeps_status :
  let w := snd (register_agent "analysis" ImageProcessingRef ready_world) in
  initialized (system_status (snd (cleanup_system w))) = true
  /\ last (st_log (snd (cleanup_system w))) (StInfo "")
     = StError "❌ Cleanup failed: 'ImageProcessingAgent' object has no attribute 'clear_history'".
Proof. vm_compute. split; reflexivity. Qed.

End Cleanup.

(** ** image_processing_agent.py: scaling in binary64 arithmetic *)

Section Digits.

Lemma digits2_pos_size (p : positive) : digits2_pos p = Pos.size p.
Proof. induction p; simpl; congruence. Qed.

(** A positive number with [d] binary digits lies in [[2^(d-1), 2^d)]. *)
Lemma digits2_bounds (p : positive) :
  2 ^ (Zpos (digits2_pos p) - 1) <= Zpos p < 2 ^ Zpos (digits2_pos p).
Proof.
  rewrite digits2_pos_size. split.
  - pose proof (Pos.size_le p) as H.
    assert (H2 : 2 ^ Zpos (Pos.size p) <= 2 * Zpos p).
    { rewrite <- Pos2Z.inj_pow. change (2 * Zpos p) with (Zpos p~0). exact H. }
    replace (Zpos (Pos.size p)) with (Z.succ (Zpos (Pos.size p) - 1)) in H2 by lia.
    rewrite Z.pow_succ_r in H2 by lia. lia.
  - pose proof (Pos.size_gt p) as H.
    rewrite <- Pos2Z.inj_pow. exact H.
Qed.

(** Conversely the bounds determine the number of digits. *)
Lemma digits2_unique (p : positive) (d : Z) :
  2 ^ (d - 1) <= Zpos p < 2 ^ d -> Zpos (digits2_pos p) = d.
Proof.
  intros [Hlo Hhi]. pose proof (digits2_bounds p) as [Hlo' Hhi'].
  assert (Hd : 0 < d).
  { destruct (Z.ltb_spec 0 d); [assumption|].
    rewrite (Z.pow_neg_r 2 (d - 1)) in Hlo by lia.
    destruct (Z.eq_dec d 0) as [->|]; [simpl in Hhi; lia|].
    rewrite Z.pow_neg_r in Hhi by lia. lia. }
  set (d' := Zpos (digits2_pos p)) in *.
  destruct (Z.lt_trichotomy d' d) as [Hlt|[Heq|Hgt]]; [|assumption|].
  - assert (2 ^ d' <= 2 ^ (d - 1)) by (apply Z.pow_le_mono_r; lia). lia.
  - assert (2 ^ d <= 2 ^ (d' - 1)) by (apply Z.pow_le_mono_r; lia). lia.
Qed.

Lemma iter_pos_shr_1 (p : positive) :
  forall mrs : shr_record,
    0 <= shr_m mrs ->
    shr_m (iter_pos shr_1 p mrs) = shr_m mrs / 2 ^ Zpos p.
Proof.
  assert (Hone : forall mrs, 0 <= shr_m mrs ->
                             shr_m (shr_1 mrs) = shr_m mrs / 2).
  { intros [m r s] Hm. cbn [shr_m] in *.
    destruct m as [|[q|q|]|q]; cbn [shr_1 shr_m]; try lia.
    - reflexivity.
    - rewrite Pos2Z.inj_xI. apply Z.div_unique with 1; lia.
    - rewrite Pos2Z.inj_xO. apply Z.div_unique with 0; lia.
    - reflexivity. }
  assert (Hnn : forall a b, 0 <= a -> 0 < b -> 0 <= a / b)
    by (intros; apply Z.div_pos; lia).
  induction p as [p IH|p IH|]; intros mrs Hm; simpl iter_pos.
  - rewrite IH, IH, Hone; try assumption.
    + rewrite !Z.div_div by lia.
      f_equal. rewrite (Pos2Z.inj_xI p).
      replace (2 * Zpos p + 1) with (Zpos p + Zpos p + 1) by lia.
      rewrite !Z.pow_add_r by lia. ring.
    + rewrite Hone by assumption. apply Hnn; lia.
    + rewrite IH, Hone; try assumption.
      * apply Hnn; [apply Hnn|]; lia.
      * rewrite Hone by assumption. apply Hnn; lia.
  - rewrite IH, IH; try assumption.
    + rewrite Z.div_div by lia. f_equal. rewrite (Pos2Z.inj_xO p).
      replace (2 * Zpos p) with (Zpos p + Zpos p) by lia.
      rewrite Z.pow_add_r by lia. ring.
    + rewrite IH by assumption. apply Hnn; lia.
  - rewrite Hone by assumption. reflexivity.
Qed.

End Digits.

Section Rounding.

Lemma shr_m_of_loc (m : Z) (l : location) : shr_m (shr_record_of_loc m l) = m.
Proof. destruct l as [|[]]; reflexivity. Qed.

(** In the normal range [shr_fexp] drops the digits beyond the 53rd. *)
Lemma shr_fexp_normal (m e : Z) (l : location) :
  0 < m -> 53 <= Zdigits2 m -> -1074 <= e + (Zdigits2 m - 53) ->
  exists mrs,
    shr_fexp prec emax m e l = (mrs, e + (Zdigits2 m - 53))
    /\ shr_m mrs = m / 2 ^ (Zdigits2 m - 53).
Proof.
  intros Hm Hd He. unfold shr_fexp, fexp, emin, prec, emax.
  replace (Z.max (Zdigits2 m + e - 53) (3 - 1024 - 53) - e)
    with (Zdigits2 m - 53) by lia.
  destruct (Zdigits2 m - 53) as [|p|p] eqn:Hn; [| |lia].
  - exists (shr_record_of_loc m l). cbn [shr]. split.
    + f_equal. lia.
    + rewrite shr_m_of_loc. now rewrite Z.div_1_r.
  - exists (iter_pos shr_1 p (shr_record_of_loc m l)). cbn [shr]. split.
    + reflexivity.
    + rewrite iter_pos_shr_1; rewrite shr_m_of_loc; [reflexivity|lia].
Qed.

Lemma round_nearest_even_step (m : Z) (l : location) :
  round_nearest_even m l = m \/ round_nearest_even m l = m + 1.
Proof.
  destruct l as [|[]]; simpl; auto. destruct (Z.even m); auto.
Qed.

Lemma Zdigits2_unique (m d : Z) :
  0 < m -> 2 ^ (d - 1) <= m < 2 ^ d -> Zdigits2 m = d.
Proof.
  intros Hm H. destruct m as [|p|p]; try lia.
  now apply digits2_unique.
Qed.

Lemma Zdigits2_bounds (m : Z) :
  0 < m -> 2 ^ (Zdigits2 m - 1) <= m < 2 ^ Zdigits2 m.
Proof.
  intros Hm. destruct m as [|p|p]; try lia. apply digits2_bounds.
Qed.

(** Dropping all but the 53 leading digits leaves a 53-digit number. *)
Lemma leading_digits (m : Z) :
  0 < m -> 53 <= Zdigits2 m ->
  2 ^ 52 <= m / 2 ^ (Zdigits2 m - 53) < 2 ^ 53.
Proof.
  intros Hm Hd. pose proof (Zdigits2_bounds m Hm) as [Hlo Hhi].
  set (n := Zdigits2 m - 53) in *.
  assert (Hpos : 0 < 2 ^ n) by (apply Z.pow_pos_nonneg; lia).
  replace (Zdigits2 m - 1) with (52 + n) in Hlo by lia.
  replace (Zdigits2 m) with (53 + n) in Hhi by lia.
  rewrite Z.pow_add_r in Hlo, Hhi by lia.
  split.
  - apply Z.div_le_lower_bound; lia.
  - apply Z.div_lt_upper_bound; lia.
Qed.

(** The rounding step of every operation, for a positive result in the
    normal range: the mantissa [mx] is cut to its 53 leading digits and
    then kept or increased by one; if the increase overflows to [2^53]
    the exponent is bumped. *)
Lemma binary_round_aux_normal (mx ex : Z) (lx : location) :
  0 < mx -> 53 <= Zdigits2 mx ->
  -1074 <= ex + (Zdigits2 mx - 53) -> ex + (Zdigits2 mx - 53) < 971 ->
  exists m' e' k,
    binary_round_aux prec emax false mx ex lx = S754_finite false m' e'
    /\ 2 ^ 52 <= Zpos m' < 2 ^ 53
    /\ (k = 0 \/ k = 1)
    /\ ((e' = ex + (Zdigits2 mx - 53)
         /\ Zpos m' = mx / 2 ^ (Zdigits2 mx - 53) + k)
        \/ (e' = ex + (Zdigits2 mx - 53) + 1
            /\ 2 * Zpos m' = mx / 2 ^ (Zdigits2 mx - 53) + k)).
Proof.
  intros Hm Hd Hlo Hhi.
  set (n := Zdigits2 mx - 53) in *.
  pose proof (leading_digits mx Hm Hd) as Hq. fold n in Hq.
  set (q := mx / 2 ^ n) in *.
  unfold binary_round_aux.
  destruct (shr_fexp_normal mx ex lx Hm Hd Hlo) as (mrs & -> & Hmrs).
  cbv beta iota.
  fold n in Hmrs |- *. fold q in Hmrs. rewrite Hmrs.
  set (m2 := round_nearest_even q (loc_of_shr_record mrs)).
  assert (Hm2 : m2 = q \/ m2 = q + 1) by apply round_nearest_even_step.
  destruct (Z.ltb_spec m2 (2 ^ 53)) as [Hsmall|Hbig].
  - (* no carry *)
    assert (Hd2 : Zdigits2 m2 = 53).
    { apply Zdigits2_unique; [lia|]. change (53 - 1) with 52. lia. }
    destruct (shr_fexp_normal m2 (ex + n) loc_Exact) as (mrs2 & -> & Hmrs2);
      try lia.
    cbv beta iota.
    rewrite Hd2 in *. change (53 - 53) with 0 in *.
    rewrite Z.div_1_r in Hmrs2. rewrite Hmrs2.
    destruct m2 as [|p2|p2] eqn:E2; try lia.
    replace (ex + n + 0 <=? emax - prec) with true
      by (symmetry; apply Z.leb_le; unfold emax, prec; lia).
    exists p2, (ex + n + 0), (Zpos p2 - q).
    repeat split; lia.
  - (* the carry reaches 2^53 *)
    assert (Hm2' : m2 = 2 ^ 53) by lia.
    assert (Hd2 : Zdigits2 m2 = 54).
    { rewrite Hm2'. reflexivity. }
    destruct (shr_fexp_normal m2 (ex + n) loc_Exact) as (mrs2 & -> & Hmrs2);
      try lia.
    cbv beta iota.
    rewrite Hd2 in *. change (54 - 53) with 1 in *.
    rewrite Hm2' in Hmrs2. change (2 ^ 53 / 2 ^ 1) with (2 ^ 52) in Hmrs2.
    rewrite Hmrs2. change (2 ^ 52) with (Zpos (Pos.pow 2 52)).
    cbv iota beta.
    replace (ex + n + 1 <=? emax - prec) with true
      by (symmetry; apply Z.leb_le; unfold emax, prec; lia).
    exists (Pos.pow 2 52), (ex + n + 1), 1.
    repeat split; lia.
Qed.

End Rounding.

Section Conversions.

Lemma iter_xO_pow (k p : positive) :
  Zpos (Pos.iter xO p k) = Zpos p * 2 ^ Zpos k.
Proof.
  induction k as [|k IH] using Pos.peano_ind.
  - simpl. lia.
  - rewrite Pos.iter_succ, Pos2Z.inj_xO, IH, Pos2Z.inj_succ.
    rewrite Z.pow_succ_r by lia. ring.
Qed.

Lemma shr_fexp_53 (m e : Z) (l : location) :
  Zdigits2 m = 53 -> -1074 <= e ->
  shr_fexp prec emax m e l = (shr_record_of_loc m l, e).
Proof.
  intros Hd He. unfold shr_fexp, fexp, emin, prec, emax. rewrite Hd.
  replace (Z.max (53 + e - 53) (3 - 1024 - 53) - e) with 0 by lia.
  reflexivity.
Qed.

(** A 53-digit mantissa with an exact location is left as it is. *)
Lemma binary_round_aux_exact (p : positive) (e : Z) :
  Zpos (digits2_pos p) = 53 -> -1074 <= e <= 971 ->
  binary_round_aux prec emax false (Zpos p) e loc_Exact
  = S754_finite false p e.
Proof.
  intros Hd He. unfold binary_round_aux.
  rewrite shr_fexp_53 by (simpl; lia). cbv beta iota.
  cbn [shr_record_of_loc shr_m loc_of_shr_record round_nearest_even].
  rewrite shr_fexp_53 by (simpl; lia). cbv beta iota.
  cbn [shr_record_of_loc shr_m].
  replace (e <=? emax - prec) with true
    by (symmetry; apply Z.leb_le; unfold emax, prec; lia).
  reflexivity.
Qed.

(** Integers below [2^53] convert exactly: the float is the integer,
    written with a 53-digit mantissa. *)
Lemma float_of_int_exact (n : Z) :
  0 < n < 2 ^ 53 ->
  exists m e,
    float_of_int n = S754_finite false m e
    /\ 2 ^ 52 <= Zpos m < 2 ^ 53
    /\ -52 <= e <= 0
    /\ Zpos m = n * 2 ^ (- e).
Proof.
  intros [Hpos Hlt]. destruct n as [|p|p]; try lia.
  pose proof (digits2_bounds p) as [Hlo Hhi].
  set (d := Zpos (digits2_pos p)) in *.
  assert (Hd : 1 <= d <= 53).
  { split; [unfold d; lia|].
    destruct (Z.leb_spec d 53); [assumption|].
    assert (2 ^ 53 <= 2 ^ (d - 1)) by (apply Z.pow_le_mono_r; lia). lia. }
  unfold float_of_int, binary_normalize, binary_round, shl_align.
  unfold fexp, emin, prec, emax. fold d.
  replace (Z.max (d + 0 - 53) (3 - 1024 - 53) - 0) with (d - 53) by lia.
  replace (Z.max (d + 0 - 53) (3 - 1024 - 53)) with (d - 53) by lia.
  destruct (d - 53) as [|k|k] eqn:Hk; try lia.
  - (* already 53 digits *)
    change (binary_round_aux 53 1024) with (binary_round_aux prec emax).
    rewrite binary_round_aux_exact by (fold d; lia).
    replace (d - 1) with 52 in Hlo by lia.
    replace d with 53 in Hhi by lia.
    exists p, 0. repeat split; lia.
  - (* shifted left to 53 digits *)
    assert (Hshift : Zpos (Pos.iter xO p k) = Zpos p * 2 ^ Zpos k)
      by apply iter_xO_pow.
    assert (Hk' : Zpos k = 53 - d) by lia.
    assert (Hpow : 0 < 2 ^ Zpos k) by (apply Z.pow_pos_nonneg; lia).
    assert (Hm : 2 ^ 52 <= Zpos (Pos.iter xO p k) < 2 ^ 53).
    { rewrite Hshift. split.
      - replace 52 with ((d - 1) + Zpos k) by lia.
        rewrite Z.pow_add_r by lia. nia.
      - replace 53 with (d + Zpos k) by lia.
        rewrite Z.pow_add_r by lia. nia. }
    change (binary_round_aux 53 1024) with (binary_round_aux prec emax).
    rewrite binary_round_aux_exact.
    + exists (Pos.iter xO p k), (Zneg k). repeat split; try lia.
      rewrite Hshift. reflexivity.
    + apply digits2_unique. change (53 - 1) with 52. exact Hm.
    + lia.
Qed.

End Conversions.


Section Accuracy.
Local Open Scope Q_scope.

Lemma two_pow_pos (e : Z) : 0 < 2 ^ e.
Proof. apply Qpower_0_lt. reflexivity. Qed.

Lemma two_pow_add (a b : Z) : 2 ^ (a + b) == 2 ^ a * 2 ^ b.
Proof. apply Qpower_plus. discriminate. Qed.

Lemma two_pow_inject (n : Z) : (0 <= n)%Z -> inject_Z (2 ^ n) == 2 ^ n.
Proof. intros Hn. now rewrite Zpower_Qpower. Qed.

(** The rounding step is accurate to one unit in the last place: if the
    exact result [t] lies between [mx * 2^ex] and [(mx+1) * 2^ex], the
    rounded float is within the relative distance [2^-52] of [t]. *)
Lemma round_accurate (mx ex : Z) (lx : location) (t : Q) :
  (0 < mx)%Z -> (53 <= Zdigits2 mx)%Z ->
  (-1074 <= ex + (Zdigits2 mx - 53))%Z -> (ex + (Zdigits2 mx - 53) < 971)%Z ->
  inject_Z mx * 2 ^ ex <= t -> t < inject_Z (mx + 1) * 2 ^ ex ->
  exists m' e',
    binary_round_aux prec emax false mx ex lx = S754_finite false m' e'
    /\ (2 ^ 52 <= Zpos m' < 2 ^ 53)%Z
    /\ (ex + (Zdigits2 mx - 53) <= e' <= ex + (Zdigits2 mx - 53) + 1)%Z
    /\ (1 - unit_roundoff) * t <= fvalue m' e'
    /\ fvalue m' e' <= (1 + unit_roundoff) * t.
Proof.
  intros Hm Hd Hlo Hhi Htlo Hthi.
  destruct (binary_round_aux_normal mx ex lx Hm Hd Hlo Hhi)
    as (m' & e' & k & Hrun & Hcanon & Hk & Hcases).
  pose proof (leading_digits mx Hm Hd) as Hq.
  set (n := (Zdigits2 mx - 53)%Z) in *.
  set (q := (mx / 2 ^ n)%Z) in *.
  assert (Hn : (0 <= n)%Z) by (unfold n; lia).
  assert (Hpn : (0 < 2 ^ n)%Z) by (apply Z.pow_pos_nonneg; lia).
  (* the part cut off *)
  assert (Hdiv : (q * 2 ^ n <= mx /\ mx + 1 <= (q + 1) * 2 ^ n)%Z).
  { pose proof (Z.div_mod mx (2 ^ n) ltac:(lia)) as Hdm.
    pose proof (Z.mod_pos_bound mx (2 ^ n) Hpn) as Hr.
    fold q in Hdm. nia. }
  destruct Hdiv as [Hdiv1 Hdiv2].
  set (U := 2 ^ (ex + n)).
  assert (HU : 0 < U) by apply two_pow_pos.
  assert (HUsplit : U == 2 ^ ex * inject_Z (2 ^ n)).
  { unfold U. rewrite two_pow_add. now rewrite two_pow_inject. }
  assert (Hex : 0 < 2 ^ ex) by apply two_pow_pos.
  set (X := inject_Z q * U).
  assert (HX1 : X <= t).
  { apply Qle_trans with (inject_Z mx * 2 ^ ex); [|exact Htlo].
    unfold X. rewrite HUsplit.
    setoid_replace (inject_Z q * (2 ^ ex * inject_Z (2 ^ n)))
      with (inject_Z (q * 2 ^ n) * 2 ^ ex)
      by (rewrite inject_Z_mult; ring).
    apply Qmult_le_compat_r; [|apply Qlt_le_weak; exact Hex].
    rewrite <- Zle_Qle. exact Hdiv1. }
  assert (HX2 : t < X + U).
  { apply Qlt_le_trans with (inject_Z (mx + 1) * 2 ^ ex); [exact Hthi|].
    unfold X. rewrite HUsplit.
    setoid_replace (inject_Z q * (2 ^ ex * inject_Z (2 ^ n))
                    + 2 ^ ex * inject_Z (2 ^ n))
      with (inject_Z ((q + 1) * 2 ^ n) * 2 ^ ex)
      by (rewrite inject_Z_mult, inject_Z_plus; ring).
    apply Qmult_le_compat_r; [|apply Qlt_le_weak; exact Hex].
    rewrite <- Zle_Qle. exact Hdiv2. }
  assert (HX3 : inject_Z (2 ^ 52) * U <= X).
  { unfold X. apply Qmult_le_compat_r; [|apply Qlt_le_weak; exact HU].
    rewrite <- Zle_Qle. lia. }
  assert (Hval : fvalue m' e' == X + inject_Z k * U).
  { unfold fvalue, X.
    destruct Hcases as [[-> Hm']|[-> Hm']].
    - rewrite Hm', inject_Z_plus. fold U. ring.
    - replace (ex + n + 1)%Z with (1 + (ex + n))%Z by lia.
      rewrite two_pow_add. fold U.
      setoid_replace (inject_Z (Zpos m') * (2 ^ 1 * U))
        with (inject_Z (2 * Zpos m') * U)
        by (rewrite inject_Z_mult; change (2 ^ 1) with 2;
            change (inject_Z 2) with 2; ring).
      rewrite Hm', inject_Z_plus. ring. }
  exists m', e'. split; [exact Hrun|]. split; [exact Hcanon|].
  split; [destruct Hcases as [[-> _]|[-> _]]; lia|].
  rewrite Hval. unfold unit_roundoff.
  change (inject_Z (2 ^ 52)) with (4503599627370496 # 1) in HX3.
  change (2 ^ 52)%positive with 4503599627370496%positive.
  destruct Hk as [-> | ->];
    change (inject_Z 0) with 0; change (inject_Z 1) with 1;
    split; lra.
Qed.

End Accuracy.

Section Operations.
Local Open Scope Q_scope.

Lemma fvalue_pos (m : positive) (e : Z) : 0 < fvalue m e.
Proof.
  unfold fvalue. apply Qmult_lt_0_compat; [reflexivity|apply two_pow_pos].
Qed.

(** The value of a converted integer is the integer. *)
Lemma float_of_int_value (n : Z) :
  (0 < n < 2 ^ 53)%Z ->
  exists m e,
    float_of_int n = S754_finite false m e
    /\ (2 ^ 52 <= Zpos m < 2 ^ 53)%Z
    /\ (-52 <= e <= 0)%Z
    /\ fvalue m e == inject_Z n.
Proof.
  intros Hn. destruct (float_of_int_exact n Hn) as (m & e & Hf & Hc & He & Hm).
  exists m, e. repeat split; try assumption; try lia.
  unfold fvalue. rewrite Hm, inject_Z_mult.
  rewrite two_pow_inject by lia.
  rewrite <- Qmult_assoc, <- two_pow_add.
  replace (- e + e)%Z with 0%Z by lia. change (2 ^ 0) with 1. ring.
Qed.

Lemma Zdigits2_ge (m d : Z) :
  (0 < m)%Z -> (2 ^ (d - 1) <= m)%Z -> (d <= Zdigits2 m)%Z.
Proof.
  intros Hm Hlo. pose proof (Zdigits2_bounds m Hm) as [_ Hhi].
  destruct (Z.leb_spec d (Zdigits2 m)); [assumption|].
  assert (2 ^ Zdigits2 m <= 2 ^ (d - 1))%Z
    by (apply Z.pow_le_mono_r; lia).
  lia.
Qed.

Lemma Zdigits2_le (m d : Z) :
  (0 < m)%Z -> (0 <= d)%Z -> (m < 2 ^ d)%Z -> (Zdigits2 m <= d)%Z.
Proof.
  intros Hm Hd Hhi. pose proof (Zdigits2_bounds m Hm) as [Hlo _].
  destruct (Z.leb_spec (Zdigits2 m) d); [assumption|].
  assert (2 ^ d <= 2 ^ (Zdigits2 m - 1))%Z
    by (apply Z.pow_le_mono_r; lia).
  lia.
Qed.

(** Multiplication of two positive floats, away from overflow and
    underflow: the standard model [fl(x*y) = x*y*(1+delta)] with
    [|delta| <= 2^-52]. *)
Lemma fmul_accurate (mx my : positive) (ex ey : Z) :
  (2 ^ 52 <= Zpos mx < 2 ^ 53)%Z -> (2 ^ 52 <= Zpos my < 2 ^ 53)%Z ->
  (-500 <= ex + ey <= 500)%Z ->
  exists mz ez,
    fmul (S754_finite false mx ex) (S754_finite false my ey)
      = S754_finite false mz ez
    /\ (2 ^ 52 <= Zpos mz < 2 ^ 53)%Z
    /\ (ex + ey + 52 <= ez <= ex + ey + 54)%Z
    /\ (1 - unit_roundoff) * (fvalue mx ex * fvalue my ey) <= fvalue mz ez
    /\ fvalue mz ez <= (1 + unit_roundoff) * (fvalue mx ex * fvalue my ey).
Proof.
  intros Hx Hy He.
  unfold fmul, SFmul. cbn [xorb].
  set (P := Zpos (mx * my)).
  assert (HP : (2 ^ 104 <= P < 2 ^ 106)%Z).
  { unfold P. rewrite Pos2Z.inj_mul.
    change (2 ^ 104)%Z with (2 ^ 52 * 2 ^ 52)%Z.
    change (2 ^ 106)%Z with (2 ^ 53 * 2 ^ 53)%Z. nia. }
  assert (Hd1 : (105 <= Zdigits2 P)%Z)
    by (apply Zdigits2_ge; [lia|change (105 - 1)%Z with 104%Z; lia]).
  assert (Hd2 : (Zdigits2 P <= 106)%Z) by (apply Zdigits2_le; lia).
  destruct (round_accurate P (ex + ey) loc_Exact (fvalue mx ex * fvalue my ey))
    as (mz & ez & Hrun & Hc & Hez & Hlo & Hhi); try lia.
  - unfold fvalue, P. rewrite Pos2Z.inj_mul, inject_Z_mult, two_pow_add.
    apply Qle_lteq. right. ring.
  - unfold fvalue, P.
    rewrite Pos2Z.inj_mul, inject_Z_plus, inject_Z_mult, two_pow_add.
    pose proof (two_pow_pos ex). pose proof (two_pow_pos ey).
    assert (0 < 2 ^ ex * 2 ^ ey) by (apply Qmult_lt_0_compat; assumption).
    change (inject_Z 1) with 1.
    set (a := inject_Z (Zpos mx)). set (b := inject_Z (Zpos my)).
    setoid_replace (a * 2 ^ ex * (b * 2 ^ ey)) with (a * b * (2 ^ ex * 2 ^ ey))
      by ring.
    setoid_replace ((a * b + 1) * (2 ^ ex * 2 ^ ey))
      with (a * b * (2 ^ ex * 2 ^ ey) + 2 ^ ex * 2 ^ ey) by ring.
    lra.
  - exists mz, ez. repeat split; try assumption; lia.
Qed.

(** Division of two positive floats, in the same way. *)
Lemma fdiv_accurate (mx my : positive) (ex ey : Z) :
  (2 ^ 52 <= Zpos mx < 2 ^ 53)%Z -> (2 ^ 52 <= Zpos my < 2 ^ 53)%Z ->
  (-500 <= ex - ey <= 500)%Z ->
  exists mz ez,
    fdiv (S754_finite false mx ex) (S754_finite false my ey)
      = S754_finite false mz ez
    /\ (2 ^ 52 <= Zpos mz < 2 ^ 53)%Z
    /\ (ex - ey - 53 <= ez <= ex - ey - 51)%Z
    /\ (1 - unit_roundoff) * (fvalue mx ex / fvalue my ey) <= fvalue mz ez
    /\ fvalue mz ez <= (1 + unit_roundoff) * (fvalue mx ex / fvalue my ey).
Proof.
  intros Hx Hy He.
  unfold fdiv, SFdiv, SFdiv_core_binary. cbn [xorb].
  rewrite (Zdigits2_unique (Zpos mx) 53) by (change (53 - 1)%Z with 52%Z; lia).
  rewrite (Zdigits2_unique (Zpos my) 53) by (change (53 - 1)%Z with 52%Z; lia).
  unfold fexp, emin, prec, emax.
  replace (Z.min (Z.max (53 + ex - (53 + ey) - 53) (3 - 1024 - 53)) (ex - ey))
    with (ex - ey - 53)%Z by lia.
  replace (ex - ey - (ex - ey - 53))%Z with 53%Z by lia.
  cbv beta iota zeta.
  rewrite Z.shiftl_mul_pow2 by lia.
  pose proof (Z_div_mod (Zpos mx * 2 ^ 53) (Zpos my) ltac:(lia)) as Hdiv.
  destruct (Z.div_eucl (Zpos mx * 2 ^ 53) (Zpos my)) as [q r].
  destruct Hdiv as [Hqr Hr].
  assert (Hq : (2 ^ 52 <= q < 2 ^ 54)%Z).
  { change (2 ^ 54)%Z with (2 * 2 ^ 53)%Z.
    change (2 ^ 53)%Z with (2 * 2 ^ 52)%Z in *.
    set (A := (2 ^ 52)%Z) in *. assert (0 < A)%Z by (unfold A; lia). nia. }
  assert (Hd1 : (53 <= Zdigits2 q)%Z)
    by (apply Zdigits2_ge; [lia|change (53 - 1)%Z with 52%Z; lia]).
  assert (Hd2 : (Zdigits2 q <= 54)%Z) by (apply Zdigits2_le; lia).
  set (e' := (ex - ey - 53)%Z).
  assert (Hvy : 0 < fvalue my ey) by apply fvalue_pos.
  (* q * 2^e' * y <= x < (q+1) * 2^e' * y *)
  assert (Hscale : 2 ^ ex == inject_Z (2 ^ 53) * 2 ^ e' * 2 ^ ey).
  { rewrite two_pow_inject by lia. rewrite <- !two_pow_add.
    unfold e'. replace (53 + (ex - ey - 53) + ey)%Z with ex by lia.
    reflexivity. }
  pose proof (two_pow_pos e') as Hpe. pose proof (two_pow_pos ey) as Hpy.
  assert (Hpp : 0 < 2 ^ e' * 2 ^ ey) by (apply Qmult_lt_0_compat; assumption).
  destruct (round_accurate q e' (new_location (Zpos my) r)
              (fvalue mx ex / fvalue my ey))
    as (mz & ez & Hrun & Hc & Hez & Hlo & Hhi); try (unfold e'; lia).
  - apply Qle_shift_div_l; [exact Hvy|].
    unfold fvalue. rewrite Hscale.
    setoid_replace (inject_Z q * 2 ^ e' * (inject_Z (Zpos my) * 2 ^ ey))
      with (inject_Z (Zpos my * q) * (2 ^ e' * 2 ^ ey))
      by (rewrite inject_Z_mult; ring).
    setoid_replace (inject_Z (Zpos mx) * (inject_Z (2 ^ 53) * 2 ^ e' * 2 ^ ey))
      with (inject_Z (Zpos mx * 2 ^ 53) * (2 ^ e' * 2 ^ ey))
      by (rewrite inject_Z_mult; ring).
    apply Qmult_le_compat_r; [|apply Qlt_le_weak; exact Hpp].
    rewrite <- Zle_Qle. lia.
  - apply Qlt_shift_div_r; [exact Hvy|].
    unfold fvalue. rewrite Hscale.
    setoid_replace (inject_Z (q + 1) * 2 ^ e' * (inject_Z (Zpos my) * 2 ^ ey))
      with (inject_Z (Zpos my * (q + 1)) * (2 ^ e' * 2 ^ ey))
      by (rewrite inject_Z_mult; ring).
    setoid_replace (inject_Z (Zpos mx) * (inject_Z (2 ^ 53) * 2 ^ e' * 2 ^ ey))
      with (inject_Z (Zpos mx * 2 ^ 53) * (2 ^ e' * 2 ^ ey))
      by (rewrite inject_Z_mult; ring).
    apply Qmult_lt_compat_r; [exact Hpp|].
    rewrite <- Zlt_Qlt. lia.
  - exists mz, ez. repeat split; try assumption; unfold e' in *; lia.
Qed.

(** [int(x)] of a positive float is the integer part of its value. *)
Lemma int_of_float_floor (m : positive) (e : Z) :
  exists z,
    int_of_float (S754_finite false m e) = Returns z
    /\ inject_Z z <= fvalue m e /\ fvalue m e < inject_Z z + 1.
Proof.
  unfold int_of_float, fvalue.
  destruct e as [|p|p].
  - exists (Zpos m). split; [reflexivity|].
    change (2 ^ 0) with 1. split; lra.
  - exists (Zpos m * 2 ^ Zpos p)%Z. split.
    + now rewrite Z.shiftl_mul_pow2 by lia.
    + rewrite inject_Z_mult, two_pow_inject by lia. split; lra.
  - exists (Zpos m / 2 ^ Zpos p)%Z. split.
    + now rewrite Z.shiftr_div_pow2 by lia.
    + set (z := (Zpos m / 2 ^ Zpos p)%Z).
      assert (Hpn : (0 < 2 ^ Zpos p)%Z) by (apply Z.pow_pos_nonneg; lia).
      pose proof (Z.div_mod (Zpos m) (2 ^ Zpos p) ltac:(lia)) as Hdm.
      pose proof (Z.mod_pos_bound (Zpos m) (2 ^ Zpos p) Hpn) as Hr.
      fold z in Hdm.
      assert (H1 : (z * 2 ^ Zpos p <= Zpos m)%Z) by nia.
      assert (H2 : (Zpos m < (z + 1) * 2 ^ Zpos p)%Z) by nia.
      rewrite Zle_Qle, inject_Z_mult, two_pow_inject in H1 by lia.
      rewrite Zlt_Qlt, inject_Z_mult, inject_Z_plus, two_pow_inject in H2 by lia.
      change (inject_Z 1) with 1 in H2.
      pose proof (two_pow_pos (Zpos p)) as Hpp.
      assert (Hinv : 2 ^ Zneg p * 2 ^ Zpos p == 1).
      { rewrite <- two_pow_add.
        replace (Zneg p + Zpos p)%Z with 0%Z by lia. reflexivity. }
      pose proof (two_pow_pos (Zneg p)) as Hpm.
      split.
      * apply (Qmult_le_r _ _ (2 ^ Zpos p) Hpp).
        setoid_replace (inject_Z (Zpos m) * 2 ^ Zneg p * 2 ^ Zpos p)
          with (inject_Z (Zpos m) * (2 ^ Zneg p * 2 ^ Zpos p)) by ring.
        rewrite Hinv. lra.
      * apply (Qmult_lt_r _ _ (2 ^ Zpos p) Hpp).
        setoid_replace (inject_Z (Zpos m) * 2 ^ Zneg p * 2 ^ Zpos p)
          with (inject_Z (Zpos m) * (2 ^ Zneg p * 2 ^ Zpos p)) by ring.
        rewrite Hinv. lra.
Qed.

End Operations.

Section Scaling.
Local Open Scope Q_scope.

(** The scaled dimension [int(d * (1024 / m))], for an image whose
    larger side [m] exceeds 1024: it is [1024 * d / m] rounded down, or
    one less when the floating-point product falls just short of a whole
    number. *)
Lemma scaled_dimension (m d : Z) :
  (1024 < m < 2 ^ 31)%Z -> (0 < d <= m)%Z ->
  exists d',
    int_of_float
      (fmul (float_of_int d) (fdiv (float_of_int 1024) (float_of_int m)))
      = Returns d'
    /\ (1024 * d - m <= d' * m <= 1024 * d)%Z.
Proof.
  intros Hm Hd.
  destruct (float_of_int_value 1024) as (m1 & e1 & -> & Hc1 & He1 & Hv1);
    [lia|].
  destruct (float_of_int_value m) as (m2 & e2 & -> & Hc2 & He2 & Hv2);
    [lia|].
  destruct (float_of_int_value d) as (md & ed & -> & Hcd & Hed & Hvd);
    [lia|].
  destruct (fdiv_accurate m1 m2 e1 e2 Hc1 Hc2 ltac:(lia))
    as (mr & er & -> & Hcr & Her & Hrlo & Hrhi).
  destruct (fmul_accurate md mr ed er Hcd Hcr ltac:(lia))
    as (mz & ez & -> & Hcz & Hez & Hzlo & Hzhi).
  destruct (int_of_float_floor mz ez) as (d' & -> & Hflo & Hfhi).
  exists d'. split; [reflexivity|].
  rewrite Hv1, Hv2 in Hrlo, Hrhi. rewrite Hvd in Hzlo, Hzhi.
  set (R := fvalue mr er) in *. set (V := fvalue mz ez) in *.
  set (D := inject_Z d) in *. set (Mq := inject_Z m) in *.
  assert (HD : 0 < D) by (unfold D; rewrite <- (Zlt_Qlt 0); lia).
  assert (HM : 0 < Mq) by (unfold Mq; rewrite <- (Zlt_Qlt 0); lia).
  assert (HDM : D <= Mq) by (unfold D, Mq; rewrite <- Zle_Qle; lia).
  assert (HMhi : Mq < inject_Z (2 ^ 31))
    by (unfold Mq; rewrite <- Zlt_Qlt; lia).
  change (inject_Z (2 ^ 31)) with 2147483648 in HMhi.
  change (inject_Z 1024) with 1024 in *.
  set (T := 1024 / Mq) in *.
  assert (HT : T * Mq == 1024).
  { unfold T. field. intros H0. rewrite H0 in HM. lra. }
  (* everything multiplied by the larger side *)
  set (RM := R * Mq).
  assert (HRM : (1 - unit_roundoff) * 1024 <= RM <= (1 + unit_roundoff) * 1024).
  { unfold RM. rewrite <- HT. split.
    - setoid_replace ((1 - unit_roundoff) * (T * Mq))
        with ((1 - unit_roundoff) * T * Mq) by ring.
      apply Qmult_le_compat_r; [exact Hrlo|lra].
    - setoid_replace ((1 + unit_roundoff) * (T * Mq))
        with ((1 + unit_roundoff) * T * Mq) by ring.
      apply Qmult_le_compat_r; [exact Hrhi|lra]. }
  set (DRM := D * RM).
  assert (HDRM : (1 - unit_roundoff) * 1024 * D <= DRM
                 <= (1 + unit_roundoff) * 1024 * D).
  { unfold DRM. destruct HRM as [H1 H2]. split.
    - setoid_replace ((1 - unit_roundoff) * 1024 * D)
        with (D * ((1 - unit_roundoff) * 1024)) by ring.
      apply Qmult_le_l; assumption.
    - setoid_replace ((1 + unit_roundoff) * 1024 * D)
        with (D * ((1 + unit_roundoff) * 1024)) by ring.
      apply Qmult_le_l; assumption. }
  set (VM := V * Mq).
  assert (HVM : (1 - unit_roundoff) * DRM <= VM <= (1 + unit_roundoff) * DRM).
  { unfold VM, DRM, RM. split.
    - setoid_replace ((1 - unit_roundoff) * (D * (R * Mq)))
        with ((1 - unit_roundoff) * (D * R) * Mq) by ring.
      apply Qmult_le_compat_r; [exact Hzlo|lra].
    - setoid_replace ((1 + unit_roundoff) * (D * (R * Mq)))
        with ((1 + unit_roundoff) * (D * R) * Mq) by ring.
      apply Qmult_le_compat_r; [exact Hzhi|lra]. }
  set (E := inject_Z d' * Mq).
  assert (HE : E <= VM /\ VM < E + Mq).
  { unfold E, VM. split.
    - apply Qmult_le_compat_r; [exact Hflo|lra].
    - setoid_replace (inject_Z d' * Mq + Mq) with ((inject_Z d' + 1) * Mq)
        by ring.
      apply Qmult_lt_compat_r; assumption. }
  assert (HEZ : E == inject_Z (d' * m)).
  { unfold E, Mq. now rewrite inject_Z_mult. }
  unfold unit_roundoff in *.
  change (2 ^ 52)%positive with 4503599627370496%positive in *.
  destruct HRM as [HRM1 HRM2]. destruct HDRM as [HDRM1 HDRM2].
  destruct HVM as [HVM1 HVM2]. destruct HE as [HE1 HE2].
  split.
  - assert (Hlow : inject_Z (1024 * d - m - 1) < inject_Z (d' * m)).
    { rewrite <- HEZ.
      unfold Z.sub. rewrite !inject_Z_plus, inject_Z_mult, !inject_Z_opp.
      fold D. fold Mq. change (inject_Z 1024) with 1024.
      change (inject_Z 1) with 1. lra. }
    rewrite <- Zlt_Qlt in Hlow. lia.
  - assert (Hup : inject_Z (d' * m) < inject_Z (1024 * d + 1)).
    { rewrite <- HEZ. rewrite inject_Z_plus, inject_Z_mult.
      fold D. change (inject_Z 1024) with 1024.
      change (inject_Z 1) with 1. lra. }
    rewrite <- Zlt_Qlt in Hup. lia.
Qed.

End Scaling.

Section Preprocessing.
Import ImageProcessingAgent.

(** [int(dim * ratio)] for either side of an image whose larger side
    [m] exceeds 1024; a side of length zero scales to zero. *)
Lemma scale_dim_effect (m d : Z) (w : World) :
  1024 < m < 2 ^ 31 -> 0 <= d <= m ->
  exists d',
    scale_dim (fdiv (float_of_int max_dimension) (float_of_int m)) d w
      = (Returns d', w)
    /\ 1024 * d - m <= d' * m <= 1024 * d.
Proof.
  intros Hm Hd. unfold scale_dim, max_dimension.
  destruct (Z.eq_dec d 0) as [->|Hnz].
  - destruct (float_of_int_value 1024) as (m1 & e1 & -> & Hc1 & He1 & _);
      [lia|].
    destruct (float_of_int_value m) as (m2 & e2 & -> & Hc2 & He2 & _);
      [lia|].
    destruct (fdiv_accurate m1 m2 e1 e2 Hc1 Hc2 ltac:(lia))
      as (mr & er & -> & _).
    exists 0. split; [reflexivity|lia].
  - destruct (scaled_dimension m d Hm ltac:(lia)) as (d' & -> & Hb).
    exists d'. split; [reflexivity|exact Hb].
Qed.

(** The conversion, when it returns, gives an image in mode RGB of the
    same size and leaves the world alone. *)
Lemma to_rgb_returns (image converted : Image) (w w1 : World) :
  to_rgb image w = (Returns converted, w1) ->
  w1 = w /\ mode converted = "RGB"%string /\ size converted = size image.
Proof.
  unfold to_rgb, image_convert, convert, ret.
  destruct (String.eqb_spec (mode image) "RGB") as [E|E]; cbn [negb].
  - intros [= <- <-]. auto.
  - destruct (convert_error (env w) image "RGB"); [discriminate|].
    intros [= <- <-]. auto.
Qed.

(** When the statements of the [try] block return, so does
    [preprocess_image], with the same image and world. *)
Lemma preprocess_body_returns (image image' : Image) (w w' : World) :
  preprocess_body image w = (Returns image', w') ->
  preprocess_image image w = (Returns image', w').
Proof.
  unfold preprocess_body, preprocess_image, try_except, bind.
  destruct (to_rgb image w) as [[converted|e] w1]; [|discriminate].
  intros Hbody. now rewrite Hbody.
Qed.

(** C10.  For an image whose sides fit a C [int], when the body of
    [preprocess_image] does not raise, the image returned is in mode
    RGB and its larger side is at most 1024.  An image whose larger side
    is at most 1024 keeps its size.  A larger image, of larger side [m],
    is scaled down with its proportions kept: each new side [d'] is at
    least one pixel and is the old side [d] times [1024 / m] to within
    one pixel, [1024*d - m <= d'*m <= 1024*d]. *)
Theorem preprocess_image_normal_path :
  forall (image image' : Image) (w w' : World),
    0 <= fst (size image) < 2 ^ 31 ->
    0 <= snd (size image) < 2 ^ 31 ->
    preprocess_body image w = (Returns image', w') ->
    let m := Z.max (fst (size image)) (snd (size image)) in
    preprocess_image image w = (Returns image', w')
    /\ mode image' = "RGB"%string
    /\ Z.max (fst (size image')) (snd (size image')) <= 1024
    /\ (m <= 1024 -> size image' = size image)
    /\ (1024 < m ->
        1 <= fst (size image') /\ 1 <= snd (size image')
        /\ 1024 * fst (size image) - m <= fst (size image') * m
           <= 1024 * fst (size image)
        /\ 1024 * snd (size image) - m <= snd (size image') * m
           <= 1024 * snd (size image)).
Proof.
  intros image image' w w' Hw Hh Hbody m.
  split; [exact (preprocess_body_returns _ _ _ _ Hbody)|].
  revert Hbody. unfold preprocess_body. unfold bind at 1.
  destruct (to_rgb image w) as [[converted|e] w1] eqn:Hconv; [|discriminate].
  destruct (to_rgb_returns _ _ _ _ Hconv) as (-> & Hmode & Hsize).
  unfold resize_if_too_large, scale_ratio.
  rewrite Hsize. fold m. unfold max_dimension at 1.
  destruct (Z.gtb_spec m 1024) as [Hbig|Hsmall].
  - (* resized *)
    assert (Hm : 1024 < m < 2 ^ 31) by lia.
    destruct (scale_dim_effect m (fst (size image)) w Hm ltac:(lia))
      as (w1 & Hw1 & Hb1).
    destruct (scale_dim_effect m (snd (size image)) w Hm ltac:(lia))
      as (h1 & Hh1 & Hb2).
    unfold bind at 1. rewrite Hw1.
    unfold bind at 1. rewrite Hh1.
    unfold bind at 1. unfold resize. cbn [fst snd].
    destruct (Z.ltb_spec w1 1) as [Hw0|Hw0];
      [cbn [orb]; unfold raise; discriminate|].
    destruct (Z.ltb_spec h1 1) as [Hh0|Hh0];
      [cbn [orb]; unfold raise; discriminate|].
    cbn [orb]. unfold ret at 1.
    unfold bind, st, modify, ret. intros [= <- <-]. cbn [mode size fst snd].
    split; [exact Hmode|]. split; [nia|]. split; [lia|].
    intros _. repeat split; lia.
  - (* left as it is *)
    unfold ret. intros [= <- <-].
    split; [exact Hmode|]. rewrite Hsize. fold m.
    split; [lia|]. split; [reflexivity|]. lia.
Qed.

(** The theorem at work: a 3000 x 2000 greyscale image becomes a
    1024 x 682 RGB image. *)
Lemma preprocess_image_of_large_photo :
  let image := mkImage "L" (3000, 2000) in
  let image' := mkImage "RGB" (1024, 682) in
  let w := ready_world in
  let w' :=
    set_st_log
      (st_log w ++ [StInfo "Image resized to (1024, 682) for optimal processing"])
      w in
  let m := Z.max (fst (size image)) (snd (size image)) in
  preprocess_image image w = (Returns image', w')
  /\ mode image' = "RGB"%string
  /\ Z.max (fst (size image')) (snd (size image')) <= 1024
  /\ (m <= 1024 -> size image' = size image)
  /\ (1024 < m ->
      1 <= fst (size image') /\ 1 <= snd (size image')
      /\ 1024 * fst (size image) - m <= fst (size image') * m
         <= 1024 * fst (size image)
      /\ 1024 * snd (size image) - m <= snd (size image') * m
         <= 1024 * snd (size image)).
Proof.
  apply (preprocess_image_normal_path (mkImage "L" (3000, 2000))).
  - simpl. lia.
  - simpl. lia.
  - vm_compute. reflexivity.
Defined.

(** Off the normal path: a 5000 x 1 image would be scaled to a height
    of zero, [resize] refuses, and the handler returns the image
    unscaled. *)
Lemma preprocess_image_of_thin_image :
  fst (preprocess_image (mkImage "RGB" (5000, 1)) ready_world)
  = Returns (mkImage "RGB" (5000, 1)).
Proof. vm_compute. reflexivity. Qed.

(** Off the normal path, too: PIL does not convert an image of mode
    [La]; the handler then returns the image as it came, neither
    converted nor resized, and the error is displayed. *)
Lemma preprocess_image_of_unconvertible_image :
  let image := mkImage "La" (2000, 10) in
  preprocess_image image ready_world
  = (Returns image,
     set_st_log
       (st_log ready_world
        ++ [StError "Error preprocessing image: conversion from La to RGB not supported"])
       ready_world).
Proof. reflexivity. Qed.

(** Truncation shows: a side of 1122 pixels is scaled to 1023. *)
Lemma preprocess_image_truncates :
  fst (preprocess_image (mkImage "RGB" (1122, 1122)) ready_world)
  = Returns (mkImage "RGB" (1023, 1023)).
Proof. vm_compute. reflexivity. Qed.
End Preprocessing.

(** * Further properties of the agents *)

(** ** Framing along the structure of a computation *)

Ltac head_of t := lazymatch t with ?f _ => head_of f | _ => t end.

Ltac keeps_step :=
  lazymatch goal with
  | |- keeps _ (ret _) => apply keeps_ret
  | |- keeps _ (raise _) => apply keeps_raise
  | |- keeps _ (gets _) => apply keeps_gets
  | |- keeps _ (CoordinatorAgent.lift_outcome _) => apply keeps_lift
  | |- keeps _ (bind _ _) => apply keeps_bind
  | |- keeps _ (try_except _ _) => apply keeps_try_except
  | |- keeps _ (modify _) => apply keeps_modify
  | |- keeps _ (match ?x with _ => _ end) => destruct x
  | |- keeps _ (fun w => _) =>
      let w := fresh "w" in
      intro w; cbv beta;
      repeat match goal with
             | |- _ _ (snd (match ?x with _ => _ end)) => destruct x
             end
  | |- keeps _ ?m => let h := head_of m in unfold h
  end.

Create HintDb frame.

(** Proves [keeps R m] for a reflexive and transitive [R]: leaves that
    do not touch what [R] speaks of are closed by reflexivity, the
    others by the lemmas of the database [frame]. *)
Ltac frame_with refl trans :=
  repeat first [ exact refl | exact trans | exact (refl _)
               | solve [auto 1 with frame nocore]
               | progress intros
               | keeps_step ].

Lemma preserves_refl (P : World -> Prop) (w : World) : preserves P w w.
Proof. intros H. exact H. Qed.

Lemma preserves_trans (P : World -> Prop) (w1 w2 w3 : World) :
  preserves P w1 w2 -> preserves P w2 w3 -> preserves P w1 w3.
Proof. unfold preserves. auto. Qed.

(** A run written as the pair of its outcome and its final world. *)
Lemma run_pair {A} (m : M A) (w : World) (a : A) :
  fst (m w) = Returns a -> m w = (Returns a, snd (m w)).
Proof. destruct (m w) as [o w']. simpl. now intros ->. Defined.

Lemma run_operations_app (ops ops' : list operation) (w : World) :
  run_operations (ops ++ ops') w = run_operations ops' (run_operations ops w).
Proof. apply fold_left_app. Qed.

(** An invariant of every operation is an invariant of every run. *)
Lemma run_operations_invariant (R : World -> World -> Prop) :
  (forall w, R w w) ->
  (forall w1 w2 w3, R w1 w2 -> R w2 w3 -> R w1 w3) ->
  (forall op w, R w (run_operation op w)) ->
  forall ops w, R w (run_operations ops w).
Proof.
  intros Hrefl Htrans Hop ops.
  induction ops as [|op ops IH]; intros w; simpl; [apply Hrefl|].
  eapply Htrans; [apply Hop|apply IH].
Qed.

(** ** coordinator_agent.py: the registry *)

Section Registry.
Import CoordinatorAgent.

Lemma dict_keys_set (V : Type) (d : list (string * V)) (k : string) (v : V) :
  dict_keys (dict_set String.eqb d k v)
  = if dict_mem String.eqb d k then dict_keys d else dict_keys d ++ [k].
Proof.
  unfold dict_mem, dict_keys.
  induction d as [|[k0 v0] d IH]; simpl; [reflexivity|].
  destruct (String.eqb_spec k k0) as [->|Hne]; simpl; [reflexivity|].
  rewrite IH. now destruct (dict_get String.eqb d k).
Qed.

Lemma dict_mem_In (V : Type) (d : list (string * V)) (k : string) :
  dict_mem String.eqb d k = true <-> In k (dict_keys d).
Proof.
  unfold dict_mem, dict_keys.
  induction d as [|[k0 v0] d IH]; simpl; [split; [discriminate|tauto]|].
  destruct (String.eqb_spec k k0) as [->|Hne]; [tauto|].
  rewrite IH. split; [tauto|]. intros [H|H]; [congruence|exact H].
Qed.

Lemma dict_set_NoDup (V : Type) (d : list (string * V)) (k : string) (v : V) :
  NoDup (dict_keys d) -> NoDup (dict_keys (dict_set String.eqb d k v)).
Proof.
  intros Hnd. rewrite dict_keys_set.
  destruct (dict_mem String.eqb d k) eqn:Hmem; [exact Hnd|].
  apply NoDup_app; [exact Hnd|repeat constructor; simpl; tauto|].
  intros x Hx [<-|[]]. apply dict_mem_In in Hx. congruence.
Qed.

(** X1.  Registration and lookup.  [register_agent] never raises; right
    after it [get_agent] finds the registered object under the name and,
    under any other name, what it found before; a name registered again
    keeps its place among the keys, a new one goes to the end; and
    nothing but the registry and the display changes. *)
Theorem register_agent_then_get_agent
    (name name' : string) (a : agent) (w : World) :
  let w' := snd (register_agent name a w) in
  fst (register_agent name a w) = Returns tt
  /\ get_agent name' w'
     = (Returns (if String.eqb name' name then Some a
                 else dict_get String.eqb (agents w) name'), w')
  /\ dict_keys (agents w')
     = (if dict_mem String.eqb (agents w) name then dict_keys (agents w)
        else dict_keys (agents w) ++ [name])
  /\ set_agents (agents w) (observable w') = observable w.
Proof.
  cbn -[String.append dict_set dict_get dict_mem dict_keys].
  split; [reflexivity|]. split; [|split].
  - unfold get_agent, gets.
    cbn -[String.append dict_set dict_get]. now rewrite dict_get_set.
  - apply dict_keys_set.
  - reflexivity.
Qed.

End Registry.

(** ** Loops of the analysis agent, for any framed relation *)

Section Loops.
Import AnalysisAgent.
Variable R : World -> World -> Prop.
Hypothesis R_refl : forall w, R w w.
Hypothesis R_trans : forall w1 w2 w3, R w1 w2 -> R w2 w3 -> R w1 w3.
Hypothesis R_st : forall e, keeps R (st e).
Hypothesis R_new_dict : forall r, keeps R (new_dict r).
Hypothesis R_analyze_image :
  forall image p mt, keeps R (analyze_image image p mt).

Lemma try_prompts_keeps (image : Image) (mt : Z) :
  forall (ps : list string) (i n : nat) (results : list ref),
    keeps R (try_prompts image ps i n mt results).
Proof.
  induction ps as [|p ps IH]; intros i n results; cbn [try_prompts];
    frame_with R_refl R_trans.
Qed.

Lemma first_successful_keeps (results : list ref) :
  keeps R (first_successful results).
Proof.
  induction results as [|r rs IH]; cbn [first_successful];
    frame_with R_refl R_trans.
Qed.

Lemma analyze_with_multiple_prompts_keeps
    (image : Image) (ps : list string) (mt : Z) :
  keeps R (analyze_with_multiple_prompts image ps mt).
Proof.
  pose proof (try_prompts_keeps image mt).
  pose proof first_successful_keeps.
  unfold analyze_with_multiple_prompts.
  frame_with R_refl R_trans.
Qed.
End Loops.

(** ** The history across any sequence of calls *)

Section Ledger.
Import CoordinatorAgent.

Lemma ledger_step_refl (w : World) : ledger_step w w.
Proof. unfold ledger_step. auto. Qed.

Lemma ledger_step_trans (w1 w2 w3 : World) :
  ledger_step w1 w2 -> ledger_step w2 w3 -> ledger_step w1 w3.
Proof.
  intros (Hlen & Hold & Hnew) (Hlen' & Hold' & Hnew').
  split; [lia|]. split.
  - intros r Hr. rewrite Hold' by lia. now apply Hold.
  - intros r Hr. destruct (Hnew' r Hr) as [Hin|Hfresh]; [|now right].
    destruct (Hnew r Hin) as [Hin1|[Hvalid Hok]]; [now left|].
    right. split; [lia|]. now rewrite Hold'.
Qed.

Lemma ledger_step_ok (w w' : World) :
  ledger_step w w' -> ledger_ok w -> ledger_ok w'.
Proof.
  intros (Hlen & Hold & Hnew) Hok r Hr.
  destruct (Hnew r Hr) as [Hin|Hfresh]; [|exact Hfresh].
  destruct (Hok r Hin) as [Hvalid Hs].
  split; [lia|]. now rewrite Hold.
Qed.

Lemma length_list_update {A} (l : list A) (i : nat) (x : A) :
  List.length (list_update l i x) = List.length l.
Proof.
  revert i. induction l as [|h t IH]; intros [|i]; simpl; auto.
Qed.

Lemma nth_list_update_other {A} (l : list A) (i j : nat) (x d : A) :
  i <> j -> nth j (list_update l i x) d = nth j l d.
Proof.
  revert i j. induction l as [|h t IH]; intros [|i] [|j] Hne; simpl; auto.
  congruence.
Qed.

Lemma new_dict_ledger (r : AnalysisResult) : keeps ledger_step (new_dict r).
Proof.
  intros w. unfold ledger_step, deref. simpl. rewrite length_app.
  split; [lia|]. split; [|auto].
  intros p Hp. now rewrite nth_app_old.
Qed.

Lemma analyze_image_ledger (image : Image) (p : string) (mt : Z) :
  keeps ledger_step (AnalysisAgent.analyze_image image p mt).
Proof.
  intros w.
  destruct (analyze_image_effect image p mt w)
    as (w' & d & Hrun & Hheap & _ & _ & _ & _ & _ & Hhist & _).
  rewrite Hrun. cbn [snd]. unfold ledger_step, deref.
  rewrite Hheap, Hhist, length_app. cbn [List.length].
  split; [lia|]. split.
  - intros r Hr. now rewrite nth_app_old.
  - intros r Hr. apply in_app_or in Hr. destruct Hr as [Hr|Hr]; [now left|].
    destruct (success d) eqn:Hd; [|destruct Hr].
    destruct Hr as [<-|[]]. right. split; [lia|].
    rewrite app_nth2 by lia. now rewrite Nat.sub_diag.
Qed.

Lemma clear_history_ledger : keeps ledger_step AnalysisAgent.clear_history.
Proof.
  intros w. unfold ledger_step. simpl. split; [lia|]. split; [auto|tauto].
Qed.

(** Step 5 of the workflow writes into a dictionary without changing
    its [success]. *)
Lemma attach_metadata_ledger (p : ref) (wm : WorkflowMetadata) :
  keeps ledger_step
    (r <- read_dict p ;;
     write_dict p (set_workflow_metadata r wm) ;;
     ret p).
Proof.
  intros w. unfold ledger_step, deref. simpl.
  rewrite length_list_update. split; [lia|]. split; [|auto].
  intros r Hr. unfold deref. destruct (Nat.eq_dec p r) as [->|Hne].
  - now rewrite nth_list_update_same.
  - now rewrite nth_list_update_other.
Qed.

#[local] Hint Resolve new_dict_ledger analyze_image_ledger
  clear_history_ledger attach_metadata_ledger : frame.

Lemma run_operation_ledger (op : operation) (w : World) :
  ledger_step w (run_operation op w).
Proof.
  revert w.
  destruct op; cbn [run_operation];
    match goal with |- forall w, ledger_step w (snd (?m w)) =>
      change (keeps ledger_step m) end;
    try apply analyze_with_multiple_prompts_keeps;
    frame_with ledger_step_refl ledger_step_trans.
Qed.

Lemma run_operations_ledger (ops : list operation) (w : World) :
  ledger_ok w -> ledger_ok (run_operations ops w).
Proof.
  apply ledger_step_ok.
  apply (run_operations_invariant ledger_step ledger_step_refl
           ledger_step_trans run_operation_ledger).
Qed.
End Ledger.

Section RegistryTheorems.
Import CoordinatorAgent.

Lemma registry_kept_refl (w : World) : registry_kept w w.
Proof. reflexivity. Qed.

Lemma registry_kept_trans (w1 w2 w3 : World) :
  registry_kept w1 w2 -> registry_kept w2 w3 -> registry_kept w1 w3.
Proof. unfold registry_kept. congruence. Qed.

Lemma run_operation_keeps_registry (op : operation) (w : World) :
  is_registration op = false -> registry_kept w (run_operation op w).
Proof.
  intros Hop. revert w.
  destruct op; try discriminate Hop; cbn [run_operation];
    match goal with |- forall w, registry_kept w (snd (?m w)) =>
      change (keeps registry_kept m) end;
    try apply analyze_with_multiple_prompts_keeps;
    frame_with registry_kept_refl registry_kept_trans.
Qed.

(** X3.  Only [register_agent] changes the registry: across any
    sequence of other calls, [cleanup_system] and [cleanup_resources]
    included, the registered agents stay registered under the same
    names and in the same order. *)
Theorem only_registration_changes_registry
    (ops : list operation) (w : World) :
  forallb (fun op => negb (is_registration op)) ops = true ->
  agents (run_operations ops w) = agents w.
Proof.
  revert w. induction ops as [|op ops IH]; intros w Hops; [reflexivity|].
  cbn [forallb] in Hops. apply andb_prop in Hops. destruct Hops as [Hop Hops].
  cbn [run_operations fold_left].
  change (fold_left _ ops ?x) with (run_operations ops x).
  rewrite (IH _ Hops). apply run_operation_keeps_registry.
  now destruct (is_registration op).
Qed.

Lemma registry_after_cleanup_of_running_app :
  agents
    (run_operations
       [ProcessImageAnalysis photo "a photography of" 50; CleanupSystem;
        InitializeSystem; CleanupResources; ClearHistory]
       running_app)
  = agents running_app.
Proof.
  apply (only_registration_changes_registry
           [ProcessImageAnalysis photo "a photography of" 50; CleanupSystem;
            InitializeSystem; CleanupResources; ClearHistory]
           running_app).
  reflexivity.
Defined.

Lemma run_operation_keys (op : operation) (w : World) :
  preserves (fun w => NoDup (dict_keys (agents w))) w (run_operation op w).
Proof.
  destruct (is_registration op) eqn:Hop.
  - destruct op; try discriminate Hop. intros Hnd.
    cbn -[String.append dict_set]. now apply dict_set_NoDup.
  - intros Hnd. now rewrite (run_operation_keeps_registry op w Hop).
Qed.

(** X2.  The names under which agents are registered stay pairwise
    distinct whatever is registered, registered again or run: every
    registry reached from one with distinct names binds each name
    once. *)
Theorem registry_names_stay_distinct (ops : list operation) (w : World) :
  NoDup (dict_keys (agents w)) ->
  NoDup (dict_keys (agents (run_operations ops w))).
Proof.
  apply (run_operations_invariant
           (preserves (fun w => NoDup (dict_keys (agents w))))
           (preserves_refl _) (preserves_trans _) run_operation_keys).
Qed.

Lemma registry_names_after_registering_twice :
  NoDup
    (dict_keys
       (agents
          (run_operations
             [RegisterAgent "analysis" AnalysisRef;
              RegisterAgent "mock" mock_model_agent;
              RegisterAgent "analysis" broken_agent; InitializeSystem]
             (fresh_world good_host)))).
Proof.
  apply (registry_names_stay_distinct
           [RegisterAgent "analysis" AnalysisRef;
            RegisterAgent "mock" mock_model_agent;
            RegisterAgent "analysis" broken_agent; InitializeSystem]
           (fresh_world good_host)).
  constructor.
Defined.
End RegistryTheorems.

(** ** analysis_agent.py: history and statistics *)

Section HistoryAndStatistics.
Import AnalysisAgent.

Lemma filter_split_length {A} (f : A -> bool) (l : list A) :
  (List.length (filter f l)
   + List.length (filter (fun x => negb (f x)) l))%nat = List.length l.
Proof.
  induction l as [|x l IH]; simpl; [reflexivity|].
  destruct (f x); simpl; lia.
Qed.

Lemma slice_from_suffix {A} (start : Z) (l : list A) :
  exists older,
    l = older ++ slice_from start l
    /\ Z.of_nat (List.length (slice_from start l))
       = (if start <? 0
          then Z.min (- start) (Z.of_nat (List.length l))
          else Z.max (Z.of_nat (List.length l) - start) 0)%Z.
Proof.
  unfold slice_from.
  set (n := Z.of_nat (List.length l)).
  set (lo := if start <? 0 then Z.max (start + n) 0 else Z.min start n).
  exists (firstn (Z.to_nat lo) l). split.
  - symmetry. apply firstn_skipn.
  - rewrite length_skipn. subst lo. fold n.
    destruct (Z.ltb_spec start 0); lia.
Qed.

(** X4.  [get_analysis_history(limit)] changes nothing and returns a
    suffix of the history, in insertion order: the [limit] most recent
    records (all of them when there are fewer) for a positive limit;
    for a limit that is zero or negative, the history without its
    [-limit] oldest records. *)
Theorem get_analysis_history_returns_suffix (limit : Z) (w : World) :
  exists older recent,
    get_analysis_history limit w = (Returns recent, w)
    /\ analysis_history w = older ++ recent
    /\ Z.of_nat (List.length recent)
       = (if 0 <? limit
          then Z.min limit (Z.of_nat (List.length (analysis_history w)))
          else Z.max (Z.of_nat (List.length (analysis_history w)) + limit) 0)%Z.
Proof.
  unfold get_analysis_history, bind, gets, ret.
  destruct (analysis_history w) as [|r rest] eqn:E.
  - exists [], []. repeat split. simpl.
    destruct (Z.ltb_spec 0 limit); lia.
  - destruct (slice_from_suffix (- limit) (r :: rest)) as (older & Hsplit & Hlen).
    exists older, (slice_from (- limit) (r :: rest)).
    split; [reflexivity|]. split; [exact Hsplit|].
    rewrite Hlen.
    destruct (Z.ltb_spec (- limit) 0), (Z.ltb_spec 0 limit); lia.
Qed.

(** X5.  [get_statistics] changes nothing; it answers with the
    ['message'] dictionary exactly when the history is empty, and
    otherwise with counts in which every record is either a success or
    a failure: successes and failures add up to the total, which is the
    length of the history. *)
Theorem get_statistics_counts (w : World) :
  let records := map (deref w) (analysis_history w) in
  let ok := List.length (filter success records) in
  let failed := List.length (filter (fun r => negb (success r)) records) in
  exists stats,
    get_statistics w = (Returns stats, w)
    /\ (dict_mem String.eqb stats "message" = true
        <-> analysis_history w = [])
    /\ (ok + failed = List.length (analysis_history w))%nat
    /\ (analysis_history w <> [] ->
        dict_get String.eqb stats "total_analyses"
          = Some (PyInt (Z.of_nat (ok + failed)))
        /\ dict_get String.eqb stats "successful_analyses"
           = Some (PyInt (Z.of_nat ok))
        /\ dict_get String.eqb stats "failed_analyses"
           = Some (PyInt (Z.of_nat failed))).
Proof.
  cbv zeta.
  pose proof (filter_split_length success
                (map (deref w) (analysis_history w))) as Hsum.
  rewrite length_map in Hsum.
  unfold get_statistics, bind, gets, ret.
  destruct (analysis_history w) as [|r rest] eqn:E.
  - eexists. split; [reflexivity|].
    split; [split; reflexivity|]. split; [reflexivity|]. congruence.
  - cbn [map] in *.
    eexists. split; [reflexivity|]. split; [|split; [exact Hsum|]].
    + unfold dict_mem. simpl. split; discriminate.
    + intros _. rewrite Hsum.
      cbn [dict_get String.eqb Ascii.eqb Bool.eqb List.length map].
      repeat split. now rewrite length_map.
Qed.
End HistoryAndStatistics.

(** ** analysis_agent.py: what a record says *)

Section AnalysisRecords.
Import AnalysisAgent.

Lemma analyze_image_without_model (image : Image) (p : string) (mt : Z)
    (w : World) :
  is_loaded (model_agent w) = false ->
  analyze_image image p mt w
  = (Returns (List.length (heap w)),
     set_heap
       (heap w
        ++ [failure "Model not loaded. Please initialize the model first."])
       w).
Proof.
  intros Hl. unfold analyze_image, try_except, analyze_image_body, bind, gets.
  rewrite Hl. reflexivity.
Qed.

(** A dictionary returned by [analyze_image] with [success] true comes
    from a run that went through the whole [try] body. *)
Lemma analyze_image_success
    (image : Image) (p : string) (mt : Z) (w w' : World) (r : ref) :
  analyze_image image p mt w = (Returns r, w') ->
  success (deref w' r) = true ->
  can_infer w = true
  /\ (exists c,
         blip_caption (env w) (List.length (inference_calls w)) image p mt
           = Returns c
         /\ caption (deref w' r) = Some c)
  /\ prompt (deref w' r) = Some p
  /\ max_tokens (deref w' r) = Some mt
  /\ processing_time (deref w' r)
     = Some (fsub (time_time (env w) (S (clock_reads w)))
                  (time_time (env w) (clock_reads w)))
  /\ metadata (deref w' r)
     = Some (mkMetadata (model_id (model_agent w)) (device (model_agent w))
               (size image)
               (time_strftime (env w) (S (S (clock_reads w)))))
  /\ error (deref w' r) = None
  /\ analysis_history w' = analysis_history w ++ [r]
  /\ inference_calls w' = inference_calls w ++ [mkCall image p mt]
  /\ clock_reads w' = S (S (S (clock_reads w))).
Proof.
  unfold can_infer, analyze_image, try_except, analyze_image_body, bind, gets,
    run_blip, time_now, strftime_now, new_dict, append_history, modify, ret,
    deref.
  cbn [negb].
  destruct (is_loaded (model_agent w)); cbn -[String.append nth].
  2:{ intros [= <- <-]. cbn -[String.append nth]. rewrite nth_middle.
      discriminate. }
  destruct (processor (model_agent w)); cbn -[String.append nth].
  2:{ intros [= <- <-]. cbn -[String.append nth]. rewrite nth_middle.
      discriminate. }
  destruct (model (model_agent w)); cbn -[String.append nth].
  2:{ intros [= <- <-]. cbn -[String.append nth]. rewrite nth_middle.
      discriminate. }
  destruct (blip_caption _ _ _ _ _) as [c|e]; cbn -[String.append nth].
  2:{ intros [= <- <-]. cbn -[String.append nth]. rewrite nth_middle.
      discriminate. }
  intros [= <- <-] _. cbn -[String.append nth]. rewrite nth_middle. cbn.
  repeat split. exists c. split; reflexivity.
Qed.

(** X6.  [analyze_image] always returns a dictionary, and its
    [success] is true exactly when the agent could reach the inference
    chain and the chain returned.  Such a dictionary tells the truth
    about the run: the caption is what the chain returned for this very
    image, prompt and token limit on its one invocation, the metadata
    carry the agent's model and device and the size of the image given,
    the clock was read three times (start, end, timestamp), and the
    dictionary is the last record of the history. *)
Theorem successful_analysis_record
    (image : Image) (p : string) (mt : Z) (w : World) :
  exists r w',
    analyze_image image p mt w = (Returns r, w')
    /\ (success (deref w' r) = true
        <-> can_infer w = true
            /\ returned (blip_caption (env w)
                           (List.length (inference_calls w)) image p mt)
               = true)
    /\ (success (deref w' r) = true ->
        (exists c,
            blip_caption (env w) (List.length (inference_calls w)) image p mt
              = Returns c
            /\ caption (deref w' r) = Some c)
        /\ prompt (deref w' r) = Some p
        /\ max_tokens (deref w' r) = Some mt
        /\ processing_time (deref w' r)
           = Some (fsub (time_time (env w) (S (clock_reads w)))
                        (time_time (env w) (clock_reads w)))
        /\ metadata (deref w' r)
           = Some (mkMetadata (model_id (model_agent w))
                     (device (model_agent w)) (size image)
                     (time_strftime (env w) (S (S (clock_reads w)))))
        /\ error (deref w' r) = None
        /\ analysis_history w' = analysis_history w ++ [r]
        /\ inference_calls w' = inference_calls w ++ [mkCall image p mt]
        /\ clock_reads w' = S (S (S (clock_reads w)))).
Proof.
  destruct (analyze_image_effect image p mt w) as (w' & d & Hrun & _).
  exists (List.length (heap w)), w'. split; [exact Hrun|]. split.
  - split.
    + intros Hok.
      destruct (analyze_image_success image p mt w w' _ Hrun Hok)
        as (Hci & (c & Hc & _) & _).
      split; [exact Hci|]. now rewrite Hc.
    + intros [Hci Hret]. revert Hrun. unfold can_infer in Hci.
      unfold analyze_image, try_except, analyze_image_body, bind, gets,
        run_blip, time_now, strftime_now, new_dict, append_history, modify,
        ret, deref.
      destruct (is_loaded (model_agent w)); [|discriminate Hci].
      cbn -[String.append nth].
      destruct (processor (model_agent w)); [|discriminate Hci].
      destruct (model (model_agent w)); [|discriminate Hci].
      cbn -[String.append nth].
      destruct (blip_caption _ _ _ _ _) as [c|e]; [|discriminate Hret].
      cbn -[String.append nth]. intros [= <-].
      cbn -[String.append nth]. now rewrite nth_middle.
  - intros Hok.
    apply (analyze_image_success image p mt w w' _ Hrun Hok).
Qed.
End AnalysisRecords.

Section LedgerTheorems.
Import AnalysisAgent.

(** X7.  Whatever sequence of calls is made (workflows, direct
    analyses with one or several prompts, cleanups, initialisations,
    registrations), the history only ever holds allocated result
    dictionaries whose [success] is true: failures are handed to the
    caller and never recorded.  Along the way no dictionary is ever
    freed and none changes its [success], not even when the
    coordinator later writes the workflow metadata into a recorded
    one. *)
Theorem history_holds_only_successes (ops : list operation) (w : World) :
  ledger_ok w ->
  let w' := run_operations ops w in
  ledger_ok w'
  /\ (List.length (heap w) <= List.length (heap w'))%nat
  /\ forall r, (r < List.length (heap w))%nat ->
               success (deref w' r) = success (deref w r).
Proof.
  intros Hok w'.
  pose proof (run_operations_invariant ledger_step ledger_step_refl
                ledger_step_trans run_operation_ledger ops w) as Hstep.
  fold w' in Hstep.
  split; [exact (ledger_step_ok w w' Hstep Hok)|].
  destruct Hstep as (Hlen & Hold & _). split; [exact Hlen|exact Hold].
Qed.

Lemma history_after_failed_and_repeated_workflow :
  let w' :=
    run_operations
      [ProcessImageAnalysis photo "a photography of" 50;
       ProcessImageAnalysis photo "a photography of" 50;
       AnalyzeImage photo "describe" 50]
      ready_world in
  ledger_ok w'
  /\ (List.length (heap ready_world) <= List.length (heap w'))%nat
  /\ forall r, (r < List.length (heap ready_world))%nat ->
               success (deref w' r) = success (deref ready_world r).
Proof.
  apply (history_holds_only_successes
           [ProcessImageAnalysis photo "a photography of" 50;
            ProcessImageAnalysis photo "a photography of" 50;
            AnalyzeImage photo "describe" 50]
           ready_world).
  intros r Hr. destruct Hr.
Defined.

Lemma filter_none {A} (f : A -> bool) (l : list A) :
  (forall x, In x l -> f x = false) -> filter f l = [].
Proof.
  induction l as [|x l IH]; intros H; simpl; [reflexivity|].
  rewrite (H x) by now left. apply IH. intros y Hy. apply H. now right.
Qed.

Lemma filter_all {A} (f : A -> bool) (l : list A) :
  (forall x, In x l -> f x = true) -> filter f l = l.
Proof.
  induction l as [|x l IH]; intros H; simpl; [reflexivity|].
  rewrite (H x) by now left. f_equal. apply IH. intros y Hy. apply H.
  now right.
Qed.

(** X8.  Consequently the failure count of [get_statistics] is dead:
    after any sequence of calls the statistics either are the
    ['message'] dictionary (empty history) or report zero failed
    analyses and as many successful analyses as there are records. *)
Theorem get_statistics_never_counts_a_failure
    (ops : list operation) (w : World) :
  ledger_ok w ->
  let w' := run_operations ops w in
  exists stats,
    get_statistics w' = (Returns stats, w')
    /\ (analysis_history w' = []
        \/ (dict_get String.eqb stats "failed_analyses" = Some (PyInt 0)
            /\ dict_get String.eqb stats "successful_analyses"
               = Some (PyInt (Z.of_nat (List.length (analysis_history w'))))
            /\ dict_get String.eqb stats "total_analyses"
               = Some (PyInt (Z.of_nat (List.length (analysis_history w')))))).
Proof.
  intros Hok w'.
  pose proof (run_operations_ledger ops w Hok) as Hok'. fold w' in Hok'.
  unfold get_statistics, bind, gets, ret.
  assert (Hall : forall x, In x (map (deref w') (analysis_history w')) ->
                           success x = true).
  { intros x Hx. apply in_map_iff in Hx. destruct Hx as (r & <- & Hr).
    now apply Hok'. }
  assert (Hnone : forall x, In x (map (deref w') (analysis_history w')) ->
                            negb (success x) = false).
  { intros x Hx. now rewrite (Hall x Hx). }
  destruct (analysis_history w') as [|r rest] eqn:E.
  - eexists. split; [reflexivity|]. now left.
  - cbn [map] in *. rewrite (filter_none _ _ Hnone), (filter_all _ _ Hall).
    eexists. split; [reflexivity|]. right.
    cbn [dict_get String.eqb Ascii.eqb Bool.eqb List.length].
    rewrite length_map. repeat split.
Qed.

Lemma statistics_after_failed_and_repeated_workflow :
  let w' :=
    run_operations
      [ProcessImageAnalysis photo "a photography of" 50;
       ProcessImageAnalysis photo "a photography of" 50]
      ready_world in
  exists stats,
    get_statistics w' = (Returns stats, w')
    /\ (analysis_history w' = []
        \/ (dict_get String.eqb stats "failed_analyses" = Some (PyInt 0)
            /\ dict_get String.eqb stats "successful_analyses"
               = Some (PyInt (Z.of_nat (List.length (analysis_history w'))))
            /\ dict_get String.eqb stats "total_analyses"
               = Some (PyInt (Z.of_nat (List.length (analysis_history w')))))).
Proof.
  apply (get_statistics_never_counts_a_failure
           [ProcessImageAnalysis photo "a photography of" 50;
            ProcessImageAnalysis photo "a photography of" 50]
           ready_world).
  intros r Hr. destruct Hr.
Defined.
End LedgerTheorems.


(** ** model_management_agent.py: initialisation *)

Section Initialisation.
Import ModelManagementAgent.

Lemma get_device_info_effect (w : World) :
  exists shown,
    get_device_info w
    = (Returns (device_of (env w)), set_st_log (st_log w ++ [shown]) w).
Proof.
  unfold get_device_info, device_of, bind, gets, st, modify, ret.
  destruct (cuda_is_available (env w)); eexists; reflexivity.
Qed.

(** One call of [load_processor]: the answer of the memo table, one
    loader invocation exactly when the table had no entry, and the
    answer stored. *)
Lemma load_processor_effect (w : World) :
  exists w',
    load_processor w = (Returns (fst (processor_answer w)), w')
    /\ env w' = env w
    /\ model_agent w' = model_agent w
    /\ model_cache w' = model_cache w
    /\ model_loads w' = model_loads w
    /\ dict_get String.eqb (processor_cache w') (model_id (model_agent w))
       = Some (processor_answer w)
    /\ processor_loads w'
       = (processor_loads w
          + if dict_mem String.eqb (processor_cache w)
                 (model_id (model_agent w))
            then 0 else 1)%nat
    /\ observable (set_processor_loads 0 (set_processor_cache [] w'))
       = observable (set_processor_loads 0 (set_processor_cache [] w)).
Proof.
  unfold load_processor, _load_processor_cached, cache_resource,
    load_processor_body, processor_from_pretrained_call, processor_answer,
    dict_mem, try_except, bind, gets, modify, st, ret.
  cbn -[String.append dict_get dict_set].
  destruct (dict_get String.eqb (processor_cache w) (model_id (model_agent w)))
    as [[[p|] e]|] eqn:Hc; cbn -[String.append dict_get dict_set].
  - eexists. split; [reflexivity|].
    cbn -[String.append dict_get dict_set]. rewrite Nat.add_0_r.
    repeat split. exact Hc.
  - eexists. split; [reflexivity|].
    cbn -[String.append dict_get dict_set]. rewrite Nat.add_0_r.
    repeat split. exact Hc.
  - destruct (processor_from_pretrained (env w) (processor_loads w)
                (model_id (model_agent w))) as [p|e];
      cbn -[String.append dict_get dict_set];
      (eexists; split; [reflexivity|]);
      cbn -[String.append dict_get dict_set];
      rewrite (dict_get_set_same String.eqb String.eqb_refl);
      repeat split; lia.
Qed.

Lemma load_model_effect (w : World) :
  exists w',
    load_model (device_of (env w)) w = (Returns (fst (model_answer w)), w')
    /\ env w' = env w
    /\ model_agent w' = model_agent w
    /\ processor_cache w' = processor_cache w
    /\ processor_loads w' = processor_loads w
    /\ dict_get key2_eqb (model_cache w')
         (model_id (model_agent w), device_of (env w))
       = Some (model_answer w)
    /\ model_loads w'
       = (model_loads w
          + if dict_mem key2_eqb (model_cache w)
                 (model_id (model_agent w), device_of (env w))
            then 0 else 1)%nat
    /\ observable (set_model_loads 0 (set_model_cache [] w'))
       = observable (set_model_loads 0 (set_model_cache [] w)).
Proof.
  unfold load_model, _load_model_cached, cache_resource,
    load_model_body, model_from_pretrained_call, model_answer,
    dict_mem, try_except, bind, gets, modify, st, ret.
  cbn -[String.append dict_get dict_set device_of].
  destruct (dict_get key2_eqb (model_cache w)
              (model_id (model_agent w), device_of (env w)))
    as [[[m|] e]|] eqn:Hc; cbn -[String.append dict_get dict_set device_of].
  - eexists. split; [reflexivity|].
    cbn -[String.append dict_get dict_set device_of]. rewrite Nat.add_0_r.
    repeat split. exact Hc.
  - eexists. split; [reflexivity|].
    cbn -[String.append dict_get dict_set device_of]. rewrite Nat.add_0_r.
    repeat split. exact Hc.
  - destruct (model_from_pretrained (env w) (model_loads w)
                (model_id (model_agent w)) (device_of (env w))) as [m|e];
      cbn -[String.append dict_get dict_set device_of];
      (eexists; split; [reflexivity|]);
      cbn -[String.append dict_get dict_set device_of];
      rewrite (dict_get_set_same key2_eqb key2_eqb_refl);
      repeat split; lia.
Qed.
(** [cleanup_resources] as one step. *)
Lemma cleanup_resources_run (w : World) :
  ModelManagementAgent.cleanup_resources w
  = (Returns tt,
     set_st_log (st_log w ++ [StSuccess "✅ Resources cleaned up successfully!"])
       (unloaded w)).
Proof. reflexivity. Qed.
End Initialisation.

Section Initialisation2.
Import ModelManagementAgent.

(** One call of [initialize_model], in terms of what the two memo
    tables answer. *)
Lemma initialize_model_effect (w : World) :
  let mid := model_id (model_agent w) in
  let dev := device_of (env w) in
  let pa := processor_answer w in
  let ma := model_answer w in
  exists w',
    initialize_model w
    = (Returns match fst pa, fst ma with
               | None, _ => (false, Some "Failed to load processor"%string)
               | Some _, None => (false, Some "Failed to load model"%string)
               | Some _, Some _ => (true, None)
               end, w')
    /\ env w' = env w
    /\ model_agent w'
       = mkModelAgent mid
           match fst pa with
           | Some _ => fst ma
           | None => model (model_agent w)
           end
           (fst pa) (Some dev)
           match fst pa, fst ma with
           | Some _, Some _ => true
           | _, _ => is_loaded (model_agent w)
           end
    /\ dict_get String.eqb (processor_cache w') mid = Some pa
    /\ processor_loads w'
       = (processor_loads w
          + if dict_mem String.eqb (processor_cache w) mid then 0 else 1)%nat
    /\ match fst pa with
       | Some _ =>
           dict_get key2_eqb (model_cache w') (mid, dev) = Some ma
           /\ model_loads w'
              = (model_loads w
                 + if dict_mem key2_eqb (model_cache w) (mid, dev)
                   then 0 else 1)%nat
       | None =>
           model_cache w' = model_cache w /\ model_loads w' = model_loads w
       end.
Proof.
  intros mid dev pa ma.
  unfold initialize_model, try_except.
  destruct (get_device_info_effect w) as (shown & Hdev).
  rewrite (bind_returns _ _ _ _ _ Hdev). cbv beta.
  unfold update at 1. unfold bind at 1, modify at 1. cbv beta iota.
  match goal with |- context [bind load_processor _ ?x] => set (w2 := x) end.
  destruct (load_processor_effect w2)
    as (w3 & Hp & Henv3 & Hag3 & Hmc3 & Hml3 & Hpc3 & Hpl3 & _).
  change (processor_answer w2) with pa in Hp, Hpc3.
  change (model_id (model_agent w2)) with mid in Hpc3, Hpl3.
  change (processor_cache w2) with (processor_cache w) in Hpl3.
  change (processor_loads w2) with (processor_loads w) in Hpl3.
  change (env w2) with (env w) in Henv3.
  change (model_cache w2) with (model_cache w) in Hmc3.
  change (model_loads w2) with (model_loads w) in Hml3.
  rewrite (bind_returns _ _ _ _ _ Hp). cbv beta.
  unfold update at 1. unfold bind at 1, modify at 1. cbv beta iota.
  destruct (fst pa) as [p|] eqn:Hpa.
  2:{ eexists. split; [reflexivity|]. cbn. rewrite Hag3. repeat split; auto. }
  match goal with |- context [bind (load_model _) _ ?x] => set (w4 := x) end.
  assert (Hma : model_answer w4 = ma).
  { unfold model_answer, ma, w4. cbn. rewrite Hag3, Henv3, Hmc3, Hml3.
    reflexivity. }
  destruct (load_model_effect w4)
    as (w5 & Hm & Henv5 & Hag5 & Hpc5 & Hpl5 & Hmc5 & Hml5 & _).
  rewrite Hma in Hm, Hmc5.
  assert (Hdev4 : device_of (env w4) = dev).
  { unfold w4, dev. cbn. now rewrite Henv3. }
  assert (Hmid4 : model_id (model_agent w4) = mid).
  { unfold w4. cbn. now rewrite Hag3. }
  rewrite Hdev4 in Hm, Hmc5, Hml5. rewrite Hmid4 in Hmc5, Hml5.
  change (model_cache w4) with (model_cache w3) in Hml5.
  change (model_loads w4) with (model_loads w3) in Hml5.
  change (processor_cache w4) with (processor_cache w3) in Hpc5.
  change (processor_loads w4) with (processor_loads w3) in Hpl5.
  change (env w4) with (env w3) in Henv5.
  rewrite Hmc3, Hml3 in Hml5.
  rewrite (bind_returns _ _ _ _ _ Hm). cbv beta.
  unfold update, bind, modify, ret.
  destruct (fst ma) as [m|] eqn:Hfm;
    (eexists; split; [reflexivity|]); cbn;
    rewrite Hag5; unfold w4; cbn; rewrite Hag3; cbn;
    rewrite Hpc5, Hpl5; repeat split; auto; congruence.
Qed.
End Initialisation2.

Section Initialisation3.
Import ModelManagementAgent.

Lemma resources_only_refl (w : World) : resources_only w w.
Proof. repeat split. Qed.

Lemma resources_only_trans (w1 w2 w3 : World) :
  resources_only w1 w2 -> resources_only w2 w3 -> resources_only w1 w3.
Proof.
  unfold resources_only.
  intros (?&?&?&?&?&?&?) (?&?&?&?&?&?&?). repeat split; congruence.
Qed.

Lemma initialize_model_resources_only : keeps resources_only initialize_model.
Proof. frame_with resources_only_refl resources_only_trans. Qed.

Lemma cleanup_resources_resources_only :
  keeps resources_only cleanup_resources.
Proof. frame_with resources_only_refl resources_only_trans. Qed.

(** X9.  [initialize_model] never raises and is all or nothing: it
    reports success exactly when both memo tables answer with a
    resource, and only then sets [is_loaded] (a failure leaves the flag
    as it was); after a success the agent can run inference.  When the
    processor is missing the model is not asked for at all: the model
    table and the count of model loads are as before.  In every case
    nothing is touched beyond the model agent, the tables, the loader
    counts and the display. *)
Theorem initialize_model_all_or_nothing (w : World) :
  exists ok error w',
    initialize_model w = (Returns (ok, error), w')
    /\ ok = is_some (fst (processor_answer w))
            && is_some (fst (model_answer w))
    /\ is_loaded (model_agent w') = ok || is_loaded (model_agent w)
    /\ (ok = true -> error = None /\ can_infer w' = true)
    /\ (fst (processor_answer w) = None ->
        error = Some "Failed to load processor"%string
        /\ processor (model_agent w') = None
        /\ model (model_agent w') = model (model_agent w)
        /\ model_loads w' = model_loads w
        /\ model_cache w' = model_cache w)
    /\ (ok = false -> fst (processor_answer w) <> None ->
        error = Some "Failed to load model"%string
        /\ model (model_agent w') = None)
    /\ resources_only w w'.
Proof.
  destruct (initialize_model_effect w)
    as (w' & Hrun & Henv & Hag & Hpc & Hpl & Hm).
  pose proof (initialize_model_resources_only w) as Hframe.
  rewrite Hrun in Hframe. cbn [snd] in Hframe.
  destruct (fst (processor_answer w)) as [p|] eqn:Hp;
    [destruct (fst (model_answer w)) as [m|] eqn:Hmo|];
    (eexists; eexists; exists w'; split; [exact Hrun|]);
    unfold can_infer; rewrite Hag; cbn [is_loaded processor model];
    cbn [is_some andb orb]; repeat split;
    try discriminate; try congruence; try tauto;
    try (destruct Hm; congruence);
    destruct Hframe as (?&?&?&?&?&?&?); assumption.
Qed.

(** X10.  After a successful [initialize_model], another call succeeds
    again without invoking either loader: both resources come from the
    memo tables, and the model agent is left exactly as it was. *)
Theorem initialize_model_again_loads_nothing
    (w w1 : World) (error : option string) :
  initialize_model w = (Returns (true, error), w1) ->
  exists w2,
    initialize_model w1 = (Returns (true, None), w2)
    /\ processor_loads w2 = processor_loads w1
    /\ model_loads w2 = model_loads w1
    /\ model_agent w2 = model_agent w1.
Proof.
  intros Hfirst.
  destruct (initialize_model_effect w)
    as (w1' & Hrun & Henv & Hag & Hpc & Hpl & Hm).
  rewrite Hrun in Hfirst.
  destruct (fst (processor_answer w)) as [p|] eqn:Hp; [|discriminate].
  destruct (fst (model_answer w)) as [m|] eqn:Hmo; [|discriminate].
  injection Hfirst as _ <-. destruct Hm as [Hmc Hml].
  assert (Hpa : processor_answer w1' = processor_answer w).
  { unfold processor_answer at 1. rewrite Hag. cbn [model_id].
    now rewrite Hpc. }
  assert (Hma : model_answer w1' = model_answer w).
  { unfold model_answer at 1. rewrite Hag, Henv. cbn [model_id].
    now rewrite Hmc. }
  destruct (initialize_model_effect w1')
    as (w2 & Hrun2 & Henv2 & Hag2 & Hpc2 & Hpl2 & Hm2).
  rewrite Hpa, Hma, Hp, Hmo in *.
  exists w2. split; [exact Hrun2|].
  destruct Hm2 as [_ Hml2].
  rewrite Hag in Hpl2, Hml2. cbn [model_id] in Hpl2, Hml2.
  rewrite Henv in Hml2.
  unfold dict_mem in Hpl2, Hml2. rewrite Hpc in Hpl2. rewrite Hmc in Hml2.
  repeat split; try lia.
  rewrite Hag2, Hag, Henv. reflexivity.
Qed.

(** On a host whose loaders work. *)
Lemma initialize_model_twice_on_good_host :
  exists w2,
    initialize_model (snd (initialize_model (fresh_world good_host)))
    = (Returns (true, None), w2)
    /\ processor_loads w2
       = processor_loads (snd (initialize_model (fresh_world good_host)))
    /\ model_loads w2
       = model_loads (snd (initialize_model (fresh_world good_host)))
    /\ model_agent w2
       = model_agent (snd (initialize_model (fresh_world good_host))).
Proof.
  apply (initialize_model_again_loads_nothing (fresh_world good_host) _ None).
  apply run_pair. vm_compute. reflexivity.
Defined.
End Initialisation3.

Section Reloading.
Import ModelManagementAgent.

(** X11.  [cleanup_resources] forgets what the memo tables held,
    failures included: the next [initialize_model] invokes the
    processor loader once more, and it succeeds exactly when the two
    loaders succeed on these new invocations; it then holds what they
    returned. *)
Theorem initialize_after_cleanup_reloads (w : World) :
  let mid := model_id (model_agent w) in
  let dev := device_of (env w) in
  let w1 := snd (cleanup_resources w) in
  exists ok error w2,
    initialize_model w1 = (Returns (ok, error), w2)
    /\ processor_loads w2 = S (processor_loads w)
    /\ (ok = true
        <-> exists p m,
              processor_from_pretrained (env w) (processor_loads w) mid
                = Returns p
              /\ model_from_pretrained (env w) (model_loads w) mid dev
                 = Returns m
              /\ processor (model_agent w2) = Some p
              /\ model (model_agent w2) = Some m
              /\ model_loads w2 = S (model_loads w))
    /\ is_loaded (model_agent w2) = ok.
Proof.
  cbv zeta. rewrite cleanup_resources_run. cbn [snd].
  set (w1 := set_st_log _ (unloaded w)).
  destruct (initialize_model_effect w1)
    as (w2 & Hrun & Henv & Hag & Hpc & Hpl & Hm).
  assert (Hpa : processor_answer w1
                = match processor_from_pretrained (env w) (processor_loads w)
                          (model_id (model_agent w)) with
                  | Returns p => (Some p, None)
                  | Raises e => (None, Some e)
                  end) by reflexivity.
  assert (Hma : model_answer w1
                = match model_from_pretrained (env w) (model_loads w)
                          (model_id (model_agent w)) (device_of (env w)) with
                  | Returns m => (Some m, None)
                  | Raises e => (None, Some e)
                  end) by reflexivity.
  change (dict_mem String.eqb (processor_cache w1) (model_id (model_agent w1)))
    with false in Hpl.
  change (processor_loads w1) with (processor_loads w) in Hpl.
  cbv iota in Hpl.
  rewrite Hpa, Hma in *. clear Hpa Hma.
  rewrite Hrun.
  destruct (processor_from_pretrained (env w) (processor_loads w)
              (model_id (model_agent w))) as [p|e];
    [destruct (model_from_pretrained (env w) (model_loads w)
                (model_id (model_agent w)) (device_of (env w))) as [m|e]|];
    cbn [fst] in *;
    (eexists; eexists; eexists; split; [reflexivity|]);
    (split; [lia|]); rewrite Hag; cbn [is_loaded processor model];
    (split; [|reflexivity]).
  - split; [intros _|reflexivity]. exists p, m. destruct Hm as [_ Hml].
    change (dict_mem key2_eqb (model_cache w1) _) with false in Hml.
    change (model_loads w1) with (model_loads w) in Hml.
    cbv iota in Hml. repeat split. lia.
  - split; [discriminate|]. intros (p0 & m0 & _ & H & _). discriminate H.
  - split; [discriminate|]. intros (p0 & m0 & H & _). discriminate H.
Qed.
End Reloading.


(** ** The model agent across any sequence of calls *)

Section Resources.
Import ModelManagementAgent.

Lemma initialize_model_keeps_resources :
  keeps (preserves resources_ok) initialize_model.
Proof.
  intros w Hok.
  destruct (initialize_model_effect w)
    as (w' & Hrun & Henv & Hag & Hpc & Hpl & Hm).
  rewrite Hrun. cbn [snd]. unfold resources_ok in *.
  rewrite Hag, Henv. cbn [is_loaded processor model model_id].
  destruct (fst (processor_answer w)) as [p|] eqn:Hp;
    [destruct (fst (model_answer w)) as [m|] eqn:Hmo|].
  - intros _. exists p, m. destruct Hm as [Hmc _].
    rewrite Hpc, Hmc. cbn [option_map]. rewrite Hp, Hmo. repeat split.
  - intros Hl. destruct (Hok Hl) as (p0 & m0 & _ & _ & _ & Hc).
    unfold model_answer in Hmo.
    destruct (dict_get key2_eqb (model_cache w) _) as [v|];
      [|discriminate].
    cbn [option_map] in Hc. congruence.
  - intros Hl. destruct (Hok Hl) as (p0 & m0 & _ & _ & Hc & _).
    unfold processor_answer in Hp.
    destruct (dict_get String.eqb (processor_cache w) _) as [v|];
      [|discriminate].
    cbn [option_map] in Hc. congruence.
Qed.

Lemma cleanup_resources_keeps_resources :
  keeps (preserves resources_ok) cleanup_resources.
Proof. intros w _ Hl. discriminate Hl. Qed.

#[local] Hint Resolve initialize_model_keeps_resources
  cleanup_resources_keeps_resources : frame.

Lemma run_operation_resources (op : operation) (w : World) :
  preserves resources_ok w (run_operation op w).
Proof.
  revert w.
  destruct op; cbn [run_operation];
    match goal with |- forall w, preserves _ w (snd (?m w)) =>
      change (keeps (preserves resources_ok) m) end;
    try apply analyze_with_multiple_prompts_keeps;
    frame_with (preserves_refl resources_ok) (preserves_trans resources_ok).
Qed.

(** X12.  From a world in which the loaded flag tells the truth, no
    sequence of calls leads to one in which it does not: whenever the
    model agent says it is loaded, it holds a processor and a model,
    they are the ones kept in the memo tables, and the inference chain
    can be reached. *)
Theorem loaded_flag_is_truthful (ops : list operation) (w : World) :
  resources_ok w ->
  resources_ok (run_operations ops w)
  /\ can_infer (run_operations ops w)
     = is_loaded (model_agent (run_operations ops w)).
Proof.
  intros Hok.
  assert (Hok' : resources_ok (run_operations ops w)).
  { revert Hok.
    apply (run_operations_invariant (preserves resources_ok)
             (preserves_refl resources_ok) (preserves_trans resources_ok)
             run_operation_resources). }
  split; [exact Hok'|].
  unfold can_infer.
  destruct (is_loaded (model_agent (run_operations ops w))) eqn:Hl;
    [|reflexivity].
  destruct (Hok' Hl) as (p & m & -> & -> & _). reflexivity.
Qed.

(** On a host whose loaders work: after one initialisation the flag is
    true, and so is what it promises. *)
Lemma loaded_flag_on_good_host :
  let w := run_operations [InitializeModel] (fresh_world good_host) in
  is_loaded (model_agent w) = true
  /\ can_infer w = true
  /\ exists p m,
       processor (model_agent w) = Some p /\ model (model_agent w) = Some m.
Proof.
  cbv zeta.
  destruct (loaded_flag_is_truthful [InitializeModel] (fresh_world good_host))
    as [Hok Hci].
  { intros Hl. discriminate Hl. }
  assert (Hl : is_loaded
                 (model_agent
                    (run_operations [InitializeModel]
                       (fresh_world good_host))) = true)
    by (vm_compute; reflexivity).
  split; [exact Hl|]. split; [now rewrite Hci|].
  destruct (Hok Hl) as (p & m & Hp & Hm & _). exists p, m. auto.
Defined.
End Resources.

(** ** coordinator_agent.py: start-up *)

Section StartUp.
Import CoordinatorAgent.

Lemma initialize_system_effect (w : World) :
  exists ok w',
    initialize_system w = (Returns ok, w')
    /\ (ok = true ->
        initialized (system_status w') = true
        /\ total_operations (system_status w')
           = total_operations (system_status w)
        /\ can_infer w' = true
        /\ missing_agents (agents w) = []
        /\ dict_get String.eqb (agents w) "model_management"
           = Some ModelManagementRef)
    /\ (ok = false -> system_status w' = system_status w)
    /\ agents w' = agents w
    /\ heap w' = heap w
    /\ analysis_history w' = analysis_history w
    /\ is_loaded (model_agent w') = ok || is_loaded (model_agent w)
    /\ (missing_agents (agents w) = [] ->
        dict_get String.eqb (agents w) "model_management"
          = Some ModelManagementRef ->
        ok = ModelManagementAgent.is_some (fst (processor_answer w))
             && ModelManagementAgent.is_some (fst (model_answer w))).
Proof.
  unfold initialize_system, try_except.
  unfold bind at 1. unfold st at 1, modify at 1. cbv beta iota.
  match goal with |- context [bind (gets _) _ ?x] => set (w1 := x) end.
  unfold bind at 1, gets at 1. cbv beta iota.
  change (agents w1) with (agents w).
  destruct (missing_agents (agents w)) as [|name missing] eqn:Hmiss.
  2:{ eexists. eexists. split; [reflexivity|]. cbn.
      repeat split; discriminate. }
  unfold bind at 1, agents_item at 1, get_agent, bind, gets.
  change (agents w1) with (agents w).
  destruct (dict_get String.eqb (agents w) "model_management")
    as [a|] eqn:Hm.
  2:{ eexists. eexists. split; [reflexivity|]. cbn.
      repeat split; discriminate. }
  change (ret a w1) with (Returns a, w1). cbv beta iota.
  destruct a;
    try (eexists; eexists; split; [reflexivity|]; cbn;
         repeat split; discriminate).
  cbn [call_initialize_model].
  destruct (initialize_model_effect w1)
    as (w2 & Hrun & Henv & Hag & _).
  pose proof (initialize_model_resources_only w1) as Hframe.
  rewrite Hrun in Hframe. cbn [snd] in Hframe.
  destruct Hframe as (_ & Hhist & Hheap & Hagents & Hstatus & _).
  change (analysis_history w1) with (analysis_history w) in Hhist.
  change (heap w1) with (heap w) in Hheap.
  change (agents w1) with (agents w) in Hagents.
  change (system_status w1) with (system_status w) in Hstatus.
  rewrite Hrun.
  change (processor_answer w1) with (processor_answer w) in *.
  change (model_answer w1) with (model_answer w) in *.
  change (model_agent w1) with (model_agent w) in *.
  destruct (fst (processor_answer w)) as [p|];
    [destruct (fst (model_answer w)) as [m|]|];
    cbn -[String.append];
    (eexists; eexists; split; [reflexivity|]);
    unfold can_infer; cbn -[String.append];
    rewrite ?Hag, ?Hstatus; cbn;
    repeat split; auto; discriminate.
Qed.

(** X13.  [initialize_system] never raises.  When it returns [True] the
    system is marked initialised, the operation counter is as before,
    the model agent can run inference, and all four required agents
    were registered, the model manager under its own name; when it
    returns [False] the system status is untouched.  In either case the
    registry, the result dictionaries and the history are as before. *)
Theorem initialize_system_outcome (w : World) :
  exists ok w',
    initialize_system w = (Returns ok, w')
    /\ (ok = true ->
        initialized (system_status w') = true
        /\ total_operations (system_status w')
           = total_operations (system_status w)
        /\ can_infer w' = true
        /\ missing_agents (agents w) = []
        /\ dict_get String.eqb (agents w) "model_management"
           = Some ModelManagementRef)
    /\ (ok = false -> system_status w' = system_status w)
    /\ agents w' = agents w
    /\ heap w' = heap w
    /\ analysis_history w' = analysis_history w.
Proof.
  destruct (initialize_system_effect w)
    as (ok & w' & Hrun & Htrue & Hfalse & Hagents & Hheap & Hhist & _).
  exists ok, w'. auto 10.
Qed.

Lemma register_agent_run (name : string) (a : agent) (w : World) :
  register_agent name a w
  = (Returns tt,
     set_st_log
       (st_log w ++ [StSuccess ("✅ " ++ name ++ " registered successfully!")])
       (set_agents (dict_set String.eqb (agents w) name a) w)).
Proof. reflexivity. Qed.

(** X14.  The start of [multi_agent_app.main] on a fresh process: the
    four agents end up registered under their names, and the system is
    initialised exactly when the first invocation of each loader
    succeeds; the model agent can run inference exactly then.  The
    history is empty and no operation has been counted. *)
Theorem start_app_outcome (e : Env) :
  let mid := model_id ModelManagementAgent.init in
  exists ok w,
    start_app (fresh_world e) = (Returns ok, w)
    /\ app_registered w
    /\ initialized (system_status w) = ok
    /\ can_infer w = ok
    /\ ok = returned (processor_from_pretrained e 0 mid)
            && returned (model_from_pretrained e 0 mid (device_of e))
    /\ analysis_history w = []
    /\ total_operations (system_status w) = 0.
Proof.
  cbv zeta. unfold start_app.
  do 4 (rewrite (bind_returns _ _ _ _ _ (register_agent_run _ _ _));
        cbv beta).
  match goal with |- context [initialize_system ?x] => set (w4 := x) end.
  destruct (initialize_system_effect w4)
    as (ok & w' & Hrun & Htrue & Hfalse & Hagents & Hheap & Hhist
        & Hloaded & Hok).
  exists ok, w'. split; [exact Hrun|].
  specialize (Hok eq_refl eq_refl).
  change (processor_answer w4)
    with (match processor_from_pretrained e 0
                  (model_id ModelManagementAgent.init) with
          | Returns p => (Some p, @None string)
          | Raises e => (None, Some e)
          end) in Hok.
  change (model_answer w4)
    with (match model_from_pretrained e 0
                  (model_id ModelManagementAgent.init) (device_of e) with
          | Returns m => (Some m, @None string)
          | Raises e => (None, Some e)
          end) in Hok.
  change (is_loaded (model_agent w4)) with false in Hloaded.
  change (analysis_history w4) with (@nil ref) in Hhist.
  split. { unfold app_registered. rewrite Hagents. repeat split. }
  assert (Hci : can_infer w' = ok).
  { destruct ok; [now apply Htrue|]. unfold can_infer. now rewrite Hloaded. }
  assert (Hst : initialized (system_status w') = ok
                /\ total_operations (system_status w') = 0).
  { destruct ok.
    - destruct (Htrue eq_refl) as (Hi & Ht & _). split; [exact Hi|exact Ht].
    - rewrite (Hfalse eq_refl). split; reflexivity. }
  destruct Hst as [Hi Ht].
  split; [exact Hi|]. split; [exact Hci|]. split; [|split; assumption].
  rewrite Hok.
  destruct (processor_from_pretrained e 0 _);
    destruct (model_from_pretrained e 0 _ _); reflexivity.
Qed.
End StartUp.

(** ** coordinator_agent.py: the system status *)

Section SystemStatusFacts.
Import CoordinatorAgent CoordinatorStatus.

Lemma get_statistics_returns (w : World) :
  exists stats, AnalysisAgent.get_statistics w = (Returns stats, w).
Proof.
  unfold AnalysisAgent.get_statistics, bind, gets, ret.
  destruct (map (deref w) (analysis_history w)); eexists; reflexivity.
Qed.

(** The dictionary stored for one agent is obtained without a change of
    the world, and the call raises exactly when probing the agent
    does. *)
Lemma agent_status_effect (a : agent) (w : World) :
  snd (agent_status a w) = w
  /\ forall e, fst (agent_status a w) = Raises e <-> probe_raises a w e.
Proof.
  unfold probe_raises, model_status_of, statistics_of, agent_status.
  destruct a as [| | | |o]; cbn [attr_get_model_status attr_get_statistics
                                  option_map].
  - split; [reflexivity|]. intros e. cbn. split; [discriminate|].
    intros [H|[H _]]; discriminate.
  - split; [reflexivity|]. intros e. cbn. split; [discriminate|].
    intros [H|[_ H]]; discriminate.
  - destruct (get_statistics_returns w) as (stats & Hs). rewrite Hs.
    split; [reflexivity|]. intros e. cbn. split; [discriminate|].
    intros [H|[_ H]]; discriminate.
  - split; [reflexivity|]. intros e. cbn. split; [discriminate|].
    intros [H|[_ H]]; discriminate.
  - destruct (f_get_model_status o) as [[d|e0]|]; cbn.
    + split; [reflexivity|]. intros e. split; [discriminate|].
      intros [H|[H _]]; discriminate.
    + split; [reflexivity|]. intros e. split.
      * intros [= ->]. now left.
      * intros [[= ->]|[H _]]; [reflexivity|discriminate].
    + destruct (f_get_statistics o) as [[d|e0]|]; cbn.
      * split; [reflexivity|]. intros e. split; [discriminate|].
        intros [H|[_ H]]; discriminate.
      * split; [reflexivity|]. intros e. split.
        -- intros [= ->]. now right.
        -- intros [H|[_ [= ->]]]; [discriminate|reflexivity].
      * split; [reflexivity|]. intros e. split; [discriminate|].
        intros [H|[_ H]]; discriminate.
Qed.

Lemma dict_mem_set (V : Type) (d : list (string * V)) (k k' : string) (v : V) :
  dict_mem String.eqb (dict_set String.eqb d k v) k'
  = String.eqb k' k || dict_mem String.eqb d k'.
Proof.
  unfold dict_mem. rewrite dict_get_set. now destruct (String.eqb k' k).
Qed.

Lemma dict_mem_cons (V : Type) (d : list (string * V)) (k k' : string) (v : V) :
  dict_mem String.eqb ((k, v) :: d) k'
  = String.eqb k' k || dict_mem String.eqb d k'.
Proof. unfold dict_mem. simpl. now destruct (String.eqb k' k). Qed.

Lemma collect_statuses_effect (w : World) :
  forall (entries : list (string * agent)) (acc : list (string * pydict)),
    snd (collect_statuses entries acc w) = w
    /\ ((exists e, fst (collect_statuses entries acc w) = Raises e)
        <-> exists name a e, In (name, a) entries /\ probe_raises a w e)
    /\ (forall statuses,
           fst (collect_statuses entries acc w) = Returns statuses ->
           forall name,
             dict_mem String.eqb statuses name
             = dict_mem String.eqb acc name
               || dict_mem String.eqb entries name).
Proof.
  induction entries as [|[name a] rest IH]; intros acc.
  - cbn. split; [reflexivity|]. split.
    + split; [intros [e H]; discriminate|intros (n & a & e & [] & _)].
    + intros statuses [= <-] name. now rewrite orb_false_r.
  - cbn [collect_statuses]. unfold bind.
    destruct (agent_status_effect a w) as [Hw Hraise].
    destruct (agent_status a w) as [[status|e] w1] eqn:Hrun;
      cbn [fst snd] in *; subst w1.
    + destruct (IH (dict_set String.eqb acc name status))
        as (Hw' & Hiff & Hkeys).
      split; [exact Hw'|]. split.
      * rewrite Hiff. split.
        -- intros (n & a' & e & Hin & Hp). exists n, a', e.
           split; [now right|exact Hp].
        -- intros (n & a' & e & [[= <- <-]|Hin] & Hp).
           ++ apply Hraise in Hp. discriminate.
           ++ exists n, a', e. auto.
      * intros statuses Hs n. rewrite (Hkeys statuses Hs n).
        rewrite dict_mem_set, dict_mem_cons.
        destruct (String.eqb n name), (dict_mem String.eqb acc n),
          (dict_mem String.eqb rest n); reflexivity.
    + split; [reflexivity|]. split; [|discriminate].
      split; [|eauto]. intros _. exists name, a, e.
      split; [now left|]. now apply Hraise.
Qed.

(** X15.  [get_system_status] changes nothing, but unlike
    [run_health_check] it does not guard its calls: it raises exactly
    when probing some registered agent raises, in a world in which the
    health check still returns a report.  When it returns, the report
    carries the coordinator's status, the registered names, their
    number, and a status for each registered name and no other. *)
Theorem get_system_status_propagates_probe_failure (w : World) :
  snd (get_system_status w) = w
  /\ ((exists e, fst (get_system_status w) = Raises e)
      <-> exists name a e, In (name, a) (agents w) /\ probe_raises a w e)
  /\ (forall report,
         fst (get_system_status w) = Returns report ->
         system_initialized report = initialized (system_status w)
         /\ reported_operations report = total_operations (system_status w)
         /\ registered_agents report = dict_keys (agents w)
         /\ agent_count report = List.length (agents w)
         /\ forall name,
              dict_mem String.eqb (agent_statuses report) name
              = dict_mem String.eqb (agents w) name)
  /\ exists health, run_health_check w = (Returns health, w).
Proof.
  destruct (collect_statuses_effect w (agents w) []) as (Hw & Hiff & Hkeys).
  unfold get_system_status, bind, gets, ret.
  destruct (collect_statuses (agents w) [] w) as [[statuses|e] w1] eqn:Hrun;
    cbn [fst snd] in *; subst w1.
  - split; [reflexivity|]. split; [|split].
    + rewrite <- Hiff. split; intros [e H]; discriminate.
    + intros report [= <-]. cbn. repeat split.
      intros name. now rewrite (Hkeys statuses eq_refl name).
    + unfold run_health_check, bind, gets.
      destruct (check_all_effect w (agents w) (mkReport "healthy" [] [] []))
        as (health & Hh & _).
      exists health. exact Hh.
  - split; [reflexivity|]. split; [|split].
    + rewrite <- Hiff. split; eauto.
    + discriminate.
    + unfold run_health_check, bind, gets.
      destruct (check_all_effect w (agents w) (mkReport "healthy" [] [] []))
        as (health & Hh & _).
      exists health. exact Hh.
Qed.
End SystemStatusFacts.

(** ** image_processing_agent.py: preprocessing as a whole *)

Section PreprocessingTotal.
Import ImageProcessingAgent.

(** The rest of the [try] block on an image whose sides fit a C [int]:
    it returns the image itself, or a resized one whose sides are
    between 1 and 1024, or raises; the world only gets the message. *)
Lemma resize_if_too_large_cases (image : Image) (w : World) :
  0 <= fst (size image) < 2 ^ 31 ->
  0 <= snd (size image) < 2 ^ 31 ->
  (Z.max (fst (size image)) (snd (size image)) <= 1024
   /\ resize_if_too_large image w = (Returns image, w))
  \/ (1024 < Z.max (fst (size image)) (snd (size image))
      /\ ((exists e, resize_if_too_large image w = (Raises e, w))
          \/ exists w' h',
               1 <= w' <= 1024 /\ 1 <= h' <= 1024
               /\ resize_if_too_large image w
                  = (Returns (mkImage (mode image) (w', h')),
                     set_st_log
                       (st_log w ++ [StInfo (resized_message (w', h'))]) w))).
Proof.
  intros Hw Hh.
  set (m := Z.max (fst (size image)) (snd (size image))).
  assert (Hbody :
    resize_if_too_large image
    = if m >? 1024 then
        let ratio := fdiv (float_of_int max_dimension) (float_of_int m) in
        w' <- scale_dim ratio (fst (size image)) ;;
        h' <- scale_dim ratio (snd (size image)) ;;
        image' <- resize image (w', h') ;;
        st (StInfo (resized_message (w', h'))) ;;
        ret image'
      else ret image) by reflexivity.
  rewrite Hbody. clear Hbody.
  destruct (Z.gtb_spec m 1024) as [Hbig|Hsmall]; [right|left; now split].
  split; [exact Hbig|]. cbv zeta.
  assert (Hm : 1024 < m < 2 ^ 31) by lia.
  destruct (scale_dim_effect m (fst (size image)) w Hm ltac:(lia))
    as (w1 & Hw1 & Hb1).
  destruct (scale_dim_effect m (snd (size image)) w Hm ltac:(lia))
    as (h1 & Hh1 & Hb2).
  match goal with |- context [bind ?m ?k w] => set (run := bind m k w) end.
  assert (Hrun :
    run = if (w1 <? 1) || (h1 <? 1)
          then (Raises "height and width must be > 0"%string, w)
          else (Returns (mkImage (mode image) (w1, h1)),
                set_st_log
                  (st_log w ++ [StInfo (resized_message (w1, h1))]) w)).
  { subst run. unfold bind at 1. rewrite Hw1.
    unfold bind at 1. rewrite Hh1.
    unfold bind at 1, resize. cbn [fst snd].
    destruct ((w1 <? 1) || (h1 <? 1)); reflexivity. }
  rewrite Hrun. clear Hrun run.
  destruct (Z.ltb_spec w1 1) as [Hw0|Hw0];
    [cbn [orb]; left; eexists; reflexivity|].
  destruct (Z.ltb_spec h1 1) as [Hh0|Hh0];
    [cbn [orb]; left; eexists; reflexivity|].
  cbn [orb]. right. exists w1, h1.
  split; [nia|]. split; [nia|]. reflexivity.
Qed.

Lemma resize_if_too_large_result (image : Image) (w w0 : World) :
  fst (resize_if_too_large image w) = fst (resize_if_too_large image w0).
Proof.
  unfold resize_if_too_large, resize, scale_dim, bind, st, modify, ret, raise.
  destruct (Z.max _ _ >? max_dimension); [|reflexivity].
  destruct (int_of_float _) as [w'|e]; [|reflexivity].
  destruct (int_of_float _) as [h'|e]; [|reflexivity].
  destruct ((fst (w', h') <? 1) || (snd (w', h') <? 1)); reflexivity.
Qed.

(** The conversion leaves the world alone, and its outcome depends on
    the image and on PIL only. *)
Lemma to_rgb_run (image : Image) (w : World) :
  to_rgb image w
  = (if negb (String.eqb (mode image) "RGB")
     then match convert_error (env w) image "RGB" with
          | Some e => Raises e
          | None => Returns (convert image "RGB")
          end
     else Returns image, w).
Proof.
  unfold to_rgb, image_convert, ret.
  destruct (negb _); [|reflexivity].
  destruct (convert_error (env w) image "RGB"); reflexivity.
Qed.

(** The image returned by [preprocess_image], from the outcomes of its
    two steps. *)
Lemma preprocess_image_fst (image : Image) (w : World) :
  fst (preprocess_image image w)
  = match fst (to_rgb image w) with
    | Returns converted =>
        match fst (resize_if_too_large converted w) with
        | Returns image' => Returns image'
        | Raises _ => Returns converted
        end
    | Raises _ => Returns image
    end.
Proof.
  unfold preprocess_image, preprocess_handler, try_except.
  unfold bind at 1.
  destruct (to_rgb_effect image w) as [[converted Hc]|[e Hc]]; rewrite Hc;
    cbn [fst]; [|reflexivity].
  destruct (resize_if_too_large converted w) as [[i|e] w1]; reflexivity.
Qed.

(** It does not depend on the state of the program. *)
Lemma preprocess_image_result (image : Image) (w w0 : World) :
  env w0 = env w ->
  fst (preprocess_image image w0) = fst (preprocess_image image w).
Proof.
  intros Henv. rewrite !preprocess_image_fst, !to_rgb_run, Henv. cbn [fst].
  destruct (if negb (String.eqb (mode image) "RGB")
            then match convert_error (env w) image "RGB" with
                 | Some e => Raises e
                 | None => Returns (convert image "RGB")
                 end
            else Returns image) as [converted|e]; [|reflexivity].
  now rewrite (resize_if_too_large_result converted w0 w).
Qed.

(** X19.  For an image whose sides fit a C [int], [preprocess_image]
    never raises, shows at most one message and changes nothing else.
    It returns an image in mode RGB, unless PIL refuses the conversion:
    then it returns the image as it came and shows the error.  And it
    is idempotent: preprocessing its result again gives the same image,
    whether the first run resized, left the size alone, fell back to
    the unresized image or to the unconverted one. *)
Theorem preprocess_image_is_idempotent (image : Image) (w w0 : World) :
  0 <= fst (size image) < 2 ^ 31 ->
  0 <= snd (size image) < 2 ^ 31 ->
  env w0 = env w ->
  exists image' shown,
    preprocess_image image w
    = (Returns image', set_st_log (st_log w ++ shown) w)
    /\ (List.length shown <= 1)%nat
    /\ (mode image' = "RGB"%string
        \/ (image' = image
            /\ mode image <> "RGB"%string
            /\ exists e,
                 convert_error (env w) image "RGB" = Some e
                 /\ shown = [StError ("Error preprocessing image: " ++ e)]))
    /\ (mode image = "RGB"%string
        \/ convert_error (env w) image "RGB" = None ->
        mode image' = "RGB"%string)
    /\ fst (preprocess_image image' w0) = Returns image'.
Proof.
  intros Hw Hh Henv.
  assert (Hsame : set_st_log (st_log w ++ []) w = w).
  { rewrite app_nil_r. now destruct w. }
  assert (Hagain : forall image',
             fst (preprocess_image image' w) = Returns image' ->
             fst (preprocess_image image' w0) = Returns image').
  { intros image' H. now rewrite (preprocess_image_result image' w w0 Henv). }
  assert (Hstill : forall image' o w1,
             mode image' = "RGB"%string ->
             resize_if_too_large image' w = (o, w1) ->
             fst (preprocess_image image' w)
             = match o with
               | Returns i => Returns i
               | Raises _ => Returns image'
               end).
  { intros image' o w1 Hm Hr.
    rewrite preprocess_image_fst, to_rgb_run, Hm.
    change (negb (String.eqb "RGB" "RGB")) with false. cbv iota. cbn [fst].
    rewrite Hr. now destruct o. }
  assert (Hresized : forall w' h',
             1 <= w' <= 1024 -> 1 <= h' <= 1024 ->
             fst (preprocess_image (mkImage "RGB" (w', h')) w)
             = Returns (mkImage "RGB" (w', h'))).
  { intros w' h' Hw' Hh'.
    destruct (resize_if_too_large_cases (mkImage "RGB" (w', h')) w
                ltac:(cbn; lia) ltac:(cbn; lia))
      as [[_ Hrun0]|[Hbig0 _]]; [|cbn in Hbig0; lia].
    now rewrite (Hstill (mkImage "RGB" (w', h')) _ _ eq_refl Hrun0). }
  unfold preprocess_image at 1, preprocess_handler, try_except.
  unfold bind at 1. rewrite to_rgb_run.
  destruct (String.eqb_spec (mode image) "RGB") as [Hrgb|Hother]; cbn [negb].
  - (* already RGB *)
    destruct (resize_if_too_large_cases image w Hw Hh)
      as [[Hsmall Hrun]|[Hbig [[e Hrun]|(w' & h' & Hw' & Hh' & Hrun)]]];
      rewrite Hrun.
    + exists image, []. rewrite Hsame.
      split; [reflexivity|]. split; [simpl; lia|]. split; [now left|].
      split; [auto|]. apply Hagain.
      now rewrite (Hstill _ _ _ Hrgb Hrun).
    + exists image, [StError ("Error preprocessing image: " ++ e)].
      split; [reflexivity|]. split; [simpl; lia|]. split; [now left|].
      split; [auto|]. apply Hagain.
      now rewrite (Hstill _ _ _ Hrgb Hrun).
    + exists (mkImage (mode image) (w', h')),
        [StInfo (resized_message (w', h'))].
      split; [reflexivity|]. split; [simpl; lia|]. split; [now left|].
      split; [intros _; exact Hrgb|]. apply Hagain.
      rewrite Hrgb. now apply Hresized.
  - destruct (convert_error (env w) image "RGB") as [e|] eqn:Hconv.
    + (* PIL refuses *)
      exists image, [StError ("Error preprocessing image: " ++ e)].
      split; [reflexivity|]. split; [simpl; lia|].
      split; [right; split; [reflexivity|split; [exact Hother|eauto]]|].
      split; [intros [H|H]; [contradiction|discriminate]|].
      apply Hagain.
      rewrite preprocess_image_fst, to_rgb_run, Hconv.
      destruct (String.eqb_spec (mode image) "RGB"); [contradiction|].
      reflexivity.
    + (* converted *)
      set (converted := convert image "RGB").
      assert (Hcw : 0 <= fst (size converted) < 2 ^ 31) by exact Hw.
      assert (Hch : 0 <= snd (size converted) < 2 ^ 31) by exact Hh.
      destruct (resize_if_too_large_cases converted w Hcw Hch)
        as [[Hsmall Hrun]|[Hbig [[e Hrun]|(w' & h' & Hw' & Hh' & Hrun)]]];
        rewrite Hrun.
      * exists converted, []. rewrite Hsame.
        split; [reflexivity|]. split; [simpl; lia|]. split; [now left|].
        split; [reflexivity|]. apply Hagain.
        now rewrite (Hstill converted _ _ eq_refl Hrun).
      * exists converted, [StError ("Error preprocessing image: " ++ e)].
        split; [reflexivity|]. split; [simpl; lia|]. split; [now left|].
        split; [reflexivity|]. apply Hagain.
        now rewrite (Hstill converted _ _ eq_refl Hrun).
      * exists (mkImage "RGB" (w', h')), [StInfo (resized_message (w', h'))].
        split; [reflexivity|]. split; [simpl; lia|]. split; [now left|].
        split; [reflexivity|]. apply Hagain. now apply Hresized.
Qed.

(** An image that PIL does not convert, preprocessed twice. *)
Lemma preprocess_image_twice_on_unconvertible_image :
  exists image' shown,
    preprocess_image (mkImage "La" (2000, 10)) running_app
    = (Returns image', set_st_log (st_log running_app ++ shown) running_app)
    /\ (List.length shown <= 1)%nat
    /\ (mode image' = "RGB"%string
        \/ (image' = mkImage "La" (2000, 10)
            /\ mode (mkImage "La" (2000, 10)) <> "RGB"%string
            /\ exists e,
                 convert_error (env running_app) (mkImage "La" (2000, 10))
                   "RGB" = Some e
                 /\ shown = [StError ("Error preprocessing image: " ++ e)]))
    /\ (mode (mkImage "La" (2000, 10)) = "RGB"%string
        \/ convert_error (env running_app) (mkImage "La" (2000, 10)) "RGB"
           = None ->
        mode image' = "RGB"%string)
    /\ fst (preprocess_image image' running_app) = Returns image'.
Proof.
  apply (preprocess_image_is_idempotent (mkImage "La" (2000, 10))
           running_app running_app); [cbn; lia|cbn; lia|reflexivity].
Defined.
End PreprocessingTotal.

(** ** coordinator_agent.py: the workflow, step by step *)

Section WorkflowRuns.
Import CoordinatorAgent.

(** The steps of an initialised workflow between the agents of the
    application: the clock is read, the image is preprocessed, the
    result is analysed, and the dictionary returned by the analysis is
    the one that receives the workflow metadata. *)
Lemma workflow_steps_run (image : Image) (p : string) (mt : Z) (w : World) :
  initialized (system_status w) = true ->
  dict_get String.eqb (agents w) "image_processing" = Some ImageProcessingRef ->
  dict_get String.eqb (agents w) "analysis" = Some AnalysisRef ->
  exists image' shown w3,
    let w1 := set_clock_reads (S (clock_reads w)) w in
    let w2 := set_st_log (st_log w1 ++ shown) w1 in
    let now := time_strftime (env w3) (clock_reads w3) in
    let wm :=
      mkWorkflowMetadata
        (fsub (time_time (env w3) (S (clock_reads w3)))
              (time_time (env w) (clock_reads w)))
        (total_operations (system_status w3))
        (dict_keys (agents w3)) (Some now) in
    ImageProcessingAgent.preprocess_image image w1 = (Returns image', w2)
    /\ AnalysisAgent.analyze_image image' p mt w2
       = (Returns (List.length (heap w)), w3)
    /\ workflow_steps image p mt w
       = (Returns (List.length (heap w)),
          set_heap
            (list_update (heap w3) (List.length (heap w))
               (set_workflow_metadata (deref w3 (List.length (heap w))) wm))
            (set_clock_reads (S (S (clock_reads w3)))
               (set_system_status
                  (mkStatus (initialized (system_status w3)) (Some now)
                     (total_operations (system_status w3)))
                  w3))).
Proof.
  intros Hinit Hi Ha.
  unfold workflow_steps.
  unfold bind at 1. unfold time_now at 1.
  set (w1 := set_clock_reads (S (clock_reads w)) w).
  unfold bind at 1. unfold gets at 1.
  change (initialized (system_status w1)) with (initialized (system_status w)).
  rewrite Hinit. cbn [negb].
  unfold bind at 1. unfold agents_item at 1, get_agent, bind, gets.
  change (agents w1) with (agents w). rewrite Hi.
  change (ret ImageProcessingRef w1) with (Returns ImageProcessingRef, w1).
  cbv beta iota. cbn [call_preprocess_image].
  destruct (preprocess_image_effect image w1) as (image' & shown & Hpre).
  rewrite Hpre.
  exists image', shown.
  set (w2 := set_st_log (st_log w1 ++ shown) w1).
  unfold agents_item at 1, get_agent, bind, gets.
  change (agents w2) with (agents w). rewrite Ha.
  change (ret AnalysisRef w2) with (Returns AnalysisRef, w2).
  cbv beta iota. cbn [call_analyze_image].
  destruct (analyze_image_effect image' p mt w2) as (w3 & d & Hrun & _).
  change (heap w2) with (heap w) in Hrun.
  rewrite Hrun. exists w3. cbv zeta.
  split; [reflexivity|]. split; [reflexivity|]. reflexivity.
Qed.
End WorkflowRuns.

Section WorkflowTheorems.
Import CoordinatorAgent.

(** X16.  A workflow result whose [success] is true: it is the
    dictionary allocated by this call and the last record of the
    history; its caption is what the inference chain returned for the
    _preprocessed_ image, whose size is the one in the metadata; its
    workflow metadata carry the operation count after the increment,
    the registered names and the time stamp that became
    [last_activity]; and the clock has been read six times. *)
Theorem successful_workflow_record
    (image : Image) (p : string) (mt : Z) (w w' : World) (r : ref) :
  process_image_analysis image p mt w = (Returns r, w') ->
  success (deref w' r) = true ->
  exists image',
    fst (ImageProcessingAgent.preprocess_image image w) = Returns image'
    /\ r = List.length (heap w)
    /\ analysis_history w' = analysis_history w ++ [r]
    /\ (exists c,
           blip_caption (env w) (List.length (inference_calls w)) image' p mt
             = Returns c
           /\ caption (deref w' r) = Some c)
    /\ (exists md,
           metadata (deref w' r) = Some md /\ md_image_size md = size image')
    /\ (exists wm,
           workflow_metadata (deref w' r) = Some (Some wm)
           /\ wf_system_operation_count wm
              = total_operations (system_status w) + 1
           /\ wf_agents_involved wm = dict_keys (agents w)
           /\ wf_timestamp wm = last_activity (system_status w'))
    /\ total_operations (system_status w')
       = total_operations (system_status w) + 1
    /\ clock_reads w' = (clock_reads w + 6)%nat.
Proof.
  intros Hrun Hok.
  destruct (process_image_analysis_history image p mt w)
    as (r0 & w0 & Hrun0 & Hhist & Himp).
  rewrite Hrun in Hrun0. injection Hrun0 as <- <-.
  destruct (Himp Hok) as (Hinit & Hi & Ha).
  rewrite Hok in Hhist.
  revert Hrun. unfold process_image_analysis, try_except.
  unfold bind at 1. unfold count_operation, update_status, modify.
  match goal with |- context [workflow_steps image p mt ?x] =>
    set (wc := x) end.
  destruct (workflow_steps_run image p mt wc Hinit Hi Ha)
    as (image' & shown & w3 & Hpre & Han & Hsteps).
  cbv zeta in Hpre, Han, Hsteps. rewrite Hsteps.
  intros [= <- <-].
  match type of Han with
  | AnalysisAgent.analyze_image _ _ _ ?x = _ =>
      destruct (analyze_image_effect image' p mt x)
        as (w3' & d & Han' & Hheap & Hagent & Henv & Hagents & Hstatus & _)
  end.
  rewrite Han in Han'. injection Han' as <-.
  cbn [heap set_st_log set_clock_reads] in Hheap.
  change (heap wc) with (heap w) in *.
  assert (Hlen : (List.length (heap w) < List.length (heap w3))%nat).
  { rewrite Hheap, length_app. simpl. lia. }
  unfold deref in Hok. cbn [heap set_heap] in Hok.
  rewrite nth_list_update_same in Hok by exact Hlen.
  cbn [success set_workflow_metadata] in Hok.
  match type of Han with
  | AnalysisAgent.analyze_image _ _ _ ?x = _ =>
      destruct (analyze_image_success image' p mt x w3 (List.length (heap w))
                  Han Hok)
        as (_ & (c & Hc & Hcap) & _ & _ & _ & Hmd & _ & _ & _ & Hclock)
  end.
  exists image'.
  split.
  { match type of Hpre with
    | ImageProcessingAgent.preprocess_image _ ?x = _ =>
        rewrite <- (preprocess_image_result image w x eq_refl)
    end.
    now rewrite Hpre. }
  split; [reflexivity|]. split; [exact Hhist|].
  unfold deref. cbn [heap set_heap].
  rewrite nth_list_update_same by exact Hlen.
  cbn [caption metadata workflow_metadata set_workflow_metadata].
  split. { exists c. split; [exact Hc|exact Hcap]. }
  split. { eexists. split; [exact Hmd|reflexivity]. }
  split.
  { eexists. split; [reflexivity|]. cbn. rewrite Hstatus, Hagents.
    repeat split. }
  cbn. rewrite Hstatus, Hclock. cbn. split; [reflexivity|]. lia.
Qed.

Lemma successful_workflow_on_running_app :
  exists image',
    fst (ImageProcessingAgent.preprocess_image photo running_app)
      = Returns image'
    /\ 0%nat = List.length (heap running_app)
    /\ analysis_history
         (snd (process_image_analysis photo "a photography of" 50 running_app))
       = analysis_history running_app ++ [0%nat]
    /\ (exists c,
           blip_caption (env running_app)
             (List.length (inference_calls running_app)) image'
             "a photography of" 50
             = Returns c
           /\ caption
                (deref (snd (process_image_analysis photo "a photography of"
                               50 running_app)) 0%nat)
              = Some c)
    /\ (exists md,
           metadata
             (deref (snd (process_image_analysis photo "a photography of"
                            50 running_app)) 0%nat)
             = Some md
           /\ md_image_size md = size image')
    /\ (exists wm,
           workflow_metadata
             (deref (snd (process_image_analysis photo "a photography of"
                            50 running_app)) 0%nat)
             = Some (Some wm)
           /\ wf_system_operation_count wm
              = total_operations (system_status running_app) + 1
           /\ wf_agents_involved wm = dict_keys (agents running_app)
           /\ wf_timestamp wm
              = last_activity
                  (system_status
                     (snd (process_image_analysis photo "a photography of"
                             50 running_app))))
    /\ total_operations
         (system_status
            (snd (process_image_analysis photo "a photography of" 50
                    running_app)))
       = total_operations (system_status running_app) + 1
    /\ clock_reads
         (snd (process_image_analysis photo "a photography of" 50
                 running_app))
       = (clock_reads running_app + 6)%nat.
Proof.
  apply (successful_workflow_record photo "a photography of" 50 running_app
           (snd (process_image_analysis photo "a photography of" 50
                   running_app))
           0%nat).
  - apply run_pair. vm_compute. reflexivity.
  - vm_compute. reflexivity.
Defined.
(** When PIL refuses the conversion, the workflow goes on with the
    image as it came: the inference chain receives the unconverted,
    unresized picture, and its size is the one recorded. *)
Lemma workflow_on_unconvertible_image :
  let image := mkImage "La" (2000, 10) in
  let w' := snd (process_image_analysis image "a photography of" 50
                   running_app) in
  inference_calls w' = [mkCall image "a photography of" 50]
  /\ success (deref w' 0%nat) = true
  /\ option_map md_image_size (metadata (deref w' 0%nat)) = Some (2000, 10)
  /\ fst (ImageProcessingAgent.preprocess_image image running_app)
     = Returns image.
Proof. vm_compute. repeat split. Qed.
End WorkflowTheorems.

Section WorkflowWithoutModel.
Import CoordinatorAgent.

(** X17.  After [cleanup_resources] alone (the "Cleanup Resources"
    button) the coordinator still counts as initialised, yet every
    workflow fails in the analysis step with "Model not loaded": the
    call is counted, the failure gets its workflow metadata, no
    inference is made and nothing is recorded. *)
Theorem workflow_after_cleanup_resources
    (image : Image) (p : string) (mt : Z) (w : World) :
  app_registered w ->
  initialized (system_status w) = true ->
  let w1 := snd (ModelManagementAgent.cleanup_resources w) in
  let r := List.length (heap w) in
  exists w2,
    initialized (system_status w1) = true
    /\ process_image_analysis image p mt w1 = (Returns r, w2)
    /\ success (deref w2 r) = false
    /\ error (deref w2 r)
       = Some "Model not loaded. Please initialize the model first."%string
    /\ (exists wm, workflow_metadata (deref w2 r) = Some (Some wm))
    /\ inference_calls w2 = inference_calls w
    /\ analysis_history w2 = analysis_history w
    /\ total_operations (system_status w2)
       = total_operations (system_status w) + 1.
Proof.
  intros (_ & Hi & Ha & _) Hinit w1 r.
  subst w1. rewrite cleanup_resources_run. cbn [snd].
  set (w1 := set_st_log _ (unloaded w)).
  unfold process_image_analysis, try_except.
  unfold bind at 1. unfold count_operation, update_status, modify.
  match goal with |- context [workflow_steps image p mt ?x] =>
    set (wc := x) end.
  destruct (workflow_steps_run image p mt wc Hinit Hi Ha)
    as (image' & shown & w3 & Hpre & Han & Hsteps).
  cbv zeta in Hpre, Han, Hsteps. rewrite Hsteps.
  rewrite analyze_image_without_model in Han by reflexivity.
  injection Han as <-.
  eexists. split; [exact Hinit|]. split; [reflexivity|].
  unfold deref, r. cbn [heap set_heap set_clock_reads set_system_status
                         set_st_log].
  change (heap wc) with (heap w).
  rewrite nth_list_update_same by (rewrite length_app; simpl; lia).
  rewrite nth_middle. cbn. repeat split. eexists. reflexivity.
Qed.

Lemma workflow_after_cleanup_of_running_app :
  let w1 := snd (ModelManagementAgent.cleanup_resources running_app) in
  let r := List.length (heap running_app) in
  exists w2,
    initialized (system_status w1) = true
    /\ process_image_analysis photo "a photography of" 50 w1 = (Returns r, w2)
    /\ success (deref w2 r) = false
    /\ error (deref w2 r)
       = Some "Model not loaded. Please initialize the model first."%string
    /\ (exists wm, workflow_metadata (deref w2 r) = Some (Some wm))
    /\ inference_calls w2 = inference_calls running_app
    /\ analysis_history w2 = analysis_history running_app
    /\ total_operations (system_status w2)
       = total_operations (system_status running_app) + 1.
Proof.
  apply (workflow_after_cleanup_resources photo "a photography of" 50
           running_app).
  - repeat split; vm_compute; reflexivity.
  - vm_compute. reflexivity.
Defined.
End WorkflowWithoutModel.

(** ** coordinator_agent.py: the health of the application's own agents *)

Section OwnAgents.
Import CoordinatorAgent.

(** The entry that the health check computes for an agent of one of the
    four classes. *)
Lemma health_of_own_agent (a : agent) (w : World) :
  own_agent a = true ->
  health_of a w
  = match a with
    | ModelManagementRef =>
        if is_loaded (model_agent w) then mkHealth "healthy" []
        else mkHealth "warning" [PyStr "Model not loaded"]
    | AnalysisRef =>
        match analysis_history w with
        | [] => mkHealth "info" [PyStr "No analysis history available"]
        | _ :: _ => mkHealth "healthy" []
        end
    | _ => mkHealth "healthy" []
    end.
Proof.
  destruct a as [| | | |o]; try discriminate; intros _; unfold health_of;
    try reflexivity.
  - unfold check_agent, try_except, probe.
    cbn [attr_get_model_status].
    unfold bind, ModelManagementAgent.get_model_status, bind, gets, ret.
    cbn. now destruct (is_loaded (model_agent w)).
  - unfold check_agent, try_except, probe.
    cbn [attr_get_model_status attr_get_statistics].
    unfold bind, AnalysisAgent.get_statistics, bind, gets, ret.
    now destruct (analysis_history w).
Qed.

Lemma check_all_own_agents (w : World) :
  forall (entries : list (string * agent)) (report : HealthReport),
    forallb (fun entry => own_agent (snd entry)) entries = true ->
    exists report',
      check_all entries report w = (Returns report', w)
      /\ overall_health report' = overall_health report
      /\ issues report' = issues report
      /\ warnings report'
         = warnings report
           ++ map (fun entry => (fst entry ++ ": Model not loaded")%string)
                (filter (unloaded_manager w) entries)
      /\ agent_health report'
         = health_table w entries (agent_health report).
Proof.
  induction entries as [|[name a] rest IH]; intros report Hown.
  - exists report. cbn. rewrite app_nil_r. repeat split.
  - cbn [forallb snd] in Hown. apply andb_prop in Hown.
    destruct Hown as [Ha Hrest].
    destruct (check_agent_cases a w) as [Hrun _].
    pose proof (health_of_own_agent a w Ha) as Hh.
    cbn [check_all]. unfold bind at 1. unfold check_step.
    rewrite (bind_returns _ _ _ _ _ Hrun).
    assert (Hstep :
      exists r1,
        (let report0 :=
           mkReport (overall_health report) (issues report) (warnings report)
             (dict_set String.eqb (agent_health report) name (health_of a w)) in
         if String.eqb (ah_status (health_of a w)) "error"
         then line <- join_issues (ah_issues (health_of a w)) ;;
              ret (mkReport "unhealthy"
                     (issues report0 ++ [(name ++ ": " ++ line)%string])
                     (warnings report0) (agent_health report0))
         else if String.eqb (ah_status (health_of a w)) "warning"
         then line <- join_issues (ah_issues (health_of a w)) ;;
              ret (mkReport (overall_health report0) (issues report0)
                     (warnings report0 ++ [(name ++ ": " ++ line)%string])
                     (agent_health report0))
         else ret report0) w = (Returns r1, w)
        /\ overall_health r1 = overall_health report
        /\ issues r1 = issues report
        /\ warnings r1
           = warnings report
             ++ map (fun entry => (fst entry ++ ": Model not loaded")%string)
                  (filter (unloaded_manager w) [(name, a)])
        /\ agent_health r1
           = dict_set String.eqb (agent_health report) name (health_of a w)).
    { rewrite Hh. unfold unloaded_manager. cbn [filter snd].
      destruct a as [| | | |o]; try discriminate Ha.
      - destruct (is_loaded (model_agent w)); cbn;
          eexists; rewrite ?app_nil_r; repeat split.
      - cbn. eexists. rewrite app_nil_r. repeat split.
      - destruct (analysis_history w); cbn;
          eexists; rewrite ?app_nil_r; repeat split.
      - cbn. eexists. rewrite app_nil_r. repeat split. }
    destruct Hstep as (r1 & Hstep & Ho1 & Hi1 & Hw1 & Ht1).
    cbv zeta in Hstep. rewrite Hstep.
    destruct (IH r1 Hrest) as (r2 & Hrun2 & Ho2 & Hi2 & Hw2 & Ht2).
    exists r2. split; [exact Hrun2|].
    rewrite Ho2, Hi2, Hw2, Ht2, Ho1, Hi1, Hw1, Ht1.
    repeat split.
    cbn [filter]. destruct (unloaded_manager w (name, a));
      cbn [map app]; now rewrite <- app_assoc.
Qed.

(** X18.  With nothing registered but objects of the four agent
    classes, the health check is never unhealthy and lists no issue;
    it warns once for each name bound to the model manager while the
    model is not loaded; the model manager's entry is [warning] or
    [healthy] by its loaded flag, the analysis agent's is [info] while
    the history is empty and [healthy] afterwards, and every other
    entry is [healthy]. *)
Theorem health_check_of_own_agents (w : World) :
  forallb (fun entry => own_agent (snd entry)) (agents w) = true ->
  NoDup (dict_keys (agents w)) ->
  exists report,
    run_health_check w = (Returns report, w)
    /\ overall_health report = "healthy"%string
    /\ issues report = []
    /\ warnings report
       = map (fun entry => (fst entry ++ ": Model not loaded")%string)
           (filter (unloaded_manager w) (agents w))
    /\ forall name a,
         dict_get String.eqb (agents w) name = Some a ->
         dict_get String.eqb (agent_health report) name
         = Some match a with
                | ModelManagementRef =>
                    if is_loaded (model_agent w) then mkHealth "healthy" []
                    else mkHealth "warning" [PyStr "Model not loaded"]
                | AnalysisRef =>
                    match analysis_history w with
                    | [] => mkHealth "info"
                              [PyStr "No analysis history available"]
                    | _ :: _ => mkHealth "healthy" []
                    end
                | _ => mkHealth "healthy" []
                end.
Proof.
  intros Hown Hnd.
  destruct (check_all_own_agents w (agents w) (mkReport "healthy" [] [] [])
              Hown)
    as (report & Hrun & Ho & Hi & Hw & Ht).
  exists report. split; [exact Hrun|]. split; [exact Ho|].
  split; [exact Hi|]. split; [exact Hw|].
  intros name a Hget. rewrite Ht. cbn [agent_health].
  rewrite (health_table_get w (agents w) [] name Hnd), Hget.
  f_equal. apply health_of_own_agent.
  rewrite forallb_forall in Hown.
  exact (Hown (name, a) (dict_get_In _ _ _ _ Hget)).
Qed.

Lemma health_check_of_running_app :
  exists report,
    run_health_check running_app = (Returns report, running_app)
    /\ overall_health report = "healthy"%string
    /\ issues report = []
    /\ warnings report
       = map (fun entry => (fst entry ++ ": Model not loaded")%string)
           (filter (unloaded_manager running_app) (agents running_app))
    /\ forall name a,
         dict_get String.eqb (agents running_app) name = Some a ->
         dict_get String.eqb (agent_health report) name
         = Some match a with
                | ModelManagementRef =>
                    if is_loaded (model_agent running_app)
                    then mkHealth "healthy" []
                    else mkHealth "warning" [PyStr "Model not loaded"]
                | AnalysisRef =>
                    match analysis_history running_app with
                    | [] => mkHealth "info"
                              [PyStr "No analysis history available"]
                    | _ :: _ => mkHealth "healthy" []
                    end
                | _ => mkHealth "healthy" []
                end.
Proof.
  apply (health_check_of_own_agents running_app).
  - vm_compute. reflexivity.
  - assert (Hkeys : dict_keys (agents running_app)
                    = ["image_processing"; "model_management"; "analysis";
                       "ui"]%string) by (vm_compute; reflexivity).
    rewrite Hkeys.
    repeat constructor; simpl; intuition discriminate.
Defined.
End OwnAgents.

(** ** image_processing_agent.py: validation and loading *)

Section Validation.
Import ImageLoading.

Lemma lower_app (a b : string) :
  lower (a ++ b)%string = (lower a ++ lower b)%string.
Proof. induction a as [|c a IH]; simpl; [reflexivity|now rewrite IH]. Qed.

Lemma lower_char_dot (c : ascii) :
  Ascii.eqb (lower_char c) "." = Ascii.eqb c ".".
Proof. destruct c as [[] [] [] [] [] [] [] []]; reflexivity. Qed.

Lemma has_char_lower (s : string) :
  has_char "." (lower s) = has_char "." s.
Proof.
  induction s as [|c s IH]; simpl; [reflexivity|].
  now rewrite lower_char_dot, IH.
Qed.

Lemma split_without_separator (sep : ascii) (s : string) :
  has_char sep s = false -> split sep s = [s].
Proof.
  induction s as [|c s IH]; simpl; [reflexivity|].
  intros H. apply orb_false_iff in H. destruct H as [Hc Hs].
  rewrite Hc, (IH Hs). reflexivity.
Qed.

Lemma split_not_empty (sep : ascii) (s : string) : split sep s <> [].
Proof.
  destruct s as [|c s]; simpl; [discriminate|].
  destruct (Ascii.eqb c sep); [discriminate|].
  destruct (split sep s); discriminate.
Qed.

Lemma split_app (sep : ascii) (s t : string) :
  split sep (s ++ String sep t)%string = split sep s ++ split sep t.
Proof.
  induction s as [|c s IH]; simpl.
  - now rewrite Ascii.eqb_refl.
  - destruct (Ascii.eqb c sep); [now rewrite IH|].
    rewrite IH. pose proof (split_not_empty sep s) as Hne.
    destruct (split sep s) as [|first others]; [contradiction|reflexivity].
Qed.

(** X20.  [validate_image_format] decides by what follows the last
    dot, case-insensitively and whatever precedes it; and a name with
    no dot at all is judged as if it were its own extension, so a file
    called [png] is accepted. *)
Theorem validate_image_format_by_extension (stem ext : string) :
  has_char "." ext = false ->
  validate_image_format (stem ++ "." ++ ext)
  = existsb (String.eqb (lower ext)) supported_formats
  /\ validate_image_format ext
     = existsb (String.eqb (lower ext)) supported_formats.
Proof.
  intros Hext.
  assert (Hlow : has_char "." (lower ext) = false)
    by now rewrite has_char_lower.
  unfold validate_image_format. cbv zeta. split.
  - destruct (String.eqb_spec (stem ++ "." ++ ext) "") as [E|_].
    { destruct stem; discriminate E. }
    rewrite lower_app. cbn [lower append].
    change (lower_char ".") with "."%char.
    rewrite split_app, (split_without_separator "." _ Hlow), last_last.
    reflexivity.
  - destruct (String.eqb_spec ext "") as [->|_]; [reflexivity|].
    now rewrite (split_without_separator "." _ Hlow).
Qed.

Lemma validate_image_format_of_upper_case_name :
  validate_image_format ("Holiday.Final" ++ "." ++ "JPG")
  = existsb (String.eqb (lower "JPG")) supported_formats
  /\ validate_image_format "JPG"
     = existsb (String.eqb (lower "JPG")) supported_formats.
Proof.
  apply (validate_image_format_by_extension "Holiday.Final" "JPG").
  reflexivity.
Defined.
End Validation.

Section Loading.
Import ImageLoading.
Variable image_open : string -> outcome Image.
Variable requests_get : string -> fetched.

Lemma substring_all (s : string) : substring 0 (String.length s - 0) s = s.
Proof.
  rewrite Nat.sub_0_r. induction s as [|c s IH]; simpl; [reflexivity|].
  now rewrite IH.
Qed.

(** X21.  [load_image_from_file] never raises and returns either an
    image or an error, never both.  A name with an unsupported
    extension is refused before the stream is touched; a file above
    the size limit is refused with the stream rewound; in both cases
    the decoder plays no part.  Otherwise the decoder receives the
    whole content whatever the position of the stream was, the stream
    is left at its end, and the image returned is the decoded one
    converted to RGB. *)
Theorem load_image_from_file_outcome (f : UploadedFile) (w : World) :
  let format_ok := validate_image_format (uf_name f) in
  let size_ok := validate_image_size (Z.of_nat (String.length (uf_data f))) in
  exists image error f' w',
    load_image_from_file image_open (Some f) w
    = (Returns ((image, error), Some f'), w')
    /\ uf_name f' = uf_name f
    /\ uf_data f' = uf_data f
    /\ (image = None <-> error <> None)
    /\ (format_ok = false -> f' = f /\ w' = w /\ image = None)
    /\ (format_ok = true -> size_ok = false ->
        uf_position f' = 0%nat /\ w' = w /\ image = None)
    /\ (format_ok && size_ok = false ->
        forall other_open,
          load_image_from_file other_open (Some f) w
          = load_image_from_file image_open (Some f) w)
    /\ (format_ok = true -> size_ok = true ->
        uf_position f' = String.length (uf_data f)
        /\ match image_open (uf_data f) with
           | Returns opened =>
               image = Some (mkImage "RGB" (size opened))
               /\ w' = set_st_log
                         (st_log w ++ [StSuccess "✅ Image loaded successfully!"])
                         w
           | Raises e =>
               error = Some ("Error loading image: " ++ e)%string /\ w' = w
           end).
Proof.
  cbv zeta. unfold load_image_from_file.
  destruct (validate_image_format (uf_name f)) eqn:Hformat; cbn [negb].
  2:{ exists None. eexists. exists f, w. split; [reflexivity|].
      repeat split; try discriminate; try reflexivity. }
  cbv zeta. unfold seek. cbn [uf_position uf_data uf_name].
  destruct (validate_image_size (Z.of_nat (String.length (uf_data f))))
    eqn:Hsize; cbn [negb].
  2:{ exists None. eexists. eexists. exists w. split; [reflexivity|].
      repeat split; try discriminate; try reflexivity. }
  unfold read. cbn [uf_position uf_data uf_name].
  rewrite substring_all, Nat.max_0_l.
  unfold try_except, bind, CoordinatorAgent.lift_outcome, st, modify, ret.
  destruct (image_open (uf_data f)) as [opened|e].
  - eexists. eexists. eexists. eexists. split; [reflexivity|].
    cbn. repeat split; try discriminate; try reflexivity.
    intros H. now contradiction H.
  - eexists. eexists. eexists. eexists. split; [reflexivity|].
    cbn. repeat split; try discriminate; try reflexivity.
Qed.

(** X22.  A URL that does not begin with [http://] or [https://] is
    refused with an error and without a request: the result does not
    depend on the network or on the decoder, and the world is
    untouched.  White space is not trimmed before this test. *)
Theorem load_image_from_url_checks_before_fetching (url : string) (w : World) :
  String.prefix "http://" url || String.prefix "https://" url = false ->
  (exists error,
      load_image_from_url image_open requests_get url w
      = (Returns (None, Some error), w))
  /\ forall other_open other_get,
       load_image_from_url other_open other_get url w
       = load_image_from_url image_open requests_get url w.
Proof.
  intros Hscheme. unfold load_image_from_url. rewrite Hscheme. cbn [negb].
  split.
  - destruct (String.eqb url "" || String.eqb (strip url) "");
      eexists; reflexivity.
  - intros other_open other_get.
    destruct (String.eqb url "" || String.eqb (strip url) ""); reflexivity.
Qed.

Lemma strip_of_letter (c : ascii) (s : string) :
  is_space c = false -> strip (String c s) <> ""%string.
Proof.
  intros Hc. unfold strip. cbn [lstrip]. rewrite Hc.
  unfold rstrip. cbn [rstrip_aux]. rewrite Hc.
  destruct (rstrip_aux s); discriminate.
Qed.

(** X23.  [load_image_from_url] never raises and returns either an
    image or an error, never both, leaving the world untouched unless
    it returns an image.  An image is returned only for an HTTP(S)
    address whose request succeeded with a good status and whose body
    the decoder accepted, and it is the decoded image converted to RGB.
    For such an address, a request that ends in a [RequestException]
    is reported as a download error, and one that ends in any other
    exception as a processing error. *)
Theorem load_image_from_url_outcome (url : string) (w : World) :
  exists image error w',
    load_image_from_url image_open requests_get url w
    = (Returns (image, error), w')
    /\ (image = None <-> error <> None)
    /\ (image = None -> w' = w)
    /\ (forall img,
           image = Some img ->
           String.prefix "http://" url || String.prefix "https://" url = true
           /\ exists response opened,
                requests_get url = Fetched response
                /\ status_error response = None
                /\ image_open (content response) = Returns opened
                /\ img = mkImage "RGB" (size opened))
    /\ (String.prefix "http://" url || String.prefix "https://" url = true ->
        (forall e, requests_get url = RequestException e ->
                   error = Some ("Error downloading image: " ++ e)%string)
        /\ (forall e, requests_get url = OtherException e ->
                      error
                      = Some ("Error processing image from URL: " ++ e)%string)
        /\ (forall response e,
               requests_get url = Fetched response ->
               status_error response = Some e ->
               error = Some ("Error downloading image: " ++ e)%string)).
Proof.
  unfold load_image_from_url.
  destruct (String.prefix "http://" url || String.prefix "https://" url)
    eqn:Hscheme.
  2:{ destruct (String.eqb url "" || String.eqb (strip url) "");
        (eexists; eexists; eexists; split; [reflexivity|]);
        repeat split; try discriminate; try reflexivity. }
  assert (Hblank : String.eqb url "" || String.eqb (strip url) "" = false).
  { destruct url as [|c s]; [discriminate Hscheme|].
    assert (Hc : c = "h"%char).
    { apply orb_prop in Hscheme.
      destruct Hscheme as [H|H]; apply prefix_correct in H;
        cbn [String.length substring] in H; now injection H. }
    subst c. cbn [String.eqb orb].
    apply String.eqb_neq. now apply strip_of_letter. }
  rewrite Hblank. cbn [negb].
  destruct (requests_get url) as [response|e|e].
  2:{ (eexists; eexists; eexists; split; [reflexivity|]).
      repeat split; try discriminate; try reflexivity.
      intros e0 [= <-]. reflexivity. }
  2:{ (eexists; eexists; eexists; split; [reflexivity|]).
      repeat split; try discriminate; try reflexivity.
      intros e0 [= <-]. reflexivity. }
  destruct (status_error response) as [e|] eqn:Hstatus.
  { (eexists; eexists; eexists; split; [reflexivity|]).
    repeat split; try discriminate; try reflexivity.
    intros response0 e0 [= <-] He. congruence. }
  destruct (existsb _ image_type_markers); cbn [negb].
  2:{ (eexists; eexists; eexists; split; [reflexivity|]).
      repeat split; try discriminate; try reflexivity.
      intros response0 e0 [= <-] He. congruence. }
  unfold try_except, bind, CoordinatorAgent.lift_outcome, st, modify, ret.
  destruct (image_open (content response)) as [opened|e] eqn:Hopen.
  - (eexists; eexists; eexists; split; [reflexivity|]).
    split; [split; [discriminate|intros H; now contradiction H]|].
    split; [discriminate|]. split.
    + intros img [= <-]. split; [reflexivity|].
      exists response, opened. repeat split; auto.
    + intros _. repeat split; try discriminate.
      intros response0 e0 [= <-] He. congruence.
  - (eexists; eexists; eexists; split; [reflexivity|]).
    repeat split; try discriminate; try reflexivity.
    intros response0 e0 [= <-] He. congruence.
Qed.
End Loading.

Section LoadingExamples.
Import ImageLoading.

(** A good address behind a blank is refused without a request. *)
Lemma load_image_from_url_with_leading_blank :
  (exists error,
      load_image_from_url decodes_everything offline
        " https://example.com/cat.png" running_app
      = (Returns (None, Some error), running_app))
  /\ forall other_open other_get,
       load_image_from_url other_open other_get
         " https://example.com/cat.png" running_app
       = load_image_from_url decodes_everything offline
           " https://example.com/cat.png" running_app.
Proof.
  apply (load_image_from_url_checks_before_fetching decodes_everything
           offline " https://example.com/cat.png" running_app).
  reflexivity.
Defined.
End LoadingExamples.
